(** * Channel chat service: message mutations, presence, mentions, channels

    A shallow embedding of the backend's models (Message, Channel, User,
    Notification), of the HTTP controllers and of the Socket.IO handlers,
    with the properties of the specification stated against them.

    Conventions of the embedding.
    - A MongoDB collection is the list of its documents in natural order;
      [findOne] returns the first document that satisfies the filter.
    - An ObjectId is represented by the string its [toString()] yields, so
      that [a.toString() === b.toString()] is string equality.
    - A JavaScript string is a [string] of code units below 256.
    - [Date.now()] is an argument [now], in milliseconds: one reading of
      the clock for a request, which is also what a [save()] of the request
      writes to [updated_at].
    - The id in the path of a request is a well-formed ObjectId; the ids of
      a list in a request body are arbitrary strings, which the query casts.
    - The id the driver gives to a new document is an argument [fresh].
    - A handler returns the database it leaves behind together with its
      reply; events emitted to rooms are not part of the state. *)

From Stdlib Require Import List String Ascii ZArith Lia Bool Arith.
From Stdlib Require Import Sorted Permutation.
Import ListNotations.

Set Implicit Arguments.

Open Scope string_scope.
Open Scope nat_scope.
Open Scope list_scope.

(** ** JavaScript strings *)

Module Js.

Definition ObjectId := string.

Definition code (c : ascii) : nat := nat_of_ascii c.

(** White space removed by [String.prototype.trim]: TAB, LF, VT, FF, CR,
    SPACE and NBSP. *)
Definition is_space (c : ascii) : bool :=
  let n := code c in
  ((9 <=? n) && (n <=? 13)) || (n =? 32) || (n =? 160).

(** The class [\w]: [A-Za-z0-9_]. *)
Definition is_word (c : ascii) : bool :=
  let n := code c in
  ((48 <=? n) && (n <=? 57)) || ((65 <=? n) && (n <=? 90))
  || ((97 <=? n) && (n <=? 122)) || (n =? 95).

Fixpoint trimStart (s : string) : string :=
  match s with
  | EmptyString => EmptyString
  | String c r => if is_space c then trimStart r else s
  end.

Fixpoint rev (s : string) : string :=
  match s with
  | EmptyString => EmptyString
  | String c r => (rev r ++ String c EmptyString)%string
  end.

Definition trim (s : string) : string := rev (trimStart (rev (trimStart s))).

(** [!content || content.trim() === ''] for a value that is absent
    ([undefined]) or a string. *)
Definition blank (content : option string) : bool :=
  match content with
  | None => true
  | Some s => String.eqb s "" || String.eqb (trim s) ""
  end.

(** [toLowerCase] on the letters [A-Z].  The strings that are compared up
    to case are matched against word characters or against
    [/^[a-z0-9-_]+$/], which no other letter can meet. *)
Definition lower_char (c : ascii) : ascii :=
  let n := code c in
  if (65 <=? n) && (n <=? 90) then ascii_of_nat (n + 32) else c.

Fixpoint toLowerCase (s : string) : string :=
  match s with
  | EmptyString => EmptyString
  | String c r => String (lower_char c) (toLowerCase r)
  end.

(** [s.substring(1)]. *)
Definition substring1 (s : string) : string :=
  match s with
  | EmptyString => EmptyString
  | String _ r => r
  end.

(** [xs.includes(x)] on a Mongoose array of ObjectIds, which compares the
    ids and not the object identities. *)
Definition includes (xs : list ObjectId) (x : ObjectId) : bool :=
  existsb (String.eqb x) xs.

(** The strings that cast to an ObjectId: 24 hexadecimal digits.  (Drivers
    before bson 5 also take any string of 12 bytes.) *)
Definition is_hex (c : ascii) : bool :=
  let n := code c in
  ((48 <=? n) && (n <=? 57)) || ((97 <=? n) && (n <=? 102))
  || ((65 <=? n) && (n <=? 70)).

Definition isObjectIdString (s : string) : bool :=
  (String.length s =? 24) && forallb is_hex (list_ascii_of_string s).

End Js.

Import Js.

(** ** Failures

    [AppError] is what a controller hands to [next]; a [ValidationError] is
    what Mongoose raises when a schema validator rejects a document; a
    [TypeError] is a property read on [null] or [undefined]; a [CastError]
    is what Mongoose raises when a value of a query does not cast to the
    type of its path. *)

Inductive Error : Type :=
| AppError (message : string) (statusCode : nat)
| ValidationError (message : string)
| TypeError (message : string)
| CastError (value path : string).

Inductive Result (A : Type) : Type :=
| Ok (a : A)
| Fail (e : Error).

Arguments Ok {A} a.
Arguments Fail {A} e.

Definition is_ok {A} (r : Result A) : bool :=
  match r with Ok _ => true | Fail _ => false end.

(** ** The Message model *)

Module Reaction.

Record t : Type := mk
  { emoji : string;
    user_id : ObjectId;
    created_at : Z }.

(** The pair a reaction is identified by. *)
Definition key (r : t) : string * ObjectId := (emoji r, user_id r).

End Reaction.

Module Message.

(** The fields of the schema that the handlers read or write.  The fields
    [file_type] and [file_metadata] of an attachment and the version key
    [__v] are not part of the record: nothing is stated about them. *)
Record t : Type := mk
  { _id : ObjectId;
    content : option string;
    author_id : ObjectId;
    channel_id : ObjectId;
    thread_parent_id : option ObjectId;
    file_url : option string;
    reactions : list Reaction.t;
    is_deleted : bool;
    is_edited : bool;
    is_pinned : bool;
    created_at : Z;
    updated_at : Z }.

(** The schema sets [timestamps]: the pre-save hook of [save()] writes the
    clock to [updated_at] when a path of the stored document was modified.
    Assigning to a path the value it has does not modify it, and a save
    without a modified path writes nothing.  [now] is the clock at the
    save. *)

(** [this.reactions] changed to [rs], then [this.save()]. *)
Definition set_reactions (rs : list Reaction.t) (now : Z) (m : t) : t :=
  mk (_id m) (content m) (author_id m) (channel_id m) (thread_parent_id m)
     (file_url m) rs (is_deleted m) (is_edited m) (is_pinned m)
     (created_at m) now.

(** [message.is_pinned = b; await message.save()]. *)
Definition set_pinned (b : bool) (now : Z) (m : t) : t :=
  if Bool.eqb (is_pinned m) b then m
  else mk (_id m) (content m) (author_id m) (channel_id m)
          (thread_parent_id m) (file_url m) (reactions m) (is_deleted m)
          (is_edited m) b (created_at m) now.

(** [message.content = c; message.is_edited = true;
    message.updated_at = Date.now()]. *)
Definition set_edited (c : option string) (now : Z) (m : t) : t :=
  mk (_id m) c (author_id m) (channel_id m) (thread_parent_id m)
     (file_url m) (reactions m) (is_deleted m) true (is_pinned m)
     (created_at m) now.

Definition tombstone : string := "[This message has been deleted]".

(** The message is deleted and its content is the tombstone already. *)
Definition is_tombstone (m : t) : bool :=
  is_deleted m
  && match content m with
     | Some s => String.eqb s tombstone
     | None => false
     end.

(** [message.is_deleted = true; message.content = '[This message has been
    deleted]'; await message.save()]. *)
Definition set_deleted (now : Z) (m : t) : t :=
  if is_tombstone m then m
  else mk (_id m) (Some tombstone) (author_id m) (channel_id m)
          (thread_parent_id m) (file_url m) (reactions m) true (is_edited m)
          (is_pinned m) (created_at m) now.

(** Schema validator [maxlength: 2000] of [content]. *)
Definition content_valid (c : option string) : bool :=
  match c with
  | None => true
  | Some s => String.length s <=? 2000
  end.

Definition too_long : Error :=
  ValidationError "Message cannot exceed 2000 characters".

(** [canBeEdited]:
    [fiveMinutesAgo = new Date(Date.now() - 5 * 60 * 1000);
     return this.created_at > fiveMinutesAgo && !this.is_deleted]. *)
Definition canBeEdited (now : Z) (m : t) : bool :=
  let fiveMinutesAgo := (now - 5 * 60 * 1000)%Z in
  (fiveMinutesAgo <? created_at m)%Z && negb (is_deleted m).

(** The predicate of [reactions.find] and [reactions.filter]. *)
Definition same_reaction (e : string) (userId : ObjectId) (r : Reaction.t)
  : bool :=
  String.eqb (Reaction.emoji r) e && String.eqb (Reaction.user_id r) userId.

(** [addReaction]: an existing reaction returns [this] without saving;
    otherwise the reaction is pushed and the document saved.  The save
    runs the validator [required] of the new reaction's emoji, which
    rejects the empty string. *)
Definition addReaction (e : string) (userId : ObjectId) (now : Z) (m : t)
  : Result t :=
  match find (same_reaction e userId) (reactions m) with
  | Some _ => Ok m
  | None =>
      if String.eqb e ""
      then Fail (ValidationError "Path `emoji` is required.")
      else Ok (set_reactions (reactions m ++ [Reaction.mk e userId now]) now m)
  end.

(** [removeReaction]: the reactions are filtered and the document saved;
    removing entries cannot make a validator fail.  When the filter removes
    nothing, the array assigned equals the one it replaces and the save
    has nothing to write. *)
Definition removeReaction (e : string) (userId : ObjectId) (now : Z) (m : t)
  : t :=
  if existsb (same_reaction e userId) (reactions m) then
    set_reactions
      (filter (fun r => negb (same_reaction e userId r)) (reactions m)) now m
  else m.

(** Invariant of the reaction set: no two entries with the same
    (emoji, user) pair. *)
Definition unique_reactions (m : t) : Prop :=
  NoDup (map Reaction.key (reactions m)).

Definition has_reaction (e : string) (userId : ObjectId) (m : t) : Prop :=
  In (e, userId) (map Reaction.key (reactions m)).

(** A request on the reactions of one message, as either transport
    issues it. *)
Inductive ReactionOp : Type :=
| Add (e : string) (userId : ObjectId) (now : Z)
| Remove (e : string) (userId : ObjectId) (now : Z).

(** The stored document after one request: a failed save leaves it as it
    was. *)
Definition react (m : t) (op : ReactionOp) : t :=
  match op with
  | Add e u now =>
      match addReaction e u now m with
      | Ok m' => m'
      | Fail _ => m
      end
  | Remove e u now => removeReaction e u now m
  end.

Definition react_all (ops : list ReactionOp) (m : t) : t :=
  fold_left react ops m.

End Message.

(** ** The User model *)

Module User.

Inductive Role : Type := admin | member.

(** The fields of the schema that the handlers read or write.  The fields
    [password_hash], [bio], [updated_at] and [__v] are not part of the
    record: nothing is stated about them. *)
Record t : Type := mk
  { _id : ObjectId;
    email : string;
    display_name : string;
    role : Role;
    is_online : bool;
    last_seen : Z;
    created_at : Z }.

(** The update document of [updateUserStatus]:
    [{ is_online: isOnline, last_seen: Date.now() }]. *)
Definition set_status (isOnline : bool) (now : Z) (u : t) : t :=
  mk (_id u) (email u) (display_name u) (role u) isOnline now (created_at u).

Definition findById (users : list t) (id : ObjectId) : option t :=
  find (fun u => String.eqb (_id u) id) users.

(** [findByIdAndUpdate(id, update)]: the document with that id is
    updated; nothing happens when there is none. *)
Definition findByIdAndUpdate (users : list t) (id : ObjectId) (f : t -> t)
  : list t :=
  map (fun u => if String.eqb (_id u) id then f u else u) users.

(** [findOne({ display_name: { $regex: new RegExp(`^${username}$`, 'i') } })]
    for a [username] made of word characters: the first user whose
    display name is [username] up to the case of letters. *)
Definition findOneByDisplayName (users : list t) (username : string)
  : option t :=
  find (fun u => String.eqb (toLowerCase (display_name u))
                            (toLowerCase username)) users.

(** The first document of [users] in the order [sort({ created_at: 1 })]:
    one with the least [created_at] (the earliest in natural order among
    equals). *)
Fixpoint earliest (users : list t) : option t :=
  match users with
  | [] => None
  | u :: rest =>
      match earliest rest with
      | None => Some u
      | Some v => if (created_at u <=? created_at v)%Z then Some u else Some v
      end
  end.

End User.

(** ** The Channel model *)

Module Channel.

Inductive Type_ : Type := public | dm.

Definition type_eqb (a b : Type_) : bool :=
  match a, b with
  | public, public | dm, dm => true
  | _, _ => false
  end.

(** The fields of the schema.  The fields [updated_at] and [__v], which
    Mongoose maintains at every save and no code of the repository reads,
    are not part of the record: nothing is stated about them. *)
Record t : Type := mk
  { _id : ObjectId;
    name : string;
    type : Type_;
    created_by : ObjectId;
    members : list ObjectId;
    created_at : Z }.

Definition set_created_by (u : ObjectId) (c : t) : t :=
  mk (_id c) (name c) (type c) u (members c) (created_at c).

Definition set_members (ms : list ObjectId) (c : t) : t :=
  mk (_id c) (name c) (type c) (created_by c) ms (created_at c).

Definition findById (channels : list t) (id : ObjectId) : option t :=
  find (fun c => String.eqb (_id c) id) channels.

(** [channel.save()] of a document read from the collection. *)
Definition save (channels : list t) (c : t) : list t :=
  map (fun d => if String.eqb (_id d) (_id c) then c else d) channels.

Definition findByIdAndDelete (channels : list t) (id : ObjectId) : list t :=
  filter (fun c => negb (String.eqb (_id c) id)) channels.

(** [isChannelLimitReached]: [countDocuments({ type: 'public' }) >= 10]. *)
Definition isChannelLimitReached (channels : list t) : bool :=
  10 <=? List.length (filter (fun c => type_eqb (type c) public) channels).

(** [findDmChannel]:
    [findOne({ type: 'dm', members: { $all: [user1Id, user2Id], $size: 2 } })]. *)
Definition is_dm_of (user1Id user2Id : ObjectId) (c : t) : bool :=
  type_eqb (type c) dm
  && (includes (members c) user1Id && includes (members c) user2Id)
  && (List.length (members c) =? 2).

Definition findDmChannel (channels : list t) (user1Id user2Id : ObjectId)
  : option t :=
  find (is_dm_of user1Id user2Id) channels.

(** The validator [match: /^[a-z0-9-_]+$/]. *)
Definition name_char (c : ascii) : bool :=
  let n := code c in
  ((97 <=? n) && (n <=? 122)) || ((48 <=? n) && (n <=? 57))
  || (n =? 45) || (n =? 95).

Fixpoint all_name_chars (s : string) : bool :=
  match s with
  | EmptyString => true
  | String c r => name_char c && all_name_chars r
  end.

Definition nameRegex_test (s : string) : bool :=
  negb (String.eqb s "") && all_name_chars s.

(** The schema of [name]: the setters [trim] and [lowercase], then the
    validators [required], [minlength: 3], [maxlength: 50] and [match]. *)
Definition validate_name (raw : string) : Result string :=
  let n := toLowerCase (trim raw) in
  if String.eqb n "" then
    Fail (ValidationError "Channel name is required")
  else if String.length n <? 3 then
    Fail (ValidationError "Channel name must be at least 3 characters")
  else if 50 <? String.length n then
    Fail (ValidationError "Channel name cannot exceed 50 characters")
  else if negb (nameRegex_test n) then
    Fail (ValidationError
      "Channel name can only contain lowercase letters, numbers, hyphens and underscores")
  else Ok n.

(** The schema of [type]: [enum: ['public', 'dm']]. *)
Definition validate_type (raw : string) : Result Type_ :=
  if String.eqb raw "public" then Ok public
  else if String.eqb raw "dm" then Ok dm
  else Fail (ValidationError "`type` is not a valid enum value").

(** [Channel.create(data)]: validation, the pre-save hook that adds the
    creator to the members of a new channel, and the insertion, which the
    unique index on [name] refuses for a name already in use. *)
Definition create (channels : list t) (fresh : ObjectId) (now : Z)
           (raw_name raw_type : string) (creator : ObjectId)
           (ms : list ObjectId) : Result t :=
  match validate_name raw_name with
  | Fail e => Fail e
  | Ok n =>
      match validate_type raw_type with
      | Fail e => Fail e
      | Ok ty =>
          let ms' := if includes ms creator then ms else ms ++ [creator] in
          if existsb (fun c => String.eqb (name c) n) channels
          then Fail (ValidationError "E11000 duplicate key error: name")
          else Ok (mk fresh n ty creator ms' now)
      end
  end.

End Channel.

(** ** The Notification model *)

Module Notification.

Inductive Type_ : Type := mention | message | reply | channel_invite.

(** The fields of the schema.  The fields [updated_at] and [__v], which
    Mongoose maintains at every update and no code of the repository reads,
    are not part of the record: nothing is stated about them. *)
Record t : Type := mk
  { _id : ObjectId;
    recipient_id : ObjectId;
    sender_id : ObjectId;
    type : Type_;
    message_id : option ObjectId;
    channel_id : option ObjectId;
    content : string;
    is_read : bool;
    created_at : Z }.

Definition set_read (n : t) : t :=
  mk (_id n) (recipient_id n) (sender_id n) (type n) (message_id n)
     (channel_id n) (content n) true (created_at n).

(** The filter of [markAsRead]: [{ recipient_id: recipientId }], with
    [_id: { $in: notificationIds }] added when the list is not empty. *)
Definition matches (recipientId : ObjectId) (notificationIds : list ObjectId)
           (n : t) : bool :=
  String.eqb (recipient_id n) recipientId
  && match notificationIds with
     | [] => true
     | _ :: _ => includes notificationIds (_id n)
     end.

(** [updateMany(filter, { is_read: true })] on the documents, once the
    filter is cast. *)
Definition updateMany (ns : list t) (recipientId : ObjectId)
           (notificationIds : list ObjectId) : list t :=
  map (fun n => if matches recipientId notificationIds n
                then set_read n else n) ns.

(** [markAsRead(recipientId, notificationIds = [])]: the query casts the
    ids of [$in] to ObjectIds and throws at the first that does not cast;
    nothing is updated then. *)
Definition markAsRead (ns : list t) (recipientId : ObjectId)
           (notificationIds : list ObjectId) : Result (list t) :=
  match find (fun i => negb (isObjectIdString i)) notificationIds with
  | Some value => Fail (CastError value "_id")
  | None => Ok (updateMany ns recipientId notificationIds)
  end.

(** [n'] is [n] marked as read: [is_read] is set and the other fields are
    those of [n]. *)
Definition marked (n n' : t) : Prop :=
  is_read n' = true
  /\ _id n' = _id n
  /\ recipient_id n' = recipient_id n
  /\ sender_id n' = sender_id n
  /\ type n' = type n
  /\ message_id n' = message_id n
  /\ channel_id n' = channel_id n
  /\ content n' = content n
  /\ created_at n' = created_at n.

End Notification.

(** ** The database *)

Record Db : Type := mkDb
  { users : list User.t;
    channels : list Channel.t;
    messages : list Message.t;
    notifications : list Notification.t }.

Definition set_users (us : list User.t) (db : Db) : Db :=
  mkDb us (channels db) (messages db) (notifications db).

Definition set_channels (cs : list Channel.t) (db : Db) : Db :=
  mkDb (users db) cs (messages db) (notifications db).

Definition set_messages (ms : list Message.t) (db : Db) : Db :=
  mkDb (users db) (channels db) ms (notifications db).

Definition set_notifications (ns : list Notification.t) (db : Db) : Db :=
  mkDb (users db) (channels db) (messages db) ns.

Definition Message_findById (ms : list Message.t) (id : ObjectId)
  : option Message.t :=
  find (fun m => String.eqb (Message._id m) id) ms.

(** [message.save()] of a document read from the collection. *)
Definition Message_save (ms : list Message.t) (m : Message.t)
  : list Message.t :=
  map (fun d => if String.eqb (Message._id d) (Message._id m) then m else d) ms.

(** ** The HTTP controllers

    [req.user] is the argument [me]; a controller answers either with
    [res.status(n).json(data)] or by handing an error to [next]. *)

Inductive Response (A : Type) : Type :=
| Json (status : nat) (data : A)
| Next (e : Error).

Arguments Json {A} status data.
Arguments Next {A} e.

Definition not_a_member : Error :=
  AppError "You are not a member of this channel" 403.

Definition thread_depth_exceeded : Error :=
  AppError "Thread depth limit reached (max 3 levels)" 400.

Definition edit_window_expired : Error :=
  AppError "Message can only be edited within 5 minutes of sending" 400.

(** A value used as a condition: [undefined], [null] and [''] are falsy. *)
Definition truthy (v : option string) : bool :=
  match v with
  | None => false
  | Some s => negb (String.eqb s "")
  end.

(** [req.file] used as a condition. *)
Definition present {A} (v : option A) : bool :=
  match v with Some _ => true | None => false end.

(** [v || null]. *)
Definition or_null (v : option string) : option string :=
  if truthy v then v else None.

(** The read [o.thread_parent_id] where [o] is the ObjectId held by the
    field [thread_parent_id] of a document that [findById] returned without
    [populate]: an ObjectId has no such property, the read is [undefined]. *)
Definition ObjectId_thread_parent_id (o : ObjectId) : option ObjectId := None.

(** [s !== o] for a string [s] and an ObjectId object [o], as in
    [message.author_id.toString() !== socket.user.id], where
    [socket.user.id] is the [user._id] the authentication stored: a string
    and an object are never strictly equal, whatever the id prints as. *)
Definition string_differs_from_object (s : string) (o : ObjectId) : bool :=
  true.

(** [parentMessage.thread_parent_id &&
     parentMessage.thread_parent_id.thread_parent_id]. *)
Definition depth_limit_reached (parentMessage : Message.t) : bool :=
  match Message.thread_parent_id parentMessage with
  | None => false
  | Some o => truthy (Some o) && truthy (ObjectId_thread_parent_id o)
  end.

Module Http.

(** [createMessage].  [file] is [req.file] together with the answer of the
    attachment store to its upload: the url, or the error it throws. *)
Definition createMessage (db : Db) (me : User.t)
           (content : option string) (channel_id : option ObjectId)
           (thread_parent_id : option ObjectId)
           (file : option (Result string))
           (fresh : ObjectId) (now : Z) : Db * Response Message.t :=
  if blank content && negb (present file) then
    (db, Next (AppError "Message must have content or a file attachment" 400))
  else if truthy content
          && (2000 <? String.length (match content with Some s => s | None => "" end))
  then (db, Next (AppError "Message cannot exceed 2000 characters" 400))
  else
    match channel_id with
    | None => (db, Next (AppError "Channel not found" 404))
    | Some cid =>
    match Channel.findById (channels db) cid with
    | None => (db, Next (AppError "Channel not found" 404))
    | Some channel =>
        if negb (includes (Channel.members channel) (User._id me)) then
          (db, Next not_a_member)
        else if present file
                && negb (Channel.type_eqb (Channel.type channel) Channel.dm)
        then (db, Next (AppError
                "File uploads are only allowed in direct messages" 400))
        else
          let parent_check : option Error :=
            match or_null thread_parent_id with
            | None => None
            | Some pid =>
                match Message_findById (messages db) pid with
                | None => Some (AppError "Parent message not found" 404)
                | Some parentMessage =>
                    if depth_limit_reached parentMessage
                    then Some thread_depth_exceeded
                    else None
                end
            end in
          match parent_check with
          | Some e => (db, Next e)
          | None =>
              let upload : Result (option string) :=
                match file with
                | None => Ok None
                | Some (Ok url) => Ok (Some url)
                | Some (Fail e) => Fail e
                end in
              match upload with
              | Fail e => (db, Next e)
              | Ok file_url =>
                  let message :=
                    Message.mk fresh
                      (Some (match content with Some s => s | None => "" end))
                      (User._id me) cid (or_null thread_parent_id) file_url
                      [] false false false now now in
                  (set_messages (messages db ++ [message]) db,
                   Json 201 message)
              end
          end
    end
    end.

(** [editMessage]. *)
Definition editMessage (db : Db) (me : User.t) (id : ObjectId)
           (content : option string) (now : Z) : Db * Response Message.t :=
  if blank content then
    (db, Next (AppError "Message content is required" 400))
  else if 2000 <? String.length (match content with Some s => s | None => "" end)
  then (db, Next (AppError "Message cannot exceed 2000 characters" 400))
  else
    match Message_findById (messages db) id with
    | None => (db, Next (AppError "Message not found" 404))
    | Some message =>
        if negb (String.eqb (Message.author_id message) (User._id me)) then
          (db, Next (AppError "Not authorized to edit this message" 403))
        else if negb (Message.canBeEdited now message) then
          (db, Next edit_window_expired)
        else
          let message' := Message.set_edited content now message in
          (set_messages (Message_save (messages db) message') db,
           Json 200 message')
    end.

(** [deleteMessage]. *)
Definition deleteMessage (db : Db) (me : User.t) (id : ObjectId) (now : Z)
  : Db * Response unit :=
  match Message_findById (messages db) id with
  | None => (db, Next (AppError "Message not found" 404))
  | Some message =>
      if negb (String.eqb (Message.author_id message) (User._id me)) then
        (db, Next (AppError "Not authorized to delete this message" 403))
      else
        (set_messages
           (Message_save (messages db) (Message.set_deleted now message)) db,
         Json 200 tt)
  end.

(** [pinMessage]; the reply carries the message. *)
Definition pinMessage (db : Db) (me : User.t) (id : ObjectId) (now : Z)
  : Db * Response (option Message.t) :=
  match Message_findById (messages db) id with
  | None => (db, Next (AppError "Message not found" 404))
  | Some message =>
      if Message.is_deleted message then
        (db, Next (AppError "Cannot pin a deleted message" 400))
      else
        match Channel.findById (channels db) (Message.channel_id message) with
        | None => (db, Next (AppError "Channel not found" 404))
        | Some channel =>
            if negb (includes (Channel.members channel) (User._id me)) then
              (db, Next not_a_member)
            else
              let message' := Message.set_pinned true now message in
              (set_messages (Message_save (messages db) message') db,
               Json 200 (Some message'))
        end
  end.

(** [unpinMessage]; the reply carries [null]. *)
Definition unpinMessage (db : Db) (me : User.t) (id : ObjectId) (now : Z)
  : Db * Response (option Message.t) :=
  match Message_findById (messages db) id with
  | None => (db, Next (AppError "Message not found" 404))
  | Some message =>
      if negb (Message.is_pinned message) then
        (db, Next (AppError "Message is not pinned" 400))
      else
        match Channel.findById (channels db) (Message.channel_id message) with
        | None => (db, Next (AppError "Channel not found" 404))
        | Some channel =>
            if negb (includes (Channel.members channel) (User._id me)) then
              (db, Next not_a_member)
            else
              let message' := Message.set_pinned false now message in
              (set_messages (Message_save (messages db) message') db,
               Json 200 None)
        end
  end.

(** [createChannel]; [type] defaults to ['public']. *)
Definition createChannel (db : Db) (me : User.t) (name : option string)
           (type : option string) (fresh : ObjectId) (now : Z)
  : Db * Response Channel.t :=
  let type := match type with Some t => t | None => "public" end in
  match name with
  | None => (db, Next (AppError "Channel name is required" 400))
  | Some name =>
      if blank (Some name) then
        (db, Next (AppError "Channel name is required" 400))
      else if negb (Channel.nameRegex_test name) then
        (db, Next (AppError
           "Channel name can only contain lowercase letters, numbers, hyphens and underscores"
           400))
      else if existsb (fun c => String.eqb (Channel.name c) (toLowerCase name))
                      (channels db)
      then (db, Next (AppError "Channel name already exists" 400))
      else if String.eqb type "public"
              && Channel.isChannelLimitReached (channels db)
      then (db, Next (AppError
              "Channel limit reached (max 10 public channels)" 400))
      else
        match Channel.create (channels db) fresh now (toLowerCase name) type
                             (User._id me) [User._id me] with
        | Fail e => (db, Next e)
        | Ok channel =>
            (set_channels (channels db ++ [channel]) db, Json 201 channel)
        end
  end.

(** [joinChannel]. *)
Definition joinChannel (db : Db) (me : User.t) (id : ObjectId)
  : Db * Response Channel.t :=
  match Channel.findById (channels db) id with
  | None => (db, Next (AppError "Channel not found" 404))
  | Some channel =>
      if negb (Channel.type_eqb (Channel.type channel) Channel.public) then
        (db, Next (AppError "Cannot join a non-public channel" 400))
      else if includes (Channel.members channel) (User._id me) then
        (db, Next (AppError "You are already a member of this channel" 400))
      else
        let channel' :=
          Channel.set_members (Channel.members channel ++ [User._id me])
                              channel in
        (set_channels (Channel.save (channels db) channel') db,
         Json 200 channel')
  end.

(** The query of [leaveChannel] for the new creator:
    [User.findOne({ _id: { $in: channel.members, $ne: req.user._id } })
       .sort({ created_at: 1 })]. *)
Definition oldestMember (db : Db) (channel : Channel.t) (me : User.t)
  : option User.t :=
  User.earliest
    (filter (fun u => includes (Channel.members channel) (User._id u)
                      && negb (String.eqb (User._id u) (User._id me)))
            (users db)).

Definition left_message : string := "Successfully left channel".
Definition deleted_message : string := "Channel deleted as no members remain".

(** [leaveChannel]; the reply carries the message of the outcome. *)
Definition leaveChannel (db : Db) (me : User.t) (id : ObjectId)
  : Db * Response string :=
  match Channel.findById (channels db) id with
  | None => (db, Next (AppError "Channel not found" 404))
  | Some channel =>
      if negb (Channel.type_eqb (Channel.type channel) Channel.public) then
        (db, Next (AppError "Cannot leave a non-public channel" 400))
      else if negb (includes (Channel.members channel) (User._id me)) then
        (db, Next (AppError "You are not a member of this channel" 400))
      else
        let channel1 :=
          if String.eqb (Channel.created_by channel) (User._id me)
             && (1 <? List.length (Channel.members channel))
          then
            match oldestMember db channel me with
            | Some o => Channel.set_created_by (User._id o) channel
            | None => channel
            end
          else channel in
        let channel2 :=
          Channel.set_members
            (filter (fun memberId => negb (String.eqb memberId (User._id me)))
                    (Channel.members channel1))
            channel1 in
        if List.length (Channel.members channel2) =? 0 then
          (set_channels (Channel.findByIdAndDelete (channels db) id) db,
           Json 200 deleted_message)
        else
          (set_channels (Channel.save (channels db) channel2) db,
           Json 200 left_message)
  end.

(** [deleteChannel], behind the route's [restrictTo('admin')]; the
    messages of the channel are deleted with it. *)
Definition deleteChannel (db : Db) (me : User.t) (id : ObjectId)
  : Db * Response unit :=
  match User.role me with
  | User.member =>
      (db, Next (AppError
         "You do not have permission to perform this action" 403))
  | User.admin =>
      match Channel.findById (channels db) id with
      | None => (db, Next (AppError "Channel not found" 404))
      | Some channel =>
          if String.eqb (Channel.name channel) "general" then
            (db, Next (AppError "Cannot delete the general channel" 400))
          else
            (set_messages
               (filter (fun m => negb (String.eqb (Message.channel_id m) id))
                       (messages db))
               (set_channels (Channel.findByIdAndDelete (channels db) id) db),
             Json 200 tt)
      end
  end.

(** The name of a new direct channel: [`dm-${req.user._id}-${user_id}`]. *)
Definition dm_name (me user_id : ObjectId) : string :=
  ("dm-" ++ me ++ "-" ++ user_id)%string.

(** [createDmChannel]: status 200 with the existing channel, 201 with a
    new one. *)
Definition createDmChannel (db : Db) (me : User.t) (user_id : ObjectId)
           (fresh : ObjectId) (now : Z) : Db * Response Channel.t :=
  match User.findById (users db) user_id with
  | None => (db, Next (AppError "User not found" 404))
  | Some otherUser =>
      match Channel.findDmChannel (channels db) (User._id me) user_id with
      | Some existingChannel => (db, Json 200 existingChannel)
      | None =>
          match Channel.create (channels db) fresh now
                  (dm_name (User._id me) user_id) "dm" (User._id me)
                  [User._id me; user_id] with
          | Fail e => (db, Next e)
          | Ok channel =>
              (set_channels (channels db ++ [channel]) db, Json 201 channel)
          end
      end
  end.

(** [markAsRead] of the notification controller; [ids] is [None] when the
    body has no [ids] or one that is not an array. *)
Definition markAsRead (db : Db) (me : User.t) (ids : option (list ObjectId))
  : Db * Response unit :=
  let updated :=
    match ids with
    | Some (i :: rest) =>
        Notification.markAsRead (notifications db) (User._id me) (i :: rest)
    | _ => Notification.markAsRead (notifications db) (User._id me) []
    end in
  match updated with
  | Ok ns => (set_notifications ns db, Json 200 tt)
  | Fail error => (db, Next error)
  end.

End Http.

(** ** Mention processing *)

Module Mentions.

(** [content.match(/@(\w+)/g) || []]: the matches from left to right, each
    an [@] with the longest run of word characters that follows it.
    [cur] is the run collected since the last [@], if any. *)
Fixpoint scan (s : string) (cur : option string) : list string :=
  let emit (w : string) : list string :=
    if String.eqb w "" then [] else [String "@" w] in
  match s with
  | EmptyString =>
      match cur with
      | Some w => emit w
      | None => []
      end
  | String c r =>
      match cur with
      | Some w =>
          if is_word c then scan r (Some (w ++ String c EmptyString)%string)
          else emit w ++ scan r (if Ascii.eqb c "@" then Some "" else None)
      | None => scan r (if Ascii.eqb c "@" then Some "" else None)
      end
  end.

Definition mentionRegex_match (content : string) : list string :=
  scan content None.

(** The field [author_id] of the message handed to [processMentions]:
    the ObjectId a fresh document holds, or what
    [populate('author_id', 'display_name email')] put in its place, the
    author's document or [null] when there is none. *)
Inductive AuthorField : Type :=
| Unpopulated (id : ObjectId)
| Populated (doc : option User.t).

Definition populate (db : Db) (author : ObjectId) : AuthorField :=
  Populated (User.findById (users db) author).

(** [Document.prototype.toString] of a populated author: the text Node's
    [inspect] prints for the document with the selected fields.  Its layout
    plays no role; it opens with a brace and is never the 24 hexadecimal
    digits of an ObjectId. *)
Definition inspect (u : User.t) : string :=
  ("{ _id: new ObjectId('" ++ User._id u ++ "'), display_name: '"
   ++ User.display_name u ++ "', email: '" ++ User.email u ++ "' }")%string.

(** [message.author_id.toString()]. *)
Definition toString (a : AuthorField) : Result string :=
  match a with
  | Unpopulated id => Ok id
  | Populated (Some u) => Ok (inspect u)
  | Populated None =>
      Fail (TypeError "Cannot read properties of null (reading 'toString')")
  end.

(** The ObjectId Mongoose casts the field to where a query or a new
    document expects an id. *)
Definition cast (a : AuthorField) : option ObjectId :=
  match a with
  | Unpopulated id => Some id
  | Populated (Some u) => Some (User._id u)
  | Populated None => None
  end.

Definition findSender (db : Db) (a : AuthorField) : option User.t :=
  match cast a with
  | Some id => User.findById (users db) id
  | None => None
  end.

(** The loop of [processMentions] over the matches that remain; the
    result is the list of the notifications it creates, the [k]-th of the
    call receiving the id [fresh k].  A [TypeError] ends the loop: the
    enclosing [try] catches it. *)
Fixpoint loop (db : Db) (message_id channel_id : ObjectId)
         (author : AuthorField) (fresh : nat -> ObjectId) (now : Z)
         (mentions : list string) (k : nat) : list Notification.t :=
  match mentions with
  | [] => []
  | mention :: rest =>
      let username := substring1 mention in
      match User.findOneByDisplayName (users db) username with
      | None => loop db message_id channel_id author fresh now rest k
      | Some user =>
          match toString author with
          | Fail _ => []
          | Ok author_string =>
              if negb (String.eqb (User._id user) author_string) then
                match findSender db author, cast author with
                | Some sender, Some sender_id =>
                    Notification.mk (fresh k) (User._id user) sender_id
                      Notification.mention (Some message_id) (Some channel_id)
                      (User.display_name sender ++ " mentioned you in a message")%string
                      false now
                    :: loop db message_id channel_id author fresh now rest (S k)
                | _, _ => []
                end
              else loop db message_id channel_id author fresh now rest k
          end
      end
  end.

(** [processMentions(message)]: the notifications it adds.  A message
    without content makes [message.content.match] throw. *)
Definition created (db : Db) (message : Message.t) (author : AuthorField)
           (fresh : nat -> ObjectId) (now : Z) : list Notification.t :=
  match Message.content message with
  | None => []
  | Some content =>
      loop db (Message._id message) (Message.channel_id message) author
           fresh now (mentionRegex_match content) 0
  end.

Definition processMentions (db : Db) (message : Message.t)
           (author : AuthorField) (fresh : nat -> ObjectId) (now : Z) : Db :=
  set_notifications
    (notifications db ++ created db message author fresh now) db.

(** The mention notifications of a list addressed to one recipient. *)
Definition mentions_for (recipient : ObjectId) (ns : list Notification.t)
  : list Notification.t :=
  filter (fun n => String.eqb (Notification.recipient_id n) recipient
                   && match Notification.type n with
                      | Notification.mention => true
                      | _ => false
                      end) ns.

(** The matches of a content that name a given user: those whose text
    after the [@] is the display name up to the case of letters. *)
Definition occurrences (display_name : string) (mentions : list string)
  : list string :=
  filter (fun mention => String.eqb (toLowerCase display_name)
                                    (toLowerCase (substring1 mention)))
         mentions.

End Mentions.

(** ** The Socket.IO handlers

    The acknowledgment is the value handed to the client's callback. *)

Inductive Ack (A : Type) : Type :=
| AckSuccess (data : A)
| AckFailure (error : string).

Arguments AckSuccess {A} data.
Arguments AckFailure {A} error.

Definition quoted (s : string) : string :=
  String (ascii_of_nat 34) (s ++ String (ascii_of_nat 34) EmptyString).

Definition error_message (e : Error) : string :=
  match e with
  | AppError m _ | ValidationError m | TypeError m => m
  | CastError value path =>
      "Cast to ObjectId failed for value " ++ quoted value
      ++ " (type string) at path " ++ quoted path
  end.

Module Socket.

(** A live connection: [socket.id] and the id of [socket.user]. *)
Record Session : Type := mkSession
  { socket_id : string;
    user_id : ObjectId }.

(** The server: the database and the connections that are open. *)
Record Server : Type := mkServer
  { db : Db;
    sessions : list Session }.

(** [updateUserStatus(userId, isOnline)]:
    [User.findByIdAndUpdate(userId, { is_online: isOnline,
                                      last_seen: Date.now() })]. *)
Definition updateUserStatus (d : Db) (userId : ObjectId) (isOnline : bool)
           (now : Z) : Db :=
  set_users
    (User.findByIdAndUpdate (users d) userId (User.set_status isOnline now))
    d.

(** The handler of ['connection'] for a socket of the user [userId]; the
    rooms it joins and the handlers it registers are no part of this
    state. *)
Definition connection (srv : Server) (sid : string) (userId : ObjectId)
           (now : Z) : Server :=
  mkServer (updateUserStatus (db srv) userId true now)
           (sessions srv ++ [mkSession sid userId]).

(** The handler of ['disconnect'] of the socket [sid]. *)
Definition disconnect (srv : Server) (sid : string) (now : Z) : Server :=
  match find (fun s => String.eqb (socket_id s) sid) (sessions srv) with
  | None => srv
  | Some s =>
      mkServer (updateUserStatus (db srv) (user_id s) false now)
               (filter (fun s' => negb (String.eqb (socket_id s') sid))
                       (sessions srv))
  end.

(** The number of connections a user holds. *)
Definition session_count (srv : Server) (userId : ObjectId) : nat :=
  List.length (filter (fun s => String.eqb (user_id s) userId) (sessions srv)).

Definition is_online (srv : Server) (userId : ObjectId) : option bool :=
  option_map User.is_online (User.findById (users (db srv)) userId).

Definition last_seen (srv : Server) (userId : ObjectId) : option Z :=
  option_map User.last_seen (User.findById (users (db srv)) userId).

(** [Message.create] of the handler of ['message:send']: the validators
    [maxlength] of [content] and [required] of [channel_id]. *)
Definition Message_create (me : ObjectId) (content : option string)
           (channel_id thread_parent_id : option ObjectId)
           (fresh : ObjectId) (now : Z) : Result Message.t :=
  if negb (Message.content_valid content) then Fail Message.too_long
  else
    match channel_id with
    | None => Fail (ValidationError "Channel is required")
    | Some cid =>
        Ok (Message.mk fresh content me cid (or_null thread_parent_id) None
                       [] false false false now now)
    end.

(** The handler of ['message:send'] for a socket of the user [me]: the
    message is created, its author populated, and [processMentions] runs
    on it; [fresh_n] gives the ids of the notifications. *)
Definition message_send (d : Db) (me : ObjectId) (content : option string)
           (channel_id thread_parent_id : option ObjectId)
           (fresh : ObjectId) (fresh_n : nat -> ObjectId) (now : Z)
  : Db * Ack Message.t :=
  match Message_create me content channel_id thread_parent_id fresh now with
  | Fail e => (d, AckFailure (error_message e))
  | Ok message =>
      let d1 := set_messages (messages d ++ [message]) d in
      let author := Mentions.populate d1 (Message.author_id message) in
      (Mentions.processMentions d1 message author fresh_n now,
       AckSuccess message)
  end.

(** The handler of ['message:edit']: the author check compares a string
    with [socket.user.id]; the content meets no check but the validator
    [maxlength] that [message.save()] runs. *)
Definition message_edit (d : Db) (me : ObjectId) (message_id : ObjectId)
           (content : option string) (now : Z) : Db * Ack Message.t :=
  match Message_findById (messages d) message_id with
  | None => (d, AckFailure "Message not found")
  | Some message =>
      if string_differs_from_object (Message.author_id message) me then
        (d, AckFailure "Not authorized to edit this message")
      else if negb (Message.canBeEdited now message) then
        (d, AckFailure "Message can only be edited within 5 minutes of sending")
      else if negb (Message.content_valid content) then
        (d, AckFailure (error_message Message.too_long))
      else
        let message' := Message.set_edited content now message in
        (set_messages (Message_save (messages d) message') d,
         AckSuccess message')
  end.

(** The handler of ['message:pin']. *)
Definition message_pin (d : Db) (me : ObjectId) (message_id : ObjectId)
           (now : Z) : Db * Ack unit :=
  match Message_findById (messages d) message_id with
  | None => (d, AckFailure "Message not found")
  | Some message =>
      if Message.is_deleted message then
        (d, AckFailure "Cannot pin a deleted message")
      else
        (set_messages
           (Message_save (messages d) (Message.set_pinned true now message))
           d,
         AckSuccess tt)
  end.

(** The handler of ['message:unpin']. *)
Definition message_unpin (d : Db) (me : ObjectId) (message_id : ObjectId)
           (now : Z) : Db * Ack unit :=
  match Message_findById (messages d) message_id with
  | None => (d, AckFailure "Message not found")
  | Some message =>
      if negb (Message.is_pinned message) then
        (d, AckFailure "Message is not pinned")
      else
        (set_messages
           (Message_save (messages d) (Message.set_pinned false now message))
           d,
         AckSuccess tt)
  end.

End Socket.

(** ** The routes of the channel directory

    One request of [channelRoutes.js] with the arguments of its
    controller, and the database the controller leaves. *)

Inductive ChannelRequest : Type :=
| PostChannel (me : User.t) (name type : option string) (fresh : ObjectId)
              (now : Z)
| PostJoin (me : User.t) (id : ObjectId)
| PostLeave (me : User.t) (id : ObjectId)
| DeleteChannel (me : User.t) (id : ObjectId)
| PostDm (me : User.t) (user_id : ObjectId) (fresh : ObjectId) (now : Z).

Definition route (db : Db) (r : ChannelRequest) : Db :=
  match r with
  | PostChannel me name type fresh now =>
      fst (Http.createChannel db me name type fresh now)
  | PostJoin me id => fst (Http.joinChannel db me id)
  | PostLeave me id => fst (Http.leaveChannel db me id)
  | DeleteChannel me id => fst (Http.deleteChannel db me id)
  | PostDm me user_id fresh now =>
      fst (Http.createDmChannel db me user_id fresh now)
  end.

Definition serve (db : Db) (rs : list ChannelRequest) : Db :=
  fold_left route rs db.

(** ** Predicates of the specification *)

(** Every channel of the database has at least one member. *)
Definition members_nonempty (db : Db) : Prop :=
  forall c, In c (channels db) -> Channel.members c <> [].

(** At most one direct channel answers the query of [findDmChannel] for two
    distinct users. *)
Definition dm_unique (db : Db) : Prop :=
  forall a b : ObjectId,
    a <> b ->
    List.length (filter (Channel.is_dm_of a b) (channels db)) <= 1.

(** The members of a channel other than the user [me]. *)
Definition remaining_members (channel : Channel.t) (me : ObjectId)
  : list ObjectId :=
  filter (fun memberId => negb (String.eqb memberId me))
         (Channel.members channel).

(** The message a message replies to. *)
Definition parent_of (db : Db) (m : Message.t) : option Message.t :=
  match Message.thread_parent_id m with
  | None => None
  | Some pid => Message_findById (messages db) pid
  end.

(** [m] is a reply to a reply: its parent has a parent in turn, so [m] has
    a grandparent. *)
Definition has_grandparent (db : Db) (m : Message.t) : bool :=
  match parent_of db m with
  | None => false
  | Some p => present (Message.thread_parent_id p)
  end.

(** ** Sample data *)

Module Sample.

Definition alice : User.t :=
  User.mk "650000000000000000000a11" "alice@example.com" "Alice"
          User.admin false 0 1000.
Definition bob : User.t :=
  User.mk "650000000000000000000b22" "bob@example.com" "Bob"
          User.member false 0 2000.
Definition carol : User.t :=
  User.mk "650000000000000000000c33" "carol@example.com" "Carol"
          User.member false 0 3000.

Definition general_id : ObjectId := "65000000000000000000c001".

(** The channel [general] with Alice as its only member. *)
Definition general : Channel.t :=
  Channel.mk general_id "general" Channel.public (User._id alice)
             [User._id alice] 1000.

Definition message (id : ObjectId) (text : string)
           (parent : option ObjectId) (deleted pinned : bool) (at_ : Z)
  : Message.t :=
  Message.mk id (Some text) (User._id alice) general_id parent None []
             deleted false pinned at_ at_.

Definition m1_id : ObjectId := "6500000000000000000000e1".
Definition m2_id : ObjectId := "6500000000000000000000e2".
Definition m3_id : ObjectId := "6500000000000000000000e3".
Definition m4_id : ObjectId := "6500000000000000000000e4".

(** A root message, a reply to it, and a reply to the reply. *)
Definition m1 := message m1_id "root" None false true 5000.
Definition m2 := message m2_id "reply" (Some m1_id) false false 6000.
Definition m3 := message m3_id "reply to reply" (Some m2_id) false false 7000.

(** A message that was pinned and then deleted. *)
Definition m4 : Message.t :=
  Message.mk m4_id (Some Message.tombstone) (User._id alice) general_id None
             None [] true false true 8000 8000.

(** The root message with one reaction of Bob. *)
Definition m1_liked : Message.t :=
  Message.set_reactions [Reaction.mk "+1" (User._id bob) 5500] 5500 m1.

Definition db0 : Db := mkDb [alice; bob; carol] [general] [m1; m2; m3; m4] [].

Definition fresh_id : ObjectId := "6500000000000000000000f0".

Definition fresh_n (k : nat) : ObjectId :=
  ("6500000000000000000000a" ++ String (ascii_of_nat (48 + k)) "")%string.

(** A channel with three members, created by Alice. *)
Definition team_id : ObjectId := "65000000000000000000c002".
Definition team : Channel.t :=
  Channel.mk team_id "team" Channel.public (User._id alice)
             [User._id alice; User._id carol; User._id bob] 4000.

(** A direct channel between Alice and Bob. *)
Definition dm_id : ObjectId := "65000000000000000000c003".
Definition dm_ab : Channel.t :=
  Channel.mk dm_id "dm-alice-bob" Channel.dm (User._id alice)
             [User._id alice; User._id bob] 4500.

Definition db1 : Db := mkDb [alice; bob; carol] [general; team; dm_ab] [] [].

Definition notification (id recipient : ObjectId) : Notification.t :=
  Notification.mk id recipient (User._id carol) Notification.mention None
                  None "Carol mentioned you in a message" false 9000.

Definition n1_id : ObjectId := "6500000000000000000000d1".
Definition n2_id : ObjectId := "6500000000000000000000d2".
Definition n3_id : ObjectId := "6500000000000000000000d3".

Definition db2 : Db :=
  mkDb [alice; bob; carol] [general] []
       [notification n1_id (User._id alice);
        notification n2_id (User._id bob);
        notification n3_id (User._id alice)].

Definition server0 : Socket.Server := Socket.mkServer db0 [].

End Sample.

(** ** Queries: sort, skip, limit *)

Module Query.

(** Insertion of a document into a sorted list, before the first document
    it may precede. *)
Fixpoint insert {A} (before : A -> A -> bool) (x : A) (sorted : list A)
  : list A :=
  match sorted with
  | [] => [x]
  | y :: rest => if before x y then x :: sorted else y :: insert before x rest
  end.

(** [.sort(...)]: documents that compare equal keep their natural order. *)
Definition sort {A} (before : A -> A -> bool) (found : list A) : list A :=
  fold_right (insert before) [] found.

(** [.skip(skip).limit(limit)]; the database reads a limit of 0 as no
    limit. *)
Definition skip_limit {A} (skip limit : nat) (found : list A) : list A :=
  if limit =? 0 then skipn skip found else firstn limit (skipn skip found).

(** [Math.ceil(total / limit)] as the JSON reply carries it: [null] for
    the [Infinity] or [NaN] of a division by 0. *)
Definition totalPages (total limit : nat) : option nat :=
  if limit =? 0 then None else Some ((total + limit - 1) / limit).

(** The error the database raises for a negative skip; the controller
    hands it to [next]. *)
Definition negative_skip : Error :=
  ValidationError "Skip value must be non-negative".

End Query.

(** A page of a listing: [results], [totalPages], [currentPage] and the
    documents. *)
Record Page (A : Type) : Type := mkPage
  { results : nat;
    totalPages : option nat;
    currentPage : nat;
    documents : list A }.

(** ** The message controller: listings and reactions

    [page] and [limit] are the numbers [parseInt] reads from the query,
    taken among the natural numbers. *)

Module MessageController.

(** The filter [{ channel_id: channelId, thread_parent_id: null,
    is_deleted: false }]. *)
Definition is_root_of (channelId : ObjectId) (m : Message.t) : bool :=
  String.eqb (Message.channel_id m) channelId
  && negb (present (Message.thread_parent_id m))
  && negb (Message.is_deleted m).

(** The filter [{ thread_parent_id: messageId, is_deleted: false }]. *)
Definition is_reply_to (messageId : ObjectId) (m : Message.t) : bool :=
  match Message.thread_parent_id m with
  | Some p => String.eqb p messageId
  | None => false
  end
  && negb (Message.is_deleted m).

Definition replyCount (db : Db) (m : Message.t) : nat :=
  List.length (filter (is_reply_to (Message._id m)) (messages db)).

(** [sort({ created_at: -1 })] and [sort({ created_at: 1 })]. *)
Definition newest_first (a b : Message.t) : bool :=
  (Message.created_at b <=? Message.created_at a)%Z.

Definition oldest_first (a b : Message.t) : bool :=
  (Message.created_at a <=? Message.created_at b)%Z.

(** [getChannelMessages]: each message comes with its [_replyCount]. *)
Definition getChannelMessages (db : Db) (me : User.t) (channelId : ObjectId)
           (page limit : nat) : Response (Page (Message.t * nat)) :=
  match Channel.findById (channels db) channelId with
  | None => Next (AppError "Channel not found" 404)
  | Some channel =>
      if negb (includes (Channel.members channel) (User._id me)) then
        Next not_a_member
      else if (page =? 0) && negb (limit =? 0) then Next Query.negative_skip
      else
        let skip := (page - 1) * limit in
        let matching := filter (is_root_of channelId) (messages db) in
        let found :=
          Query.skip_limit skip limit (Query.sort newest_first matching) in
        Json 200
          (mkPage (List.length found)
                  (Query.totalPages (List.length matching) limit) page
                  (map (fun m => (m, replyCount db m)) found))
  end.

(** [getThreadMessages]: the parent, then its replies. *)
Definition getThreadMessages (db : Db) (me : User.t) (messageId : ObjectId)
  : Response (list Message.t) :=
  match Message_findById (messages db) messageId with
  | None => Next (AppError "Message not found" 404)
  | Some parentMessage =>
      match Channel.findById (channels db)
                             (Message.channel_id parentMessage) with
      | None => Next (AppError "Channel not found" 404)
      | Some channel =>
          if negb (includes (Channel.members channel) (User._id me)) then
            Next not_a_member
          else
            let threadMessages :=
              Query.sort oldest_first
                (filter (is_reply_to messageId) (messages db)) in
            Json 200 (parentMessage :: threadMessages)
      end
  end.

(** [addReaction]; the method [addReaction] saves the document unless the
    reaction is there already. *)
Definition addReaction (db : Db) (me : User.t) (id : ObjectId)
           (emoji : option string) (now : Z) : Db * Response Message.t :=
  match emoji with
  | None => (db, Next (AppError "Emoji is required" 400))
  | Some e =>
      if negb (truthy emoji) then
        (db, Next (AppError "Emoji is required" 400))
      else
        match Message_findById (messages db) id with
        | None => (db, Next (AppError "Message not found" 404))
        | Some message =>
            if Message.is_deleted message then
              (db, Next (AppError "Cannot react to a deleted message" 400))
            else
              match Channel.findById (channels db)
                                     (Message.channel_id message) with
              | None => (db, Next (AppError "Channel not found" 404))
              | Some channel =>
                  if negb (includes (Channel.members channel) (User._id me))
                  then (db, Next not_a_member)
                  else
                    match Message.addReaction e (User._id me) now message with
                    | Fail err => (db, Next err)
                    | Ok message' =>
                        if present (find (Message.same_reaction e (User._id me))
                                         (Message.reactions message))
                        then (db, Json 200 message')
                        else
                          (set_messages (Message_save (messages db) message')
                                        db,
                           Json 200 message')
                    end
              end
        end
  end.

(** [removeReaction]; [emoji] is the route parameter. *)
Definition removeReaction (db : Db) (me : User.t) (id : ObjectId)
           (emoji : string) (now : Z) : Db * Response unit :=
  match Message_findById (messages db) id with
  | None => (db, Next (AppError "Message not found" 404))
  | Some message =>
      if Message.is_deleted message then
        (db, Next (AppError "Cannot remove reaction from a deleted message"
                            400))
      else
        match Channel.findById (channels db) (Message.channel_id message) with
        | None => (db, Next (AppError "Channel not found" 404))
        | Some channel =>
            if negb (includes (Channel.members channel) (User._id me)) then
              (db, Next not_a_member)
            else
              (set_messages
                 (Message_save (messages db)
                    (Message.removeReaction emoji (User._id me) now message))
                 db,
               Json 200 tt)
        end
  end.

End MessageController.

(** ** The other handlers of the live connection *)

Module SocketHandlers.

(** The handler of ['message:delete']; its author check compares a string
    with [socket.user.id]. *)
Definition message_delete (d : Db) (me : ObjectId) (message_id : ObjectId)
           (now : Z) : Db * Ack unit :=
  match Message_findById (messages d) message_id with
  | None => (d, AckFailure "Message not found")
  | Some message =>
      if string_differs_from_object (Message.author_id message) me then
        (d, AckFailure "Not authorized to delete this message")
      else
        (set_messages
           (Message_save (messages d) (Message.set_deleted now message)) d,
         AckSuccess tt)
  end.

(** The handler of ['message:add_reaction']. *)
Definition message_add_reaction (d : Db) (me : ObjectId)
           (message_id : ObjectId) (emoji : string) (now : Z)
  : Db * Ack unit :=
  match Message_findById (messages d) message_id with
  | None => (d, AckFailure "Message not found")
  | Some message =>
      if Message.is_deleted message then
        (d, AckFailure "Cannot react to a deleted message")
      else
        match Message.addReaction emoji me now message with
        | Fail err => (d, AckFailure (error_message err))
        | Ok message' =>
            if present (find (Message.same_reaction emoji me)
                             (Message.reactions message))
            then (d, AckSuccess tt)
            else (set_messages (Message_save (messages d) message') d,
                  AckSuccess tt)
        end
  end.

(** The handler of ['message:remove_reaction']. *)
Definition message_remove_reaction (d : Db) (me : ObjectId)
           (message_id : ObjectId) (emoji : string) (now : Z) : Db * Ack unit :=
  match Message_findById (messages d) message_id with
  | None => (d, AckFailure "Message not found")
  | Some message =>
      if Message.is_deleted message then
        (d, AckFailure "Cannot remove reaction from a deleted message")
      else
        (set_messages
           (Message_save (messages d)
              (Message.removeReaction emoji me now message)) d,
         AckSuccess tt)
  end.

End SocketHandlers.

(** ** Requests on messages, on either transport *)

Inductive MessageRequest : Type :=
| HttpCreate (me : User.t) (content : option string)
             (channel_id thread_parent_id : option ObjectId)
             (file : option (Result string)) (fresh : ObjectId) (now : Z)
| HttpEdit (me : User.t) (id : ObjectId) (content : option string) (now : Z)
| HttpDelete (me : User.t) (id : ObjectId) (now : Z)
| HttpAddReaction (me : User.t) (id : ObjectId) (emoji : option string)
                  (now : Z)
| HttpRemoveReaction (me : User.t) (id : ObjectId) (emoji : string) (now : Z)
| HttpPin (me : User.t) (id : ObjectId) (now : Z)
| HttpUnpin (me : User.t) (id : ObjectId) (now : Z)
| SocketSend (me : ObjectId) (content : option string)
             (channel_id thread_parent_id : option ObjectId)
             (fresh : ObjectId) (fresh_n : nat -> ObjectId) (now : Z)
| SocketEdit (me : ObjectId) (id : ObjectId) (content : option string)
             (now : Z)
| SocketDelete (me : ObjectId) (id : ObjectId) (now : Z)
| SocketAddReaction (me : ObjectId) (id : ObjectId) (emoji : string) (now : Z)
| SocketRemoveReaction (me : ObjectId) (id : ObjectId) (emoji : string)
                       (now : Z)
| SocketPin (me : ObjectId) (id : ObjectId) (now : Z)
| SocketUnpin (me : ObjectId) (id : ObjectId) (now : Z).

(** The database a request leaves. *)
Definition handle (db : Db) (r : MessageRequest) : Db :=
  match r with
  | HttpCreate me content cid tp file fresh now =>
      fst (Http.createMessage db me content cid tp file fresh now)
  | HttpEdit me id content now => fst (Http.editMessage db me id content now)
  | HttpDelete me id now => fst (Http.deleteMessage db me id now)
  | HttpAddReaction me id emoji now =>
      fst (MessageController.addReaction db me id emoji now)
  | HttpRemoveReaction me id emoji now =>
      fst (MessageController.removeReaction db me id emoji now)
  | HttpPin me id now => fst (Http.pinMessage db me id now)
  | HttpUnpin me id now => fst (Http.unpinMessage db me id now)
  | SocketSend me content cid tp fresh fresh_n now =>
      fst (Socket.message_send db me content cid tp fresh fresh_n now)
  | SocketEdit me id content now =>
      fst (Socket.message_edit db me id content now)
  | SocketDelete me id now =>
      fst (SocketHandlers.message_delete db me id now)
  | SocketAddReaction me id emoji now =>
      fst (SocketHandlers.message_add_reaction db me id emoji now)
  | SocketRemoveReaction me id emoji now =>
      fst (SocketHandlers.message_remove_reaction db me id emoji now)
  | SocketPin me id now => fst (Socket.message_pin db me id now)
  | SocketUnpin me id now => fst (Socket.message_unpin db me id now)
  end.

Definition handle_all (db : Db) (rs : list MessageRequest) : Db :=
  fold_left handle rs db.

(** Every stored message is within the length of the schema and has
    pairwise distinct reactions. *)
Definition messages_valid (db : Db) : Prop :=
  forall m, In m (messages db) ->
            Message.content_valid (Message.content m) = true
            /\ Message.unique_reactions m.

(** ** The notification controller *)

Module NotificationController.

Definition newest_first (a b : Notification.t) : bool :=
  (Notification.created_at b <=? Notification.created_at a)%Z.

(** The query of [getNotifications]: [{ recipient_id: req.user._id }], with
    [is_read: false] when [unread_only] is the string ['true']. *)
Definition query (me : User.t) (unread_only : option string)
           (n : Notification.t) : bool :=
  String.eqb (Notification.recipient_id n) (User._id me)
  && match unread_only with
     | Some flag => if String.eqb flag "true"
                    then negb (Notification.is_read n) else true
     | None => true
     end.

Definition unreadCount (db : Db) (me : User.t) : nat :=
  List.length
    (filter (fun n => String.eqb (Notification.recipient_id n) (User._id me)
                      && negb (Notification.is_read n))
            (notifications db)).

(** [getNotifications]: the page and the [unreadCount]. *)
Definition getNotifications (db : Db) (me : User.t) (page limit : nat)
           (unread_only : option string)
  : Response (Page Notification.t * nat) :=
  if (page =? 0) && negb (limit =? 0) then Next Query.negative_skip
  else
    let skip := (page - 1) * limit in
    let matching := filter (query me unread_only) (notifications db) in
    let found := Query.skip_limit skip limit (Query.sort newest_first matching) in
    Json 200
      (mkPage (List.length found)
              (Query.totalPages (List.length matching) limit) page found,
       unreadCount db me).

Definition Notification_findById (ns : list Notification.t) (id : ObjectId)
  : option Notification.t :=
  find (fun n => String.eqb (Notification._id n) id) ns.

Definition Notification_save (ns : list Notification.t) (n : Notification.t)
  : list Notification.t :=
  map (fun d => if String.eqb (Notification._id d) (Notification._id n)
                then n else d) ns.

(** [markOneAsRead]. *)
Definition markOneAsRead (db : Db) (me : User.t) (id : ObjectId)
  : Db * Response unit :=
  match Notification_findById (notifications db) id with
  | None => (db, Next (AppError "Notification not found" 404))
  | Some notification =>
      if negb (String.eqb (Notification.recipient_id notification)
                          (User._id me))
      then (db, Next (AppError
                  "Not authorized to mark this notification as read" 403))
      else
        (set_notifications
           (Notification_save (notifications db)
                              (Notification.set_read notification)) db,
         Json 200 tt)
  end.

End NotificationController.

(** ** The channel controller: the list of channels *)

Module ChannelController.

(** [populate('members', ...)]: the documents of the members in the order
    of the array; a member without a document is dropped. *)
Fixpoint populate_members (us : list User.t) (members : list ObjectId)
  : list User.t :=
  match members with
  | [] => []
  | id :: rest =>
      match User.findById us id with
      | Some u => u :: populate_members us rest
      | None => populate_members us rest
      end
  end.

(** An entry of [direct]: the channel with [display_name] and
    [other_user]. *)
Record DirectEntry : Type := mkDirect
  { channel : Channel.t;
    display_name : string;
    other_user : option User.t }.

Definition format (db : Db) (me : User.t) (c : Channel.t) : DirectEntry :=
  let otherUser :=
    find (fun member => negb (String.eqb (User._id member) (User._id me)))
         (populate_members (users db) (Channel.members c)) in
  mkDirect c
           (match otherUser with
            | Some u => User.display_name u
            | None => "Deleted User"
            end)
           otherUser.

Definition by_name (a b : Channel.t) : bool :=
  String.leb (Channel.name a) (Channel.name b).

Definition newest_first (a b : Channel.t) : bool :=
  (Channel.created_at b <=? Channel.created_at a)%Z.

(** [getAllChannels]: [public] and [direct]. *)
Definition getAllChannels (db : Db) (me : User.t)
  : list Channel.t * list DirectEntry :=
  let publicChannels :=
    Query.sort by_name
      (filter (fun c => Channel.type_eqb (Channel.type c) Channel.public)
              (channels db)) in
  let dmChannels :=
    Query.sort newest_first
      (filter (fun c => Channel.type_eqb (Channel.type c) Channel.dm
                        && includes (Channel.members c) (User._id me))
              (channels db)) in
  (publicChannels, map (format db me) dmChannels).

End ChannelController.

(** ** Rooms of the live connection

    The rooms are the pairs of a socket and a room it joined;
    [socket.join] adds a pair once, [socket.leave] removes it. *)

Module Rooms.

Definition t : Type := list (string * string).

Definition channel_room (channel_id : ObjectId) : string :=
  "channel:" ++ channel_id.

Definition thread_room (thread_id : ObjectId) : string :=
  "thread:" ++ thread_id.

Definition is_in (r : t) (sid room : string) : bool :=
  existsb (fun p => String.eqb (fst p) sid && String.eqb (snd p) room) r.

Definition join (r : t) (sid room : string) : t :=
  if is_in r sid room then r else r ++ [(sid, room)].

Definition leave (r : t) (sid room : string) : t :=
  filter (fun p => negb (String.eqb (fst p) sid && String.eqb (snd p) room)) r.

(** [io.to(room).emit(...)]: the sockets that receive the event. *)
Definition io_to (r : t) (room : string) : list string :=
  map fst (filter (fun p => String.eqb (snd p) room) r).

(** [socket.to(room).emit(...)]: the sockets of the room but the sender. *)
Definition socket_to (r : t) (sid room : string) : list string :=
  filter (fun s => negb (String.eqb s sid)) (io_to r room).

(** [joinUserChannels]: the socket joins the room of every channel that
    has the user among its members. *)
Definition joinUserChannels (db : Db) (r : t) (sid : string)
           (userId : ObjectId) : t :=
  fold_left (fun acc c => join acc sid (channel_room (Channel._id c)))
            (filter (fun c => includes (Channel.members c) userId)
                    (channels db))
            r.

(** The handlers of ['channel:join'], ['channel:leave'], ['thread:join']
    and ['thread:leave']. *)
Definition channel_join (r : t) (sid : string) (channel_id : ObjectId) : t :=
  join r sid (channel_room channel_id).

Definition channel_leave (r : t) (sid : string) (channel_id : ObjectId) : t :=
  leave r sid (channel_room channel_id).

Definition thread_join (r : t) (sid : string) (thread_id : ObjectId) : t :=
  join r sid (thread_room thread_id).

Definition thread_leave (r : t) (sid : string) (thread_id : ObjectId) : t :=
  leave r sid (thread_room thread_id).

(** The sockets that receive ['typing:start'] or ['typing:stop'] of the
    socket [sid] for a channel. *)
Definition typing (r : t) (sid : string) (channel_id : ObjectId)
  : list string :=
  socket_to r sid (channel_room channel_id).

(** The sockets that receive ['message:new'] for a message of a channel. *)
Definition message_new (r : t) (channel_id : ObjectId) : list string :=
  io_to r (channel_room channel_id).

End Rooms.

(** ** Usage records of the AI features *)

Module AIUsage.

Record t : Type := mk
  { _id : ObjectId;
    user_id : ObjectId;
    date : Z;
    request_count : nat;
    feature_type : string }.

Definition day : Z := 24 * 60 * 60 * 1000.

(** The filter of [trackUsage]: the record of the user and the feature
    dated from [today] to 24 hours later. *)
Definition of_day (userId : ObjectId) (featureType : string) (today : Z)
           (u : t) : bool :=
  String.eqb (user_id u) userId
  && String.eqb (feature_type u) featureType
  && ((today <=? date u)%Z && (date u <? today + day)%Z).

Definition features : list string := ["reply"; "tone"; "summary"; "orgbrain"].

(** [trackUsage]: [today] is the local midnight that [setHours(0, 0, 0, 0)]
    gives for [now].  The record found gains one request; otherwise a
    record with one request is created, which the schema refuses for a
    feature outside its enum. *)
Definition trackUsage (usages : list t) (userId : ObjectId)
           (featureType : string) (today now : Z) (fresh : ObjectId)
  : Result (list t * t) :=
  match find (of_day userId featureType today) usages with
  | Some usage =>
      let usage' := mk (_id usage) (user_id usage) (date usage)
                       (request_count usage + 1) (feature_type usage) in
      Ok (map (fun d => if String.eqb (_id d) (_id usage) then usage' else d)
              usages,
          usage')
  | None =>
      if existsb (String.eqb featureType) features then
        let usage := mk fresh userId now 1 featureType in
        Ok (usages ++ [usage], usage)
      else Fail (ValidationError "`feature_type` is not a valid enum value")
  end.

(** The requests counted for a user and a feature on the day. *)
Definition count (usages : list t) (userId : ObjectId) (featureType : string)
           (today : Z) : nat :=
  match find (of_day userId featureType today) usages with
  | Some usage => request_count usage
  | None => 0
  end.

End AIUsage.

(** ** Further predicates *)

(** The documents of a reply that carries a page. *)
Definition page_documents {A} (r : Response (Page A)) : list A :=
  match r with
  | Json _ pg => documents pg
  | Next _ => []
  end.

Definition public_count (db : Db) : nat :=
  List.length
    (filter (fun c => Channel.type_eqb (Channel.type c) Channel.public)
            (channels db)).

(** The ids and the names of the channels are pairwise distinct, and at
    most 10 channels are public. *)
Definition directory_keys (db : Db) : Prop :=
  NoDup (map Channel._id (channels db))
  /\ NoDup (map Channel.name (channels db))
  /\ public_count db <= 10.

(** Every channel has a name the schema accepts, and no member of a public
    channel is listed twice. *)
Definition directory_shape (db : Db) : Prop :=
  forall c, In c (channels db) ->
            Channel.nameRegex_test (Channel.name c) = true
            /\ 3 <= String.length (Channel.name c) <= 50
            /\ (Channel.type c = Channel.public -> NoDup (Channel.members c)).

(** The id that comes with a request to create a channel is new to the
    database, as the ids of the driver are. *)
Definition fresh_for (db : Db) (r : ChannelRequest) : Prop :=
  match r with
  | PostChannel _ _ _ fresh _ | PostDm _ _ fresh _ =>
      ~ In fresh (map Channel._id (channels db))
  | _ => True
  end.

Fixpoint served_fresh (db : Db) (rs : list ChannelRequest) : Prop :=
  match rs with
  | [] => True
  | r :: rest => fresh_for db r /\ served_fresh (route db r) rest
  end.

(** Newest first, oldest first. *)
Definition descending (ms : list Message.t) : Prop :=
  StronglySorted
    (fun a b => (Message.created_at b <= Message.created_at a)%Z) ms.

Definition ascending (ms : list Message.t) : Prop :=
  StronglySorted
    (fun a b => (Message.created_at a <= Message.created_at b)%Z) ms.

(** The fields of a stored message that say which message it is: no
    request assigns to them. *)
Definition same_identity (m m' : Message.t) : Prop :=
  Message._id m' = Message._id m
  /\ Message.author_id m' = Message.author_id m
  /\ Message.channel_id m' = Message.channel_id m
  /\ Message.thread_parent_id m' = Message.thread_parent_id m
  /\ Message.file_url m' = Message.file_url m
  /\ Message.created_at m' = Message.created_at m.

(** [m'] is [m] but for the pinned flag and [updated_at]. *)
Definition same_but_pinned (m m' : Message.t) : Prop :=
  same_identity m m'
  /\ Message.content m' = Message.content m
  /\ Message.reactions m' = Message.reactions m
  /\ Message.is_deleted m' = Message.is_deleted m
  /\ Message.is_edited m' = Message.is_edited m.

(** [m'] is [m] but for the content, the edited flag and [updated_at]. *)
Definition same_but_edited (m m' : Message.t) : Prop :=
  same_identity m m'
  /\ Message.reactions m' = Message.reactions m
  /\ Message.is_deleted m' = Message.is_deleted m
  /\ Message.is_pinned m' = Message.is_pinned m.

(** [m'] is [m] but for the reactions and [updated_at]. *)
Definition same_but_reactions (m m' : Message.t) : Prop :=
  same_identity m m'
  /\ Message.content m' = Message.content m
  /\ Message.is_deleted m' = Message.is_deleted m
  /\ Message.is_edited m' = Message.is_edited m
  /\ Message.is_pinned m' = Message.is_pinned m.

(** [m'] is [m] but for the content, the deleted flag and [updated_at]. *)
Definition same_but_deleted (m m' : Message.t) : Prop :=
  same_identity m m'
  /\ Message.reactions m' = Message.reactions m
  /\ Message.is_edited m' = Message.is_edited m
  /\ Message.is_pinned m' = Message.is_pinned m.

(** A message as it is when it comes into being. *)
Definition newly_created (m : Message.t) : Prop :=
  Message.content_valid (Message.content m) = true
  /\ Message.reactions m = []
  /\ Message.is_deleted m = false
  /\ Message.is_edited m = false
  /\ Message.is_pinned m = false.

(** A deleted message whose content is the tombstone. *)
Definition tombstoned (m : Message.t) : Prop :=
  Message.is_deleted m = true /\ Message.content m = Some Message.tombstone.

(** What a request may do to a stored message [m], giving [m']: an edit,
    the tombstone, a pin, an unpin, a reaction more, a reaction less.  Each
    is stated on the fields of [m']; [updated_at] is left open. *)
Inductive change (m m' : Message.t) : Prop :=
| change_edit :
    Message.is_deleted m = false ->
    Message.content_valid (Message.content m') = true ->
    Message.is_edited m' = true ->
    same_but_edited m m' ->
    change m m'
| change_delete :
    tombstoned m' -> same_but_deleted m m' -> change m m'
| change_pin :
    Message.is_deleted m = false ->
    Message.is_pinned m' = true ->
    same_but_pinned m m' ->
    change m m'
| change_unpin :
    Message.is_pinned m = true ->
    Message.is_pinned m' = false ->
    same_but_pinned m m' ->
    change m m'
| change_add (e : string) (u : ObjectId) (now : Z) :
    Message.is_deleted m = false ->
    ~ Message.has_reaction e u m ->
    Message.reactions m' = Message.reactions m ++ [Reaction.mk e u now] ->
    same_but_reactions m m' ->
    change m m'
| change_remove (e : string) (u : ObjectId) :
    Message.is_deleted m = false ->
    Message.reactions m'
    = filter (fun r => negb (Message.same_reaction e u r))
             (Message.reactions m) ->
    same_but_reactions m m' ->
    change m m'.

(** * Properties *)

(** ** Collections *)

Section Collections.

Variable A : Type.
Variable id : A -> ObjectId.

Lemma find_by_id_sound (l : list A) (i : ObjectId) (a : A) :
  find (fun d => String.eqb (id d) i) l = Some a -> In a l /\ id a = i.
Proof.
  intros H. apply find_some in H. destruct H as [Hin Heq].
  split; [assumption | now apply String.eqb_eq].
Qed.

(** After a save, the collection answers the id with the saved document. *)
Lemma find_after_save (l : list A) (a c : A) :
  find (fun d => String.eqb (id d) (id c)) l = Some a ->
  find (fun d => String.eqb (id d) (id c))
       (map (fun d => if String.eqb (id d) (id c) then c else d) l) = Some c.
Proof.
  induction l as [|d l IH]; simpl; [discriminate|].
  destruct (String.eqb (id d) (id c)) eqn:E.
  - intros _. now rewrite String.eqb_refl.
  - rewrite E. exact IH.
Qed.

(** After a delete, the collection no longer knows the id. *)
Lemma find_after_delete (l : list A) (i : ObjectId) :
  find (fun d => String.eqb (id d) i)
       (filter (fun d => negb (String.eqb (id d) i)) l) = None.
Proof.
  induction l as [|d l IH]; simpl; [reflexivity|].
  destruct (String.eqb (id d) i) eqn:E; simpl; [exact IH|].
  now rewrite E.
Qed.

Lemma in_save (l : list A) (c x : A) :
  In x (map (fun d => if String.eqb (id d) (id c) then c else d) l) ->
  x = c \/ In x l.
Proof.
  rewrite in_map_iff. intros [d [Hd Hin]].
  destruct (String.eqb (id d) (id c)); subst; auto.
Qed.

End Collections.

Lemma NoDup_snoc {A} (l : list A) (x : A) :
  NoDup l -> ~ In x l -> NoDup (l ++ [x]).
Proof.
  induction 1 as [|y l Hy Hl IH]; simpl; intros Hx.
  - constructor; [intros [] | constructor].
  - constructor.
    + rewrite in_app_iff. simpl. intros [H | [H | []]]; [auto | subst; auto].
    + apply IH. auto.
Qed.

Lemma NoDup_map_filter {V K} (key : V -> K) (keep : V -> bool) :
  forall vs : list V,
    NoDup (map key vs) -> NoDup (map key (filter keep vs)).
Proof.
  intros vs. induction vs as [|v vs IH]; simpl; intros H; [constructor|].
  inversion H as [|? ? Hn Hd]; subst.
  destruct (keep v); simpl; [|auto].
  constructor; [|auto].
  intros Hin. apply Hn. rewrite in_map_iff in *.
  destruct Hin as [x [Hx Hin]]. exists x. split; [assumption|].
  apply filter_In in Hin. tauto.
Qed.

Lemma includes_In (xs : list ObjectId) (x : ObjectId) :
  includes xs x = true <-> In x xs.
Proof.
  unfold includes. rewrite existsb_exists. split.
  - intros [y [Hin Heq]]. apply String.eqb_eq in Heq. now subst.
  - intros Hin. exists x. split; [assumption | apply String.eqb_refl].
Qed.

(** ** Reactions *)

Lemma same_reaction_key (e : string) (u : ObjectId) (r : Reaction.t) :
  Message.same_reaction e u r = true <-> Reaction.key r = (e, u).
Proof.
  unfold Message.same_reaction, Reaction.key.
  rewrite andb_true_iff, !String.eqb_eq. split.
  - intros [-> ->]. reflexivity.
  - intros H. now inversion H.
Qed.

Lemma find_reaction_none (e : string) (u : ObjectId) (rs : list Reaction.t) :
  find (Message.same_reaction e u) rs = None <->
  ~ In (e, u) (map Reaction.key rs).
Proof.
  split.
  - intros H Hin. rewrite in_map_iff in Hin. destruct Hin as [r [Hk Hin]].
    apply (find_none _ _ H) in Hin.
    apply same_reaction_key in Hk. congruence.
  - intros Hn. destruct (find _ rs) eqn:F; [|reflexivity].
    exfalso. apply Hn. apply find_some in F. destruct F as [Hin Hs].
    apply same_reaction_key in Hs. rewrite <- Hs. now apply in_map.
Qed.

Lemma filter_absent (e : string) (u : ObjectId) (rs : list Reaction.t) :
  find (Message.same_reaction e u) rs = None ->
  filter (fun r => negb (Message.same_reaction e u r)) rs = rs.
Proof.
  induction rs as [|r rs IH]; simpl; [reflexivity|].
  destruct (Message.same_reaction e u r); [discriminate|].
  simpl. intros H. f_equal. now apply IH.
Qed.

Lemma existsb_find_none {A} (p : A -> bool) (l : list A) :
  existsb p l = false <-> find p l = None.
Proof.
  induction l as [|x l IH]; simpl; [tauto|].
  destruct (p x); simpl; [split; discriminate | exact IH].
Qed.

Lemma removeReaction_absent (e : string) (u : ObjectId) (now : Z)
      (m : Message.t) :
  find (Message.same_reaction e u) (Message.reactions m) = None ->
  Message.removeReaction e u now m = m.
Proof.
  intros H. unfold Message.removeReaction.
  apply existsb_find_none in H. now rewrite H.
Qed.

Lemma removeReaction_reactions (e : string) (u : ObjectId) (now : Z)
      (m : Message.t) :
  Message.reactions (Message.removeReaction e u now m)
  = filter (fun r => negb (Message.same_reaction e u r)) (Message.reactions m).
Proof.
  unfold Message.removeReaction.
  destruct (existsb _ _) eqn:E; [reflexivity|].
  apply existsb_find_none in E. now rewrite filter_absent.
Qed.

Lemma addReaction_unique (e : string) (u : ObjectId) (now : Z)
      (m m' : Message.t) :
  Message.unique_reactions m ->
  Message.addReaction e u now m = Ok m' ->
  Message.unique_reactions m'.
Proof.
  unfold Message.addReaction, Message.unique_reactions. intros Hu.
  destruct (find _ _) eqn:F.
  - intros H. now inversion H; subst.
  - destruct (String.eqb e ""); [discriminate|].
    intros H. inversion H; subst; clear H. simpl.
    rewrite map_app. simpl. apply NoDup_snoc; [assumption|].
    now apply find_reaction_none.
Qed.

Lemma removeReaction_unique (e : string) (u : ObjectId) (now : Z)
      (m : Message.t) :
  Message.unique_reactions m ->
  Message.unique_reactions (Message.removeReaction e u now m).
Proof.
  unfold Message.unique_reactions. rewrite removeReaction_reactions.
  apply NoDup_map_filter.
Qed.

Lemma react_unique (m : Message.t) (op : Message.ReactionOp) :
  Message.unique_reactions m -> Message.unique_reactions (Message.react m op).
Proof.
  intros Hu. destruct op as [e u now | e u now]; simpl.
  - destruct (Message.addReaction e u now m) eqn:E; [|assumption].
    eapply addReaction_unique; eassumption.
  - now apply removeReaction_unique.
Qed.

Lemma react_all_unique (ops : list Message.ReactionOp) (m : Message.t) :
  Message.unique_reactions m ->
  Message.unique_reactions (Message.react_all ops m).
Proof.
  unfold Message.react_all. revert m.
  induction ops as [|op ops IH]; simpl; intros m Hu; [assumption|].
  apply IH. now apply react_unique.
Qed.

(** C7.  The reactions of a message never hold two entries with the same
    (emoji, user) pair.  On a message whose reactions are pairwise distinct:
    [addReaction] of a pair that is present succeeds and returns the message
    as it is; [removeReaction] of a pair that is absent leaves the message
    as it is; and the message that results from any sequence of add and
    remove requests has pairwise distinct reactions again.  A message is
    created without reactions, so the invariant holds from its creation. *)
Theorem reactions_stay_unique
        (m : Message.t) (e : string) (u : ObjectId) (now : Z)
        (ops : list Message.ReactionOp) :
  Message.unique_reactions m ->
  (Message.has_reaction e u m -> Message.addReaction e u now m = Ok m)
  /\ (~ Message.has_reaction e u m -> Message.removeReaction e u now m = m)
  /\ Message.unique_reactions (Message.react_all ops m).
Proof.
  intros Hu. split; [|split].
  - unfold Message.has_reaction, Message.addReaction. intros Hin.
    destruct (find _ _) eqn:F; [reflexivity|].
    apply find_reaction_none in F. contradiction.
  - unfold Message.has_reaction. intros Hn.
    apply find_reaction_none in Hn. now apply removeReaction_absent.
  - now apply react_all_unique.
Qed.

(** ** The membership gate of message creation *)

(** The HTTP controller creates nothing for a requester who is not a member
    of the channel: it answers with an error and leaves the database as it
    was; the error is [not_a_member] once the content passed validation. *)
Lemma http_createMessage_gate
      (db : Db) (me : User.t) (content : option string) (cid : ObjectId)
      (tp : option ObjectId) (file : option (Result string))
      (fresh : ObjectId) (now : Z) (channel : Channel.t) :
  Channel.findById (channels db) cid = Some channel ->
  includes (Channel.members channel) (User._id me) = false ->
  exists e,
    Http.createMessage db me content (Some cid) tp file fresh now = (db, Next e)
    /\ (blank content = false ->
        String.length (match content with Some s => s | None => "" end) <= 2000 ->
        e = not_a_member).
Proof.
  intros Hc Hm. unfold Http.createMessage.
  destruct (blank content && negb (present file)) eqn:B.
  - eexists. split; [reflexivity|]. intros Hb. rewrite Hb in B. discriminate.
  - destruct (truthy content && (2000 <? _)) eqn:L.
    + eexists. split; [reflexivity|]. intros _ Hlen.
      apply andb_true_iff in L. destruct L as [_ L].
      apply Nat.ltb_lt in L. lia.
    + rewrite Hc, Hm. simpl. eexists. split; reflexivity.
Qed.

(** The handler of ['message:send'] asks for no membership: whenever the
    content is within the schema's length and a channel id is given, the
    message is stored and acknowledged. *)
Lemma socket_send_has_no_gate
      (d : Db) (me : ObjectId) (content : option string) (cid : ObjectId)
      (tp : option ObjectId) (fresh : ObjectId) (fresh_n : nat -> ObjectId)
      (now : Z) :
  Message.content_valid content = true ->
  exists m d',
    Socket.message_send d me content (Some cid) tp fresh fresh_n now
    = (d', AckSuccess m)
    /\ messages d' = messages d ++ [m]
    /\ Message.author_id m = me /\ Message.channel_id m = cid.
Proof.
  intros Hv. unfold Socket.message_send, Socket.Message_create.
  rewrite Hv. simpl. do 2 eexists. split; [reflexivity|].
  simpl. auto.
Qed.

(** C1.  Bob is not a member of [general].  His request to create a message
    there is refused with [not_a_member] by the HTTP controller, which
    leaves the database as it was; the same request on the live connection
    is acknowledged as a success and the message is stored. *)
Theorem socket_send_by_non_member :
  includes (Channel.members Sample.general) (User._id Sample.bob) = false
  /\ Http.createMessage Sample.db0 Sample.bob (Some "hi")
       (Some Sample.general_id) None None Sample.fresh_id 9000
     = (Sample.db0, Next not_a_member)
  /\ exists m,
      Socket.message_send Sample.db0 (User._id Sample.bob) (Some "hi")
        (Some Sample.general_id) None Sample.fresh_id Sample.fresh_n 9000
      = (set_messages (messages Sample.db0 ++ [m]) Sample.db0, AckSuccess m)
      /\ Message.author_id m = User._id Sample.bob
      /\ Message.channel_id m = Sample.general_id.
Proof.
  split; [reflexivity|]. split; [reflexivity|].
  eexists. split; [vm_compute; reflexivity|]. split; reflexivity.
Qed.

(** ** The thread depth check *)

(** The check reads [thread_parent_id] on an ObjectId and so never fires:
    the controller never answers with [thread_depth_exceeded] of its own
    (the attachment store could still throw an error that reads so). *)
Lemma depth_limit_never_reached (parentMessage : Message.t) :
  depth_limit_reached parentMessage = false.
Proof.
  unfold depth_limit_reached.
  destruct (Message.thread_parent_id parentMessage); [|reflexivity].
  unfold ObjectId_thread_parent_id. simpl. apply andb_false_r.
Qed.

Lemma http_createMessage_never_depth_error
      (db : Db) (me : User.t) (content : option string)
      (cid tp : option ObjectId) (file : option (Result string))
      (fresh : ObjectId) (now : Z) :
  file <> Some (Fail thread_depth_exceeded) ->
  snd (Http.createMessage db me content cid tp file fresh now)
  <> Next thread_depth_exceeded.
Proof.
  intros Hfile. unfold Http.createMessage.
  destruct (blank content && negb (present file)); [discriminate|].
  destruct (truthy content && _); [discriminate|].
  destruct cid as [cid|]; [|discriminate].
  destruct (Channel.findById _ _) as [channel|]; [|discriminate].
  destruct (negb (includes _ _)); [discriminate|].
  destruct (present file && _); [discriminate|].
  assert (Hup : forall cid',
    snd (match match file with
               | None => Ok None
               | Some (Ok url) => Ok (Some url)
               | Some (Fail e) => Fail e
               end with
         | Fail e => (db, Next e)
         | Ok file_url =>
             let message :=
               Message.mk fresh
                 (Some (match content with Some s => s | None => "" end))
                 (User._id me) cid' (or_null tp) file_url
                 [] false false false now now in
             (set_messages (messages db ++ [message]) db, Json 201 message)
         end) <> Next thread_depth_exceeded).
  { intros cid'. destruct file as [[url|e]|]; simpl; try discriminate.
    intros H. apply Hfile. now inversion H. }
  destruct (or_null tp) as [pid|]; [|apply Hup].
  destruct (Message_findById _ _) as [p|]; [|discriminate].
  rewrite depth_limit_never_reached. apply Hup.
Qed.

(** C2.  The message [m3] is a reply to a reply, so it has a grandparent.
    A reply to [m3] by a member of the channel is nevertheless created,
    with status 201 by the HTTP controller and with a success
    acknowledgment by the live connection: the nesting reaches a fourth
    level. *)
Theorem reply_beyond_depth_limit_created :
  Message_findById (messages Sample.db0) Sample.m3_id = Some Sample.m3
  /\ has_grandparent Sample.db0 Sample.m3 = true
  /\ (exists m,
        Http.createMessage Sample.db0 Sample.alice (Some "deep")
          (Some Sample.general_id) (Some Sample.m3_id) None Sample.fresh_id 9000
        = (set_messages (messages Sample.db0 ++ [m]) Sample.db0, Json 201 m)
        /\ Message.thread_parent_id m = Some Sample.m3_id)
  /\ (exists m,
        Socket.message_send Sample.db0 (User._id Sample.alice) (Some "deep")
          (Some Sample.general_id) (Some Sample.m3_id) Sample.fresh_id
          Sample.fresh_n 9000
        = (set_messages (messages Sample.db0 ++ [m]) Sample.db0, AckSuccess m)
        /\ Message.thread_parent_id m = Some Sample.m3_id).
Proof.
  split; [reflexivity|]. split; [reflexivity|]. split.
  - eexists. split; [vm_compute; reflexivity | reflexivity].
  - eexists. split; [vm_compute; reflexivity | reflexivity].
Qed.

(** ** Presence *)

Lemma findById_after_update (us : list User.t) (id : ObjectId)
      (f : User.t -> User.t) :
  (forall u, User._id (f u) = User._id u) ->
  User.findById (User.findByIdAndUpdate us id f) id
  = option_map f (User.findById us id).
Proof.
  intros Hf. unfold User.findById, User.findByIdAndUpdate.
  induction us as [|u us IH]; simpl; [reflexivity|].
  destruct (String.eqb (User._id u) id) eqn:E.
  - now rewrite Hf, E.
  - rewrite E. exact IH.
Qed.

Lemma status_after_update (d : Db) (userId : ObjectId) (isOnline : bool)
      (now : Z) (u : User.t) :
  User.findById (users d) userId = Some u ->
  User.findById (users (Socket.updateUserStatus d userId isOnline now)) userId
  = Some (User.set_status isOnline now u).
Proof.
  intros H. unfold Socket.updateUserStatus. simpl.
  rewrite findById_after_update by reflexivity. now rewrite H.
Qed.

(** C3, as the code has it.  Presence is a flag written by every connection
    event, not a session count: for a user of the database, every connect
    (so also one that takes the count of sessions from 0 to 1) sets
    [is_online] and stamps [last_seen], and the count grows by one; every
    disconnect of one of the user's sessions (so also one that takes the
    count from 1 to 0, and also one that leaves other sessions open) clears
    [is_online] and stamps [last_seen]. *)
Theorem presence_follows_last_event
        (srv : Socket.Server) (sid_new sid : string) (userId : ObjectId)
        (now : Z) (u : User.t) :
  User.findById (users (Socket.db srv)) userId = Some u ->
  (Socket.is_online (Socket.connection srv sid_new userId now) userId
   = Some true
   /\ Socket.last_seen (Socket.connection srv sid_new userId now) userId
      = Some now
   /\ Socket.session_count (Socket.connection srv sid_new userId now) userId
      = S (Socket.session_count srv userId))
  /\ (forall s,
        find (fun s => String.eqb (Socket.socket_id s) sid) (Socket.sessions srv)
        = Some s ->
        Socket.user_id s = userId ->
        Socket.is_online (Socket.disconnect srv sid now) userId = Some false
        /\ Socket.last_seen (Socket.disconnect srv sid now) userId = Some now).
Proof.
  intros Hu. split; [split; [|split]|].
  - unfold Socket.is_online, Socket.connection. cbn [Socket.db].
    now rewrite (status_after_update _ _ _ _ Hu).
  - unfold Socket.last_seen, Socket.connection. cbn [Socket.db].
    now rewrite (status_after_update _ _ _ _ Hu).
  - unfold Socket.session_count, Socket.connection. simpl.
    rewrite filter_app, length_app. simpl.
    rewrite String.eqb_refl. simpl. lia.
  - intros s Hs Hid. subst userId.
    unfold Socket.is_online, Socket.last_seen, Socket.disconnect.
    rewrite Hs. cbn [Socket.db].
    now rewrite (status_after_update _ _ _ _ Hu).
Qed.

(** Alice holds the session [s1]: a second connect and the disconnect of
    [s1]. *)
Lemma presence_follows_last_event_witness :
  let alice := User._id Sample.alice in
  let srv := Socket.connection Sample.server0 "s1" alice 10 in
  User.findById (users (Socket.db srv)) alice
  = Some (User.set_status true 10 Sample.alice)
  /\ Socket.is_online (Socket.connection srv "s2" alice 20) alice = Some true
  /\ Socket.session_count (Socket.connection srv "s2" alice 20) alice = 2
  /\ Socket.is_online (Socket.disconnect srv "s1" 20) alice = Some false
  /\ Socket.last_seen (Socket.disconnect srv "s1" 20) alice = Some 20%Z.
Proof.
  intros alice srv.
  assert (Hu : User.findById (users (Socket.db srv)) alice
               = Some (User.set_status true 10 Sample.alice)) by reflexivity.
  destruct (@presence_follows_last_event srv "s2" "s1" alice 20%Z _ Hu)
    as [[Hon [_ Hcount]] Hoff].
  destruct (Hoff (Socket.mkSession "s1" alice) eq_refl eq_refl) as [Hoff1 Hoff2].
  repeat split; assumption.
Defined.

(** C3, as stated, fails: Alice holds two sessions; after one of them
    disconnects she still holds one, and is marked offline. *)
Lemma presence_two_sessions_counterexample :
  let srv :=
    Socket.connection
      (Socket.connection Sample.server0 "s1" (User._id Sample.alice) 10)
      "s2" (User._id Sample.alice) 20 in
  Socket.session_count srv (User._id Sample.alice) = 2
  /\ Socket.session_count (Socket.disconnect srv "s1" 30) (User._id Sample.alice)
     = 1
  /\ Socket.is_online (Socket.disconnect srv "s1" 30) (User._id Sample.alice)
     = Some false
  /\ Socket.is_online (Socket.disconnect srv "s1" 30) (User._id Sample.alice)
     <> Some true.
Proof.
  repeat split; try reflexivity. discriminate.
Qed.

(** Bob reacted to a message with [+1]: a second [+1] of Bob, the removal of
    a [-1] he never gave, and a sequence of requests. *)
Lemma reactions_stay_unique_witness :
  let bob := User._id Sample.bob in
  let ops := [Message.Add "+1" bob 1; Message.Add "+1" (User._id Sample.carol) 2;
              Message.Remove "+1" bob 3; Message.Add "" bob 4] in
  Message.unique_reactions Sample.m1_liked
  /\ Message.addReaction "+1" bob 6000 Sample.m1_liked = Ok Sample.m1_liked
  /\ Message.removeReaction "-1" bob 6000 Sample.m1_liked = Sample.m1_liked
  /\ Message.unique_reactions (Message.react_all ops Sample.m1_liked).
Proof.
  intros bob ops.
  assert (Hu : Message.unique_reactions Sample.m1_liked).
  { unfold Message.unique_reactions. simpl.
    constructor; [intros [] | constructor]. }
  destruct (@reactions_stay_unique Sample.m1_liked "+1" bob 6000%Z ops Hu)
    as [Hadd [_ Hall]].
  destruct (@reactions_stay_unique Sample.m1_liked "-1" bob 6000%Z ops Hu)
    as [_ [Hrem _]].
  split; [|split; [|split]].
  - exact Hu.
  - apply Hadd. left. reflexivity.
  - apply Hrem. intros [H | []]. discriminate H.
  - exact Hall.
Defined.

(** ** Mentions *)

Lemma NoDup_map_injective {A B} (f : A -> B) (l : list A) (a b : A) :
  NoDup (map f l) -> In a l -> In b l -> f a = f b -> a = b.
Proof.
  induction l as [|x l IH]; simpl; [contradiction|].
  intros H Ha Hb Hf. inversion H as [|? ? Hn Hd]; subst.
  destruct Ha as [-> | Ha], Hb as [-> | Hb]; auto.
  - exfalso. apply Hn. rewrite Hf. now apply in_map.
  - exfalso. apply Hn. rewrite <- Hf. now apply in_map.
Qed.

(** The lookup by display name only depends on the name up to case. *)
Lemma findOneByDisplayName_case (us : list User.t) (a b : string) :
  toLowerCase a = toLowerCase b ->
  User.findOneByDisplayName us a = User.findOneByDisplayName us b.
Proof. unfold User.findOneByDisplayName. now intros ->. Qed.

Lemma findOneByDisplayName_sound (us : list User.t) (a : string) (w : User.t) :
  User.findOneByDisplayName us a = Some w ->
  In w us /\ toLowerCase (User.display_name w) = toLowerCase a.
Proof.
  unfold User.findOneByDisplayName. intros H. apply find_some in H.
  destruct H as [Hin He]. split; [assumption | now apply String.eqb_eq].
Qed.

Section MentionLoop.

Variable db : Db.
Variables message_id channel_id : ObjectId.
Variable author : Mentions.AuthorField.
Variable fresh : nat -> ObjectId.
Variable now : Z.

Hypothesis ids_unique : NoDup (map User._id (users db)).

(** One notification comes out of every match that names the user [u],
    provided [u] is who the name resolves to, the sender is found, and the
    id of [u] is not the string the author field prints as. *)
Lemma loop_counts_occurrences (sender u : User.t) (mentions : list string)
      (k : nat) :
  Mentions.findSender db author = Some sender ->
  User.findOneByDisplayName (users db) (User.display_name u) = Some u ->
  Mentions.toString author <> Ok (User._id u) ->
  List.length
    (Mentions.mentions_for (User._id u)
       (Mentions.loop db message_id channel_id author fresh now mentions k))
  = List.length (Mentions.occurrences (User.display_name u) mentions).
Proof.
  intros Hsender Hu Hne. revert k.
  assert (Hcast : exists sid, Mentions.cast author = Some sid).
  { unfold Mentions.findSender in Hsender.
    destruct (Mentions.cast author) as [sid|]; [eauto | discriminate]. }
  destruct Hcast as [sid Hcast].
  assert (Hstr : exists s, Mentions.toString author = Ok s).
  { destruct author as [a | [d|]]; simpl in *; eauto; discriminate. }
  destruct Hstr as [s Hstr].
  assert (Hus : User._id u <> s).
  { intros E. apply Hne. now rewrite Hstr, E. }
  induction mentions as [|mention rest IH]; intros k; [reflexivity|].
  cbn [Mentions.loop Mentions.occurrences filter].
  destruct (String.eqb (toLowerCase (User.display_name u))
                       (toLowerCase (substring1 mention))) eqn:E.
  - apply String.eqb_eq in E.
    rewrite <- (findOneByDisplayName_case (users db) _ _ E), Hu.
    rewrite Hstr, Hsender, Hcast.
    destruct (String.eqb (User._id u) s) eqn:Es;
      [apply String.eqb_eq in Es; contradiction|].
    cbn [negb Mentions.mentions_for filter Notification.recipient_id
         Notification.type].
    rewrite String.eqb_refl. cbn [andb List.length]. f_equal. apply IH.
  - destruct (User.findOneByDisplayName (users db) (substring1 mention))
      as [w|] eqn:Fw; [|apply IH].
    rewrite Hstr, Hsender, Hcast.
    destruct (String.eqb (User._id w) s); cbn [negb]; [apply IH|].
    cbn [Mentions.mentions_for filter Notification.recipient_id].
    destruct (String.eqb (User._id w) (User._id u)) eqn:Ew.
    + exfalso. apply String.eqb_eq in Ew.
      apply findOneByDisplayName_sound in Fw. destruct Fw as [Hw Hlw].
      apply findOneByDisplayName_sound in Hu. destruct Hu as [Hin _].
      assert (w = u) by (eapply NoDup_map_injective; eassumption).
      subst w. rewrite Hlw, String.eqb_refl in E. discriminate.
    + cbn [andb]. apply IH.
Qed.

(** With the plain id of the author in the field, no notification is
    addressed to the author. *)
Lemma loop_skips_plain_author (a : ObjectId) (mentions : list string) (k : nat) :
  author = Mentions.Unpopulated a ->
  Mentions.mentions_for a
    (Mentions.loop db message_id channel_id author fresh now mentions k) = [].
Proof.
  intros Ha. revert k.
  induction mentions as [|mention rest IH]; intros k; [reflexivity|].
  cbn [Mentions.loop].
  destruct (User.findOneByDisplayName _ _) as [w|]; [|apply IH].
  rewrite Ha at 1. cbn [Mentions.toString].
  destruct (String.eqb (User._id w) a) eqn:E; cbn [negb]; [apply IH|].
  destruct (Mentions.findSender db author); [|reflexivity].
  destruct (Mentions.cast author); [|reflexivity].
  cbn [Mentions.mentions_for filter Notification.recipient_id].
  rewrite E. cbn [andb]. apply IH.
Qed.

End MentionLoop.

(** C4, as the code has it.  Mention processing does not deduplicate the
    recipients: in a database whose user ids are pairwise distinct, for a
    message with a content and a sender that is found, every match of the
    content that names a user [u] (the user the name resolves to, whose id
    is not the string the author field prints as) adds one Notification of
    type mention addressed to [u]; the number of these notifications grows
    by the number of such matches, so by two when the name appears twice. *)
Theorem mentions_notify_each_occurrence
        (db : Db) (message : Message.t) (author : Mentions.AuthorField)
        (fresh : nat -> ObjectId) (now : Z) (content : string)
        (sender u : User.t) :
  NoDup (map User._id (users db)) ->
  Message.content message = Some content ->
  Mentions.findSender db author = Some sender ->
  User.findOneByDisplayName (users db) (User.display_name u) = Some u ->
  Mentions.toString author <> Ok (User._id u) ->
  List.length
    (Mentions.mentions_for (User._id u)
       (notifications (Mentions.processMentions db message author fresh now)))
  = List.length (Mentions.mentions_for (User._id u) (notifications db))
    + List.length (Mentions.occurrences (User.display_name u)
                     (Mentions.mentionRegex_match content)).
Proof.
  intros Hids Hcontent Hsender Hu Hne.
  unfold Mentions.processMentions. cbn [notifications set_notifications].
  unfold Mentions.mentions_for at 1. rewrite filter_app, length_app.
  f_equal. unfold Mentions.created. rewrite Hcontent.
  now apply loop_counts_occurrences with (sender := sender).
Qed.

Lemma sample_user_ids_unique : NoDup (map User._id (users Sample.db0)).
Proof.
  simpl. repeat constructor; simpl; intuition discriminate.
Qed.

(** Alice writes Bob's name twice. *)
Lemma mentions_notify_each_occurrence_witness :
  let message :=
    Sample.message Sample.fresh_id "@Bob and again @bob" None false false 9000 in
  let author := Mentions.populate Sample.db0 (User._id Sample.alice) in
  Mentions.mentionRegex_match "@Bob and again @bob" = ["@Bob"; "@bob"]
  /\ List.length
       (Mentions.mentions_for (User._id Sample.bob)
          (notifications
             (Mentions.processMentions Sample.db0 message author Sample.fresh_n
                                       9000)))
     = 0 + 2.
Proof.
  intros message author. split; [reflexivity|].
  apply (@mentions_notify_each_occurrence Sample.db0 message author
           Sample.fresh_n 9000%Z "@Bob and again @bob" Sample.alice Sample.bob).
  - exact sample_user_ids_unique.
  - reflexivity.
  - reflexivity.
  - reflexivity.
  - simpl. discriminate.
Defined.

(** C4, as stated, fails: Alice sends a message that mentions Bob's display
    name twice, and two Notifications of type mention are addressed to
    Bob, not one. *)
Lemma mention_twice_counterexample :
  let d :=
    fst (Socket.message_send Sample.db0 (User._id Sample.alice)
           (Some "@Bob and again @bob") (Some Sample.general_id) None
           Sample.fresh_id Sample.fresh_n 9000) in
  Mentions.mentions_for (User._id Sample.bob) (notifications Sample.db0) = []
  /\ List.length (Mentions.mentions_for (User._id Sample.bob) (notifications d))
     = 2.
Proof.
  split; reflexivity.
Qed.

(** A mention of the author is skipped when the field [author_id] of the
    message holds the author's id. *)
Lemma self_mention_skipped_for_plain_author
      (db : Db) (message : Message.t) (fresh : nat -> ObjectId) (now : Z) :
  Mentions.mentions_for (Message.author_id message)
    (Mentions.created db message
       (Mentions.Unpopulated (Message.author_id message)) fresh now) = [].
Proof.
  unfold Mentions.created. destruct (Message.content message); [|reflexivity].
  now apply loop_skips_plain_author.
Qed.

(** The handler of ['message:send'] populates the author before it calls
    [processMentions]; the field then prints as a document and the
    comparison with the mentioned user's id never holds: Alice, who mentions
    herself, is notified. *)
Example self_mention_notified_after_populate :
  let d :=
    fst (Socket.message_send Sample.db0 (User._id Sample.alice)
           (Some "note to @alice") (Some Sample.general_id) None
           Sample.fresh_id Sample.fresh_n 9000) in
  List.length (Mentions.mentions_for (User._id Sample.alice) (notifications d))
  = 1.
Proof. reflexivity. Qed.

(** The HTTP controller runs no mention processing: it leaves the
    notifications as they were. *)
Lemma http_createMessage_no_notifications
      (db : Db) (me : User.t) (content : option string)
      (cid tp : option ObjectId) (file : option (Result string))
      (fresh : ObjectId) (now : Z) :
  notifications (fst (Http.createMessage db me content cid tp file fresh now))
  = notifications db.
Proof.
  unfold Http.createMessage.
  repeat match goal with
         | |- context [if ?b then _ else _] => destruct b
         | |- context [match ?x with _ => _ end] => destruct x
         end; reflexivity.
Qed.

(** ** Pinning *)

Lemma message_find_after_save (db : Db) (id : ObjectId) (m m' : Message.t) :
  Message_findById (messages db) id = Some m ->
  Message._id m' = Message._id m ->
  Message_findById (Message_save (messages db) m') id = Some m'.
Proof.
  intros H Hid. unfold Message_findById, Message_save in *.
  destruct (find_by_id_sound Message._id _ _ H) as [_ Hi].
  rewrite <- Hi, <- Hid in *. eapply find_after_save. eassumption.
Qed.

(** C5, as the code has it.  For a message [m] of the database:
    [pinMessage] fails on a deleted message and [unpinMessage] fails on a
    message that is not pinned; whenever either fails, the database, and
    with it the pinned flag, is as it was.  For a member of the message's
    channel, [pinMessage] on a message that is not deleted succeeds and the
    stored message has the flag set afterwards, also when it was pinned
    before; and [unpinMessage] on a pinned message succeeds and the stored
    message has the flag cleared afterwards, also when it is deleted.  In
    both cases the other fields are as they were, but for [updated_at],
    which holds the time of the request when the flag changed. *)
Theorem pin_unpin_guards
        (db : Db) (me : User.t) (id : ObjectId) (now : Z) (m : Message.t) :
  Message_findById (messages db) id = Some m ->
  (Message.is_deleted m = true ->
   Http.pinMessage db me id now
   = (db, Next (AppError "Cannot pin a deleted message" 400)))
  /\ (Message.is_pinned m = false ->
      Http.unpinMessage db me id now
      = (db, Next (AppError "Message is not pinned" 400)))
  /\ (forall e, snd (Http.pinMessage db me id now) = Next e ->
                fst (Http.pinMessage db me id now) = db)
  /\ (forall e, snd (Http.unpinMessage db me id now) = Next e ->
                fst (Http.unpinMessage db me id now) = db)
  /\ (forall channel,
        Channel.findById (channels db) (Message.channel_id m) = Some channel ->
        includes (Channel.members channel) (User._id me) = true ->
        (Message.is_deleted m = false ->
         exists m',
           snd (Http.pinMessage db me id now) = Json 200 (Some m')
           /\ Message_findById (messages (fst (Http.pinMessage db me id now)))
                                id
              = Some m'
           /\ Message.is_pinned m' = true
           /\ same_but_pinned m m'
           /\ Message.updated_at m'
              = if Message.is_pinned m then Message.updated_at m else now)
        /\ (Message.is_pinned m = true ->
            exists m',
              snd (Http.unpinMessage db me id now) = Json 200 None
              /\ Message_findById
                   (messages (fst (Http.unpinMessage db me id now))) id
                 = Some m'
              /\ Message.is_pinned m' = false
              /\ same_but_pinned m m'
              /\ Message.updated_at m' = now)).
Proof.
  intros Hm. unfold Http.pinMessage, Http.unpinMessage. rewrite Hm.
  split; [|split; [|split; [|split]]].
  - now intros ->.
  - now intros ->.
  - intros e. destruct (Message.is_deleted m); [reflexivity|].
    destruct (Channel.findById _ _) as [c|]; [|reflexivity].
    destruct (negb (includes _ _)); [reflexivity | discriminate].
  - intros e. destruct (negb (Message.is_pinned m)); [reflexivity|].
    destruct (Channel.findById _ _) as [c|]; [|reflexivity].
    destruct (negb (includes _ _)); [reflexivity | discriminate].
  - intros channel Hc Hin. rewrite Hc, Hin. cbn [negb]. split.
    + intros ->. exists (Message.set_pinned true now m).
      split; [reflexivity|]. cbn [fst messages set_messages]. split.
      * apply message_find_after_save with (m := m); [assumption|].
        unfold Message.set_pinned. now destruct (Bool.eqb _ _).
      * unfold Message.set_pinned, same_but_pinned, same_identity.
        destruct (Message.is_pinned m) eqn:P; cbn; rewrite ?P; tauto.
    + intros P. rewrite P. exists (Message.set_pinned false now m).
      split; [reflexivity|]. cbn [negb fst messages set_messages]. split.
      * apply message_find_after_save with (m := m); [assumption|].
        unfold Message.set_pinned. now destruct (Bool.eqb _ _).
      * unfold Message.set_pinned, same_but_pinned, same_identity.
        rewrite P. cbn. tauto.
Qed.

(** Alice, a member of [general], at the time 9000: on the deleted message
    [m4]; on the message [m2], which is not pinned and which she pins; and
    on the pinned message [m1], last updated at 5000, which she unpins. *)
Lemma pin_unpin_guards_witness :
  Http.pinMessage Sample.db0 Sample.alice Sample.m4_id 9000
  = (Sample.db0, Next (AppError "Cannot pin a deleted message" 400))
  /\ Http.unpinMessage Sample.db0 Sample.alice Sample.m2_id 9000
     = (Sample.db0, Next (AppError "Message is not pinned" 400))
  /\ (exists m',
        Message_findById
          (messages (fst (Http.pinMessage Sample.db0 Sample.alice
                            Sample.m2_id 9000))) Sample.m2_id = Some m'
        /\ Message.is_pinned m' = true
        /\ Message.updated_at m' = 9000%Z)
  /\ (exists m',
        Message_findById
          (messages (fst (Http.unpinMessage Sample.db0 Sample.alice
                            Sample.m1_id 9000))) Sample.m1_id = Some m'
        /\ Message.is_pinned m' = false
        /\ Message.updated_at m' = 9000%Z).
Proof.
  destruct (@pin_unpin_guards Sample.db0 Sample.alice Sample.m4_id 9000
              Sample.m4 eq_refl) as [Hdel _].
  destruct (@pin_unpin_guards Sample.db0 Sample.alice Sample.m2_id 9000
              Sample.m2 eq_refl) as [_ [Hunp [_ [_ Hok2]]]].
  destruct (@pin_unpin_guards Sample.db0 Sample.alice Sample.m1_id 9000
              Sample.m1 eq_refl) as [_ [_ [_ [_ Hok1]]]].
  destruct (Hok2 Sample.general eq_refl eq_refl) as [Hpin _].
  destruct (Hok1 Sample.general eq_refl eq_refl) as [_ Hunpin].
  destruct (Hpin eq_refl) as [a [_ [Ha1 [Ha2 [_ Ha3]]]]].
  destruct (Hunpin eq_refl) as [b [_ [Hb1 [Hb2 [_ Hb3]]]]].
  split; [exact (Hdel eq_refl)|].
  split; [exact (Hunp eq_refl)|].
  split; [exists a | exists b]; repeat split; assumption.
Defined.

(** C5, as stated, fails: the message [m1] is pinned already, and Alice's
    request to pin it succeeds with status 200 instead of failing; the
    message [m4] is deleted (and was pinned before), and Alice's request to
    unpin it succeeds and clears the flag. *)
Lemma pin_already_pinned_counterexample :
  Message.is_pinned Sample.m1 = true
  /\ snd (Http.pinMessage Sample.db0 Sample.alice Sample.m1_id 9000)
     = Json 200 (Some Sample.m1)
  /\ Message.is_deleted Sample.m4 = true
  /\ snd (Http.unpinMessage Sample.db0 Sample.alice Sample.m4_id 9000)
     = Json 200 None
  /\ option_map Message.is_pinned
       (Message_findById
          (messages (fst (Http.unpinMessage Sample.db0 Sample.alice
                            Sample.m4_id 9000)))
          Sample.m4_id)
     = Some false.
Proof.
  repeat split.
Qed.

(** ** Editing *)

(** C6, as the code has it.  The edit of a message [m] of the database
    succeeds exactly when the requester is the author, the message is not
    deleted, the new content is not blank (not empty once white space is
    trimmed from both ends) and has at most 2000 characters, and fewer than
    300 seconds (300000 ms) have passed since the creation.  From 300 seconds on, such
    a request of the author fails with the edit-window error.  After a
    successful edit the stored message carries the new content, is marked
    as edited and has the time of the request as [updated_at]; its other
    fields are as they were.  Whenever the edit fails the database is as it
    was. *)
Theorem edit_succeeds_iff
        (db : Db) (me : User.t) (id : ObjectId) (content : option string)
        (now : Z) (m : Message.t) :
  Message_findById (messages db) id = Some m ->
  ((exists status m', snd (Http.editMessage db me id content now)
                      = Json status m')
   <-> (Message.author_id m = User._id me
        /\ Message.is_deleted m = false
        /\ blank content = false
        /\ String.length (match content with Some s => s | None => "" end)
           <= 2000
        /\ (now - Message.created_at m < 300 * 1000)%Z))
  /\ (Message.author_id m = User._id me ->
      Message.is_deleted m = false ->
      blank content = false ->
      String.length (match content with Some s => s | None => "" end) <= 2000 ->
      ((now - Message.created_at m < 300 * 1000)%Z ->
       exists m',
         Http.editMessage db me id content now
         = (set_messages (Message_save (messages db) m') db, Json 200 m')
         /\ Message_findById
              (messages (fst (Http.editMessage db me id content now))) id
            = Some m'
         /\ Message.content m' = content
         /\ Message.is_edited m' = true
         /\ Message.updated_at m' = now
         /\ same_but_edited m m')
      /\ ((300 * 1000 <= now - Message.created_at m)%Z ->
          Http.editMessage db me id content now
          = (db, Next edit_window_expired)))
  /\ (forall e, snd (Http.editMessage db me id content now) = Next e ->
                fst (Http.editMessage db me id content now) = db).
Proof.
  intros Hm. unfold Http.editMessage.
  set (len := String.length (match content with Some s => s | None => "" end)).
  destruct (blank content) eqn:B.
  { split; [split|split].
    - intros [st [m' H]]. discriminate.
    - intros [_ [_ [H _]]]. discriminate.
    - discriminate.
    - reflexivity. }
  destruct (2000 <? len) eqn:L.
  { apply Nat.ltb_lt in L. split; [split|split].
    - intros [st [m' H]]. discriminate.
    - intros [_ [_ [_ [H _]]]]. lia.
    - intros. lia.
    - reflexivity. }
  apply Nat.ltb_ge in L. rewrite Hm.
  destruct (String.eqb (Message.author_id m) (User._id me)) eqn:A; cbn [negb].
  2:{ apply String.eqb_neq in A. split; [split|split].
      - intros [st [m' H]]. discriminate.
      - intros [H _]. contradiction.
      - intros. contradiction.
      - reflexivity. }
  apply String.eqb_eq in A. unfold Message.canBeEdited.
  destruct (Message.is_deleted m) eqn:D.
  { rewrite andb_false_r. cbn [negb]. split; [split|split].
    - intros [st [m' H]]. discriminate.
    - intros [_ [H _]]. discriminate.
    - discriminate.
    - reflexivity. }
  rewrite andb_true_r.
  destruct (now - 5 * 60 * 1000 <? Message.created_at m)%Z eqn:T; cbn [negb].
  - apply Z.ltb_lt in T. split; [split|split].
    + intros _. repeat split; try assumption; lia.
    + intros _. do 2 eexists. reflexivity.
    + intros _ _ _ _. split.
      * intros _. exists (Message.set_edited content now m).
        split; [reflexivity|]. cbn [fst messages set_messages].
        split; [now apply message_find_after_save with (m := m)|].
        unfold same_but_edited, same_identity. cbn. tauto.
      * intros. lia.
    + discriminate.
  - apply Z.ltb_ge in T. split; [split|split].
    + intros [st [m' H]]. discriminate.
    + intros [_ [_ [_ [_ H]]]]. lia.
    + intros _ _ _ _. split; [intros; lia | reflexivity].
    + reflexivity.
Qed.

(** Alice edits her message [m1], created at 5000 ms: one millisecond
    before, and exactly at, 300 seconds after the creation. *)
Lemma edit_succeeds_iff_witness :
  Message_findById (messages Sample.db0) Sample.m1_id = Some Sample.m1
  /\ Message.is_edited Sample.m1 = false
  /\ (exists m',
        Message_findById
          (messages (fst (Http.editMessage Sample.db0 Sample.alice
                            Sample.m1_id (Some "fixed") 304999)))
          Sample.m1_id = Some m'
        /\ Message.content m' = Some "fixed"
        /\ Message.is_edited m' = true
        /\ Message.updated_at m' = 304999%Z)
  /\ Http.editMessage Sample.db0 Sample.alice Sample.m1_id (Some "fixed") 305000
     = (Sample.db0, Next edit_window_expired).
Proof.
  split; [reflexivity|]. split; [reflexivity|].
  destruct (@edit_succeeds_iff Sample.db0 Sample.alice Sample.m1_id
              (Some "fixed") 304999%Z Sample.m1 eq_refl) as [_ [Hin _]].
  destruct (@edit_succeeds_iff Sample.db0 Sample.alice Sample.m1_id
              (Some "fixed") 305000%Z Sample.m1 eq_refl) as [_ [Hout _]].
  split.
  - destruct (Hin eq_refl eq_refl eq_refl) as [H _]; [simpl; lia|].
    destruct H as [m' [_ [H1 [H2 [H3 [H4 _]]]]]]; [simpl; lia|].
    exists m'. repeat split; assumption.
  - destruct (Hout eq_refl eq_refl eq_refl) as [_ H]; [simpl; lia|].
    apply H. simpl. lia.
Defined.

(** C6, as stated, fails: Alice edits her own message [m1], which is not
    deleted, one second after its creation, with a content of one space,
    which is not empty and has at most 2000 characters; the edit is
    refused. *)
Lemma edit_blank_content_counterexample :
  Message_findById (messages Sample.db0) Sample.m1_id = Some Sample.m1
  /\ Message.author_id Sample.m1 = User._id Sample.alice
  /\ Message.is_deleted Sample.m1 = false
  /\ " " <> ""
  /\ String.length " " <= 2000
  /\ (6000 - Message.created_at Sample.m1 < 300 * 1000)%Z
  /\ Http.editMessage Sample.db0 Sample.alice Sample.m1_id (Some " ") 6000
     = (Sample.db0, Next (AppError "Message content is required" 400)).
Proof.
  repeat split; try reflexivity; simpl; try lia. discriminate.
Qed.

(** ** Leaving a channel *)

Lemma earliest_is_least (us : list User.t) :
  match User.earliest us with
  | None => us = []
  | Some o =>
      In o us /\ forall v, In v us -> (User.created_at o <= User.created_at v)%Z
  end.
Proof.
  induction us as [|u us IH]; simpl; [reflexivity|].
  destruct (User.earliest us) as [w|].
  - destruct IH as [Hin Hle].
    destruct (User.created_at u <=? User.created_at w)%Z eqn:E.
    + apply Z.leb_le in E. split; [now left|].
      intros v [<- | Hv]; [lia|]. specialize (Hle v Hv). lia.
    + apply Z.leb_gt in E. split; [now right|].
      intros v [<- | Hv]; [lia | now apply Hle].
  - subst us. split; [now left|]. intros v [<- | []]. lia.
Qed.

(** The answer of the query for the new creator: a user of the database
    who is a member other than the one who leaves, and the earliest created
    of these. *)
Lemma oldestMember_spec (db : Db) (channel : Channel.t) (me o : User.t) :
  Http.oldestMember db channel me = Some o ->
  In o (users db)
  /\ In (User._id o) (Channel.members channel)
  /\ User._id o <> User._id me
  /\ forall v, In v (users db) ->
               In (User._id v) (Channel.members channel) ->
               User._id v <> User._id me ->
               (User.created_at o <= User.created_at v)%Z.
Proof.
  unfold Http.oldestMember. intros H.
  pose proof (earliest_is_least
    (filter (fun u => includes (Channel.members channel) (User._id u)
                      && negb (String.eqb (User._id u) (User._id me)))
            (users db))) as E.
  rewrite H in E. destruct E as [Hin Hle].
  apply filter_In in Hin. destruct Hin as [Hin Hp].
  apply andb_true_iff in Hp. destruct Hp as [Hmem Hne].
  apply includes_In in Hmem. apply negb_true_iff, String.eqb_neq in Hne.
  repeat split; try assumption.
  intros v Hv Hvm Hvn. apply Hle. apply filter_In. split; [assumption|].
  apply andb_true_iff. split.
  - now apply includes_In.
  - now apply negb_true_iff, String.eqb_neq.
Qed.

Lemma oldestMember_exists (db : Db) (channel : Channel.t) (me v : User.t) :
  In v (users db) ->
  In (User._id v) (Channel.members channel) ->
  User._id v <> User._id me ->
  exists o, Http.oldestMember db channel me = Some o.
Proof.
  intros Hv Hvm Hvn. unfold Http.oldestMember.
  pose proof (earliest_is_least
    (filter (fun u => includes (Channel.members channel) (User._id u)
                      && negb (String.eqb (User._id u) (User._id me)))
            (users db))) as E.
  destruct (User.earliest _) as [o|]; [eauto|].
  exfalso.
  assert (Hin : In v (filter (fun u => includes (Channel.members channel) (User._id u)
                      && negb (String.eqb (User._id u) (User._id me)))
            (users db))).
  { apply filter_In. split; [assumption|]. apply andb_true_iff. split.
    - now apply includes_In.
    - now apply negb_true_iff, String.eqb_neq. }
  rewrite E in Hin. contradiction.
Qed.

Lemma two_members (ms : list ObjectId) (a b : ObjectId) :
  In a ms -> In b ms -> a <> b -> 1 < List.length ms.
Proof.
  destruct ms as [|x [|y ms]]; simpl; try lia; try contradiction.
  intros [<- | []] [<- | []] H. contradiction.
Qed.

Lemma channel_find_after_save (db : Db) (id : ObjectId) (c c' : Channel.t) :
  Channel.findById (channels db) id = Some c ->
  Channel._id c' = Channel._id c ->
  Channel.findById (Channel.save (channels db) c') id = Some c'.
Proof.
  intros H Hid. unfold Channel.findById, Channel.save in *.
  destruct (find_by_id_sound Channel._id _ _ H) as [_ Hi].
  rewrite <- Hi, <- Hid in *. eapply find_after_save. eassumption.
Qed.

Lemma remaining_members_In (channel : Channel.t) (me x : ObjectId) :
  In x (remaining_members channel me) <->
  In x (Channel.members channel) /\ x <> me.
Proof.
  unfold remaining_members. rewrite filter_In, negb_true_iff, String.eqb_neq.
  reflexivity.
Qed.

Lemma create_members_nonempty
      (cs : list Channel.t) (fresh : ObjectId) (now : Z) (n ty : string)
      (creator : ObjectId) (ms : list ObjectId) (c : Channel.t) :
  Channel.create cs fresh now n ty creator ms = Ok c ->
  In creator (Channel.members c).
Proof.
  unfold Channel.create.
  destruct (Channel.validate_name n); [|discriminate].
  destruct (Channel.validate_type ty); [|discriminate].
  destruct (existsb _ _); [discriminate|].
  intros H. inversion H; subst; clear H. simpl.
  destruct (includes ms creator) eqn:E.
  - now apply includes_In.
  - apply in_or_app. right. now left.
Qed.

Lemma members_nonempty_snoc (db : Db) (c : Channel.t) :
  members_nonempty db ->
  Channel.members c <> [] ->
  members_nonempty (set_channels (channels db ++ [c]) db).
Proof.
  intros H Hc x Hx. simpl in Hx. apply in_app_or in Hx.
  destruct Hx as [Hx | [<- | []]]; auto.
Qed.

Lemma members_nonempty_save (db : Db) (c : Channel.t) :
  members_nonempty db ->
  Channel.members c <> [] ->
  members_nonempty (set_channels (Channel.save (channels db) c) db).
Proof.
  intros H Hc x Hx. simpl in Hx. apply in_save in Hx.
  destruct Hx as [-> | Hx]; auto.
Qed.

Lemma members_nonempty_delete (db : Db) (id : ObjectId) :
  members_nonempty db ->
  members_nonempty
    (set_channels (Channel.findByIdAndDelete (channels db) id) db).
Proof.
  intros H x Hx. simpl in Hx. apply filter_In in Hx. apply H. tauto.
Qed.

Lemma leaveChannel_members_nonempty (db : Db) (me : User.t) (id : ObjectId) :
  members_nonempty db -> members_nonempty (fst (Http.leaveChannel db me id)).
Proof.
  intros H. unfold Http.leaveChannel.
  destruct (Channel.findById _ _) as [channel|]; [|assumption].
  destruct (negb (Channel.type_eqb _ _)); [assumption|].
  destruct (negb (includes _ _)); [assumption|].
  match goal with
  | |- context [List.length ?l =? 0] => destruct l eqn:E
  end; cbn [List.length Nat.eqb fst].
  - now apply members_nonempty_delete.
  - apply members_nonempty_save; [assumption|].
    rewrite E. discriminate.
Qed.

Lemma route_members_nonempty (db : Db) (r : ChannelRequest) :
  members_nonempty db -> members_nonempty (route db r).
Proof.
  intros H. destruct r as [me n ty fresh now | me id | me id | me id
                          | me other fresh now]; cbn [route].
  - unfold Http.createChannel. destruct n as [n|]; [|assumption].
    destruct (blank (Some n)); [assumption|].
    destruct (negb (Channel.nameRegex_test n)); [assumption|].
    destruct (existsb _ _); [assumption|].
    destruct (_ && Channel.isChannelLimitReached _); [assumption|].
    destruct (Channel.create _ _ _ _ _ _ _) as [c|e] eqn:C; [|assumption].
    apply members_nonempty_snoc; [assumption|].
    apply create_members_nonempty in C. intros E. now rewrite E in C.
  - unfold Http.joinChannel.
    destruct (Channel.findById _ _) as [channel|]; [|assumption].
    destruct (negb (Channel.type_eqb _ _)); [assumption|].
    destruct (includes _ _); [assumption|].
    apply members_nonempty_save; [assumption|]. simpl.
    intros E. apply app_eq_nil in E. destruct E as [_ E]. discriminate.
  - now apply leaveChannel_members_nonempty.
  - unfold Http.deleteChannel. destruct (User.role me); [|assumption].
    destruct (Channel.findById _ _) as [channel|]; [|assumption].
    destruct (String.eqb _ _); [assumption|].
    cbn [fst]. intros x Hx. simpl in Hx. apply filter_In in Hx. apply H. tauto.
  - unfold Http.createDmChannel.
    destruct (User.findById _ _); [|assumption].
    destruct (Channel.findDmChannel _ _ _); [assumption|].
    destruct (Channel.create _ _ _ _ _ _ _) as [c|e] eqn:C; [|assumption].
    apply members_nonempty_snoc; [assumption|].
    apply create_members_nonempty in C. intros E. now rewrite E in C.
Qed.

Lemma serve_members_nonempty (rs : list ChannelRequest) (db : Db) :
  members_nonempty db -> members_nonempty (serve db rs).
Proof.
  unfold serve. revert db.
  induction rs as [|r rs IH]; simpl; intros db H; [assumption|].
  apply IH. now apply route_members_nonempty.
Qed.

(** The controller, once its three guards are passed. *)
Lemma leaveChannel_passed
      (db : Db) (me : User.t) (id : ObjectId) (channel : Channel.t) :
  Channel.findById (channels db) id = Some channel ->
  Channel.type channel = Channel.public ->
  In (User._id me) (Channel.members channel) ->
  exists creator,
    (creator = Channel.created_by channel
     \/ (Channel.created_by channel = User._id me
         /\ exists o, Http.oldestMember db channel me = Some o
                      /\ creator = User._id o))
    /\ (Channel.created_by channel = User._id me ->
        forall o, Http.oldestMember db channel me = Some o ->
                  1 < List.length (Channel.members channel) ->
                  creator = User._id o)
    /\ Http.leaveChannel db me id
       = if List.length (remaining_members channel (User._id me)) =? 0
         then (set_channels (Channel.findByIdAndDelete (channels db) id) db,
               Json 200 Http.deleted_message)
         else (set_channels
                 (Channel.save (channels db)
                    (Channel.set_members
                       (remaining_members channel (User._id me))
                       (Channel.set_created_by creator channel))) db,
               Json 200 Http.left_message).
Proof.
  intros Hc Hty Hmem. unfold Http.leaveChannel.
  rewrite Hc, Hty. apply includes_In in Hmem. rewrite Hmem. cbn [negb Channel.type_eqb].
  assert (Hsame : Channel.set_created_by (Channel.created_by channel) channel
                  = channel) by now destruct channel.
  destruct (String.eqb (Channel.created_by channel) (User._id me)
            && (1 <? List.length (Channel.members channel))) eqn:G.
  - apply andb_true_iff in G. destruct G as [G1 G2].
    apply String.eqb_eq in G1.
    destruct (Http.oldestMember db channel me) as [o|] eqn:O.
    + exists (User._id o). split; [right; eauto|].
      split; [intros _ o' Ho' _; now inversion Ho'|]. reflexivity.
    + exists (Channel.created_by channel). split; [now left|].
      split; [intros _ o' Ho'; discriminate|]. now rewrite Hsame.
  - exists (Channel.created_by channel). split; [now left|]. split.
    + intros Hcr o Ho Hlen. rewrite Hcr, String.eqb_refl in G.
      apply Nat.ltb_lt in Hlen. rewrite Hlen in G. discriminate.
    + now rewrite Hsame.
Qed.

(** C8.  A member [me] leaves the public channel [channel].
    - If [me] created the channel and a user of the database remains among
      its members, the channel is kept without [me] and its creator becomes
      a remaining member whose account is the earliest created among the
      remaining members.
    - If no member remains, the channel is deleted.
    - Otherwise the channel is kept, with the remaining members.
    - Whatever requests the channel routes serve (create, join, leave,
      delete, direct channel), a database in which every channel has a
      member stays so. *)
Theorem leave_transfers_or_deletes
        (db : Db) (me : User.t) (id : ObjectId) (channel : Channel.t) :
  Channel.findById (channels db) id = Some channel ->
  Channel.type channel = Channel.public ->
  In (User._id me) (Channel.members channel) ->
  (Channel.created_by channel = User._id me ->
   forall v, In v (users db) ->
             In (User._id v) (remaining_members channel (User._id me)) ->
     exists o c',
       In o (users db)
       /\ In (User._id o) (remaining_members channel (User._id me))
       /\ (forall w, In w (users db) ->
                     In (User._id w) (remaining_members channel (User._id me)) ->
                     (User.created_at o <= User.created_at w)%Z)
       /\ snd (Http.leaveChannel db me id) = Json 200 Http.left_message
       /\ Channel.findById (channels (fst (Http.leaveChannel db me id))) id
          = Some c'
       /\ Channel.created_by c' = User._id o
       /\ Channel.members c' = remaining_members channel (User._id me))
  /\ (remaining_members channel (User._id me) = [] ->
      snd (Http.leaveChannel db me id) = Json 200 Http.deleted_message
      /\ Channel.findById (channels (fst (Http.leaveChannel db me id))) id
         = None)
  /\ (remaining_members channel (User._id me) <> [] ->
      snd (Http.leaveChannel db me id) = Json 200 Http.left_message
      /\ exists c',
          Channel.findById (channels (fst (Http.leaveChannel db me id))) id
          = Some c'
          /\ Channel.members c' = remaining_members channel (User._id me))
  /\ (forall rs, members_nonempty db -> members_nonempty (serve db rs)).
Proof.
  intros Hc Hty Hmem.
  destruct (leaveChannel_passed db me id Hc Hty Hmem)
    as [creator [Hcr [Htr Hleave]]].
  split; [|split; [|split]].
  - intros Hme v Hv Hvr.
    apply remaining_members_In in Hvr. destruct Hvr as [Hvm Hvn].
    destruct (oldestMember_exists db channel me v Hv Hvm Hvn) as [o Ho].
    assert (Hlen : 1 < List.length (Channel.members channel))
      by exact (@two_members _ _ _ Hvm Hmem Hvn).
    rewrite (Htr Hme o Ho Hlen) in Hleave.
    destruct (oldestMember_spec _ _ _ Ho) as [Hoin [Hom [Hon Hole]]].
    assert (Hnz : (List.length (remaining_members channel (User._id me)) =? 0)
                  = false).
    { destruct (remaining_members channel (User._id me)) as [|x xs] eqn:R;
        [|reflexivity].
      exfalso. assert (In (User._id v) []) as [].
      rewrite <- R. apply remaining_members_In. split; assumption. }
    rewrite Hnz in Hleave. rewrite Hleave.
    cbn [fst snd channels set_channels].
    exists o. eexists. split; [assumption|].
    split; [apply remaining_members_In; split; assumption|].
    split.
    { intros w Hw Hwr. apply remaining_members_In in Hwr.
      destruct Hwr. now apply Hole. }
    split; [reflexivity|].
    split; [now apply channel_find_after_save with (c := channel)|].
    split; reflexivity.
  - intros R. rewrite Hleave, R. cbn [List.length Nat.eqb fst snd].
    split; [reflexivity|]. apply find_after_delete.
  - intros R.
    assert (Hnz : (List.length (remaining_members channel (User._id me)) =? 0)
                  = false).
    { destruct (remaining_members channel (User._id me));
        [contradiction | reflexivity]. }
    rewrite Hnz in Hleave. rewrite Hleave.
    cbn [fst snd channels set_channels].
    split; [reflexivity|]. eexists.
    split; [now apply channel_find_after_save with (c := channel)|].
    reflexivity.
  - intros rs. apply serve_members_nonempty.
Qed.

(** Alice created [team], whose members are Alice, Carol and Bob in this
    order; Bob's account is older than Carol's.  Alice leaves. *)
Lemma leave_transfers_or_deletes_witness :
  let db' := fst (Http.leaveChannel Sample.db1 Sample.alice Sample.team_id) in
  Channel.findById (channels Sample.db1) Sample.team_id = Some Sample.team
  /\ Channel.created_by Sample.team = User._id Sample.alice
  /\ (exists c',
        Channel.findById (channels db') Sample.team_id = Some c'
        /\ Channel.created_by c' = User._id Sample.bob
        /\ Channel.members c' = [User._id Sample.carol; User._id Sample.bob])
  /\ members_nonempty db'.
Proof.
  intros db'.
  assert (Hinv : members_nonempty Sample.db1).
  { intros c [<- | [<- | [<- | []]]]; discriminate. }
  destruct (@leave_transfers_or_deletes Sample.db1 Sample.alice Sample.team_id
              Sample.team eq_refl eq_refl) as [Htr [_ [_ Hall]]].
  { simpl. auto. }
  split; [reflexivity|]. split; [reflexivity|]. split.
  - destruct (Htr eq_refl Sample.carol)
      as [o [c' [Ho [Hrem [Hle [_ [Hf [Hc Hm]]]]]]]].
    { simpl. auto. }
    { simpl. auto. }
    exists c'. split; [exact Hf|]. split; [|exact Hm].
    rewrite Hc.
    assert (Hbob : (User.created_at o <= User.created_at Sample.bob)%Z).
    { apply Hle; simpl; auto. }
    simpl in Ho. destruct Ho as [<- | [<- | [<- | []]]].
    + exfalso. simpl in Hrem. destruct Hrem as [H | [H | []]]; discriminate H.
    + reflexivity.
    + simpl in Hbob. lia.
  - exact (Hall [PostLeave Sample.alice Sample.team_id] Hinv).
Defined.

(** ** Direct channels *)

Lemma find_none_snoc {A} (p : A -> bool) (l : list A) (c : A) :
  find p l = None -> find p (l ++ [c]) = if p c then Some c else None.
Proof.
  induction l as [|x l IH]; simpl; [reflexivity|].
  destruct (p x); [discriminate | exact IH].
Qed.

Lemma find_none_filter {A} (p : A -> bool) (l : list A) :
  find p l = None -> filter p l = [].
Proof.
  induction l as [|x l IH]; simpl; [reflexivity|].
  destruct (p x); [discriminate | exact IH].
Qed.

Lemma find_pointwise {A} (p q : A -> bool) (l : list A) :
  (forall x, p x = q x) -> find p l = find q l.
Proof.
  intros H. induction l as [|x l IH]; simpl; [reflexivity|].
  now rewrite H, IH.
Qed.

Lemma filter_at_most_one {A} (p : A -> bool) (l : list A) (a b : A) :
  List.length (filter p l) <= 1 ->
  In a l -> p a = true -> In b l -> p b = true -> a = b.
Proof.
  intros Hlen Ha Hpa Hb Hpb.
  assert (Ia : In a (filter p l)) by (apply filter_In; auto).
  assert (Ib : In b (filter p l)) by (apply filter_In; auto).
  destruct (filter p l) as [|x [|y r]]; simpl in *; try lia; try contradiction.
  destruct Ia as [<- | []], Ib as [<- | []]. reflexivity.
Qed.

Lemma is_dm_of_sym (a b : ObjectId) (c : Channel.t) :
  Channel.is_dm_of a b c = Channel.is_dm_of b a c.
Proof.
  unfold Channel.is_dm_of. f_equal. f_equal. apply andb_comm.
Qed.

(** For two distinct users, the query of [findDmChannel] selects the direct
    channels whose members are exactly the two. *)
Lemma is_dm_of_exact (a b : ObjectId) (c : Channel.t) :
  a <> b ->
  Channel.is_dm_of a b c = true ->
  Channel.type c = Channel.dm
  /\ (Channel.members c = [a; b] \/ Channel.members c = [b; a]).
Proof.
  unfold Channel.is_dm_of. intros Hab H.
  apply andb_true_iff in H. destruct H as [H Hlen].
  apply andb_true_iff in H. destruct H as [Hty H].
  apply andb_true_iff in H. destruct H as [Ha Hb].
  apply includes_In in Ha. apply includes_In in Hb.
  apply Nat.eqb_eq in Hlen. split.
  - destruct (Channel.type c); [discriminate | reflexivity].
  - destruct (Channel.members c) as [|x [|y [|z r]]]; try discriminate.
    simpl in Ha, Hb.
    destruct Ha as [-> | [-> | []]], Hb as [-> | [-> | []]];
      auto; contradiction.
Qed.

Lemma create_dm_channel
      (cs : list Channel.t) (fresh : ObjectId) (now : Z) (n : string)
      (me other : ObjectId) (c : Channel.t) :
  Channel.create cs fresh now n "dm" me [me; other] = Ok c ->
  Channel._id c = fresh
  /\ Channel.type c = Channel.dm
  /\ Channel.members c = [me; other]
  /\ Channel.is_dm_of me other c = true.
Proof.
  unfold Channel.create.
  destruct (Channel.validate_name n); [|discriminate].
  cbn [Channel.validate_type String.eqb Ascii.eqb Bool.eqb].
  destruct (existsb _ _); [discriminate|].
  intros H. inversion H; subst; clear H.
  unfold Channel.is_dm_of, includes. simpl.
  rewrite !String.eqb_refl. simpl. rewrite !String.eqb_refl.
  rewrite ?orb_true_r. simpl. auto.
Qed.

(** What a call that answers with a channel leaves behind: the channel is
    the first answer of the query from then on. *)
Lemma createDmChannel_answer
      (db db' : Db) (me : User.t) (user_id fresh : ObjectId) (now : Z)
      (status : nat) (c : Channel.t) :
  Http.createDmChannel db me user_id fresh now = (db', Json status c) ->
  users db' = users db
  /\ Channel.findDmChannel (channels db') (User._id me) user_id = Some c
  /\ User.findById (users db) user_id <> None.
Proof.
  unfold Http.createDmChannel.
  destruct (User.findById (users db) user_id) as [o|] eqn:U; [|discriminate].
  destruct (Channel.findDmChannel _ _ _) as [c0|] eqn:F.
  - intros H. inversion H; subst. repeat split; [assumption | discriminate].
  - destruct (Channel.create _ _ _ _ _ _ _) as [c1|e] eqn:C; [|discriminate].
    intros H. inversion H; subst; clear H.
    apply create_dm_channel in C. destruct C as [_ [_ [_ Hdm]]].
    split; [reflexivity|]. split; [|discriminate].
    unfold Channel.findDmChannel in *. cbn [channels set_channels].
    now rewrite (find_none_snoc _ _ _ F), Hdm.
Qed.

Lemma createDmChannel_found
      (db : Db) (me : User.t) (user_id fresh : ObjectId) (now : Z)
      (c : Channel.t) :
  User.findById (users db) user_id <> None ->
  Channel.findDmChannel (channels db) (User._id me) user_id = Some c ->
  Http.createDmChannel db me user_id fresh now = (db, Json 200 c).
Proof.
  intros U F. unfold Http.createDmChannel.
  destruct (User.findById (users db) user_id); [|contradiction].
  now rewrite F.
Qed.

Lemma createDmChannel_unique
      (db : Db) (me : User.t) (user_id fresh : ObjectId) (now : Z) :
  dm_unique db ->
  dm_unique (fst (Http.createDmChannel db me user_id fresh now)).
Proof.
  intros H. unfold Http.createDmChannel.
  destruct (User.findById _ _); [|assumption].
  destruct (Channel.findDmChannel _ _ _) eqn:F; [assumption|].
  destruct (Channel.create _ _ _ _ _ _ _) as [c|e] eqn:C; [|assumption].
  apply create_dm_channel in C. destruct C as [_ [_ [Hms _]]].
  intros a b Hab. cbn [fst channels set_channels].
  rewrite filter_app, length_app. cbn [filter].
  destruct (Channel.is_dm_of a b c) eqn:D; cbn [List.length].
  - destruct (@is_dm_of_exact a b c Hab D) as [_ Hex].
    rewrite Hms in Hex.
    assert (Hq : forall x, Channel.is_dm_of a b x
                           = Channel.is_dm_of (User._id me) user_id x).
    { intros x. destruct Hex as [Hex | Hex]; inversion Hex; subst;
        [reflexivity | apply is_dm_of_sym]. }
    unfold Channel.findDmChannel in F.
    rewrite <- (@find_pointwise _ _ _ (channels db) Hq) in F.
    rewrite (@find_none_filter _ _ _ F). simpl. lia.
  - specialize (H a b Hab). lia.
Qed.

Lemma filter_save_le (p : Channel.t -> bool) (cs : list Channel.t)
      (c : Channel.t) :
  p c = false ->
  List.length (filter p (Channel.save cs c)) <= List.length (filter p cs).
Proof.
  intros Hc. unfold Channel.save.
  induction cs as [|d cs IH]; simpl; [lia|].
  destruct (String.eqb (Channel._id d) (Channel._id c)).
  - rewrite Hc. destruct (p d); simpl; lia.
  - destruct (p d); simpl; lia.
Qed.

Lemma filter_delete_le (p : Channel.t -> bool) (cs : list Channel.t)
      (id : ObjectId) :
  List.length (filter p (Channel.findByIdAndDelete cs id))
  <= List.length (filter p cs).
Proof.
  unfold Channel.findByIdAndDelete.
  induction cs as [|d cs IH]; simpl; [lia|].
  destruct (negb (String.eqb (Channel._id d) id)); simpl;
    destruct (p d); simpl; lia.
Qed.

Lemma public_is_no_dm (a b : ObjectId) (c : Channel.t) :
  Channel.type c = Channel.public -> Channel.is_dm_of a b c = false.
Proof. unfold Channel.is_dm_of. now intros ->. Qed.

Lemma single_member_is_no_dm (a b x : ObjectId) (c : Channel.t) :
  Channel.members c = [x] -> Channel.is_dm_of a b c = false.
Proof.
  unfold Channel.is_dm_of. intros ->. simpl. apply andb_false_r.
Qed.

Lemma create_single_member
      (cs : list Channel.t) (fresh : ObjectId) (now : Z) (n ty : string)
      (me : ObjectId) (c : Channel.t) :
  Channel.create cs fresh now n ty me [me] = Ok c -> Channel.members c = [me].
Proof.
  unfold Channel.create.
  destruct (Channel.validate_name n); [|discriminate].
  destruct (Channel.validate_type ty); [|discriminate].
  destruct (existsb _ _); [discriminate|].
  intros H. inversion H; subst; clear H. simpl.
  unfold includes. simpl. now rewrite String.eqb_refl.
Qed.

Lemma dm_unique_save (db : Db) (c : Channel.t) :
  Channel.type c = Channel.public ->
  dm_unique db ->
  dm_unique (set_channels (Channel.save (channels db) c) db).
Proof.
  intros Hty H a b Hab. cbn [channels set_channels].
  pose proof (@filter_save_le (Channel.is_dm_of a b) (channels db) c
                (public_is_no_dm a b c Hty)).
  specialize (H a b Hab). lia.
Qed.

Lemma dm_unique_delete (db : Db) (id : ObjectId) :
  dm_unique db ->
  dm_unique (set_channels (Channel.findByIdAndDelete (channels db) id) db).
Proof.
  intros H a b Hab. cbn [channels set_channels].
  pose proof (filter_delete_le (Channel.is_dm_of a b) (channels db) id).
  specialize (H a b Hab). lia.
Qed.

Lemma type_eqb_public (c : Channel.t) :
  negb (Channel.type_eqb (Channel.type c) Channel.public) = false ->
  Channel.type c = Channel.public.
Proof. destruct (Channel.type c); [reflexivity | discriminate]. Qed.

Lemma route_dm_unique (db : Db) (r : ChannelRequest) :
  dm_unique db -> dm_unique (route db r).
Proof.
  intros H. destruct r as [me n ty fresh now | me id | me id | me id
                          | me other fresh now]; cbn [route].
  - unfold Http.createChannel. destruct n as [n|]; [|assumption].
    destruct (blank (Some n)); [assumption|].
    destruct (negb (Channel.nameRegex_test n)); [assumption|].
    destruct (existsb _ _); [assumption|].
    destruct (_ && Channel.isChannelLimitReached _); [assumption|].
    destruct (Channel.create _ _ _ _ _ _ _) as [c|e] eqn:C; [|assumption].
    apply create_single_member in C.
    intros a b Hab. cbn [fst channels set_channels].
    rewrite filter_app, length_app. cbn [filter].
    rewrite (single_member_is_no_dm a b c C). specialize (H a b Hab).
    simpl. lia.
  - unfold Http.joinChannel.
    destruct (Channel.findById _ _) as [channel|]; [|assumption].
    destruct (negb (Channel.type_eqb _ _)) eqn:T; [assumption|].
    destruct (includes _ _); [assumption|].
    apply dm_unique_save; [|assumption]. now apply type_eqb_public.
  - unfold Http.leaveChannel.
    destruct (Channel.findById _ _) as [channel|]; [|assumption].
    destruct (negb (Channel.type_eqb _ _)) eqn:T; [assumption|].
    destruct (negb (includes _ _)); [assumption|].
    match goal with
    | |- context [List.length ?l =? 0] => destruct (List.length l =? 0)
    end; cbn [fst].
    + now apply dm_unique_delete.
    + apply dm_unique_save; [|assumption]. apply type_eqb_public in T.
      destruct (_ && _); [|assumption].
      destruct (Http.oldestMember db channel me); assumption.
  - unfold Http.deleteChannel. destruct (User.role me); [|assumption].
    destruct (Channel.findById _ _) as [channel|]; [|assumption].
    destruct (String.eqb _ _); [assumption|].
    cbn [fst]. intros a b Hab. cbn [channels set_messages set_channels].
    pose proof (filter_delete_le (Channel.is_dm_of a b) (channels db) id).
    specialize (H a b Hab). lia.
  - now apply createDmChannel_unique.
Qed.

Lemma serve_dm_unique (rs : list ChannelRequest) (db : Db) :
  dm_unique db -> dm_unique (serve db rs).
Proof.
  unfold serve. revert db.
  induction rs as [|r rs IH]; simpl; intros db H; [assumption|].
  apply IH. now apply route_dm_unique.
Qed.

Lemma sample_dm_unique : dm_unique Sample.db1.
Proof.
  intros a b Hab. simpl.
  destruct (Channel.is_dm_of a b Sample.dm_ab); simpl; lia.
Qed.

(** C9.  The lookup finds an existing direct channel (lemma
    [createDmChannel_found]), but a pair of users without one never gets
    one.  With the 24 characters of an ObjectId on either side, the name
    [dm-<id>-<id>] of the new channel has 52 characters and the schema of
    [name], whose [maxlength] is 50, refuses it.  Alice and Bob have no
    direct channel: Alice's request answers with the validation error and
    creates nothing, whatever the new id and the time, and so does her
    second request. *)
Theorem dm_new_pair_gets_no_channel (fresh fresh' : ObjectId) (now now' : Z) :
  User.findById (users Sample.db0) (User._id Sample.bob) = Some Sample.bob
  /\ Channel.findDmChannel (channels Sample.db0) (User._id Sample.alice)
                           (User._id Sample.bob) = None
  /\ String.length (Http.dm_name (User._id Sample.alice) (User._id Sample.bob))
     = 52
  /\ Http.createDmChannel Sample.db0 Sample.alice (User._id Sample.bob)
       fresh now
     = (Sample.db0,
        Next (ValidationError "Channel name cannot exceed 50 characters"))
  /\ Http.createDmChannel
       (fst (Http.createDmChannel Sample.db0 Sample.alice
               (User._id Sample.bob) fresh now))
       Sample.alice (User._id Sample.bob) fresh' now'
     = (Sample.db0,
        Next (ValidationError "Channel name cannot exceed 50 characters")).
Proof. repeat split. Qed.

(** ** Notifications *)




Lemma set_read_marked (n : Notification.t) :
  Notification.marked n (Notification.set_read n).
Proof. unfold Notification.marked. cbn. tauto. Qed.






(** Alice asks to mark the notifications [n2] and [n3] as read; [n2] is
    addressed to Bob and stays unread, and so does her own [n1], which she
    did not list. *)
Example markAsRead_foreign_id_untouched :
  map Notification.is_read
      (notifications
         (fst (Http.markAsRead Sample.db2 Sample.alice
                 (Some [Sample.n2_id; Sample.n3_id]))))
  = [false; false; true].
Proof. reflexivity. Qed.

(** ** Further observations on the live connection *)

(** A message comes into being without reactions, on either transport. *)
Lemma created_message_unique
      (db : Db) (me : User.t) (content : option string)
      (cid tp : option ObjectId) (file : option (Result string))
      (fresh : ObjectId) (fresh_n : nat -> ObjectId) (now : Z) :
  (forall db' status m,
     Http.createMessage db me content cid tp file fresh now
     = (db', Json status m) ->
     Message.unique_reactions m)
  /\ (forall db' m,
        Socket.message_send db (User._id me) content cid tp fresh fresh_n now
        = (db', AckSuccess m) ->
        Message.unique_reactions m).
Proof.
  split.
  - intros db' status m. unfold Http.createMessage.
    repeat match goal with
           | |- context [if ?b then _ else _] => destruct b
           | |- context [match ?x with _ => _ end] => destruct x
           end; intros H; inversion H; subst; constructor.
  - intros db' m. unfold Socket.message_send, Socket.Message_create.
    destruct (negb (Message.content_valid content)); [discriminate|].
    destruct cid; [|discriminate].
    intros H. inversion H; subst. constructor.
Qed.

(** ** Reactions as a set of pairs *)

Lemma has_reaction_app (e : string) (u : ObjectId) (now : Z) (m : Message.t)
      (rs : list Reaction.t) :
  Message.has_reaction e u (Message.set_reactions rs now m)
  <-> In (e, u) (map Reaction.key rs).
Proof. unfold Message.has_reaction. simpl. reflexivity. Qed.

Lemma addReaction_new (e : string) (u : ObjectId) (now : Z) (m : Message.t) :
  e <> "" ->
  ~ Message.has_reaction e u m ->
  Message.addReaction e u now m
  = Ok (Message.set_reactions
          (Message.reactions m ++ [Reaction.mk e u now]) now m).
Proof.
  intros He Hn. unfold Message.addReaction.
  apply find_reaction_none in Hn. rewrite Hn.
  apply String.eqb_neq in He. now rewrite He.
Qed.

Lemma removeReaction_same (e : string) (u : ObjectId) (now : Z)
      (m : Message.t) :
  same_but_reactions m (Message.removeReaction e u now m).
Proof.
  unfold Message.removeReaction, same_but_reactions, same_identity.
  destruct (existsb _ _); cbn; tauto.
Qed.

Lemma removeReaction_present (e : string) (u : ObjectId) (now : Z)
      (m : Message.t) :
  Message.has_reaction e u m ->
  Message.updated_at (Message.removeReaction e u now m) = now.
Proof.
  intros H. unfold Message.removeReaction.
  destruct (existsb _ _) eqn:E; [reflexivity|].
  apply existsb_find_none, find_reaction_none in E. contradiction.
Qed.

(** A reaction added and removed again. *)
Lemma add_remove_reaction
        (m : Message.t) (e : string) (u : ObjectId) (now later : Z) :
  e <> "" ->
  ~ Message.has_reaction e u m ->
  exists m',
    Message.addReaction e u now m = Ok m'
    /\ Message.has_reaction e u m'
    /\ List.length (Message.reactions m')
       = S (List.length (Message.reactions m))
    /\ same_but_reactions m m'
    /\ Message.updated_at m' = now
    /\ Message.reactions (Message.removeReaction e u later m')
       = Message.reactions m
    /\ same_but_reactions m (Message.removeReaction e u later m')
    /\ Message.updated_at (Message.removeReaction e u later m') = later.
Proof.
  intros He Hn.
  exists (Message.set_reactions
            (Message.reactions m ++ [Reaction.mk e u now]) now m).
  assert (Hhas : Message.has_reaction e u
                   (Message.set_reactions
                      (Message.reactions m ++ [Reaction.mk e u now]) now m)).
  { apply has_reaction_app. rewrite map_app, in_app_iff. right. now left. }
  split; [now apply addReaction_new|].
  split; [exact Hhas|].
  split; [simpl; rewrite length_app; simpl; lia|].
  split; [unfold same_but_reactions, same_identity; cbn; tauto|].
  split; [reflexivity|].
  split; [|split].
  - rewrite removeReaction_reactions. cbn [Message.reactions
      Message.set_reactions]. rewrite filter_app.
    apply find_reaction_none in Hn. rewrite (@filter_absent e u _ Hn).
    cbn [filter]. unfold Message.same_reaction at 1.
    cbn [Reaction.emoji Reaction.user_id]. rewrite !String.eqb_refl.
    cbn [andb negb]. apply app_nil_r.
  - pose proof (removeReaction_same e u later
                  (Message.set_reactions
                     (Message.reactions m ++ [Reaction.mk e u now]) now m))
      as H.
    unfold same_but_reactions, same_identity in *. cbn in H. tauto.
  - now apply removeReaction_present.
Qed.

(** X1.  A reaction that is added to a message which did not have it, and
    then removed, leaves the message with the reactions it had.  Its other
    fields are as they were, but for [updated_at], which holds the time of
    the addition after the first save and the time of the removal after
    the second. *)
Theorem reaction_add_then_remove
        (m : Message.t) (e : string) (u : ObjectId) (now later : Z) :
  e <> "" ->
  ~ Message.has_reaction e u m ->
  exists m',
    Message.addReaction e u now m = Ok m'
    /\ Message.has_reaction e u m'
    /\ List.length (Message.reactions m')
       = S (List.length (Message.reactions m))
    /\ same_but_reactions m m'
    /\ Message.updated_at m' = now
    /\ Message.reactions (Message.removeReaction e u later m')
       = Message.reactions m
    /\ same_but_reactions m (Message.removeReaction e u later m')
    /\ Message.updated_at (Message.removeReaction e u later m') = later.
Proof. apply add_remove_reaction. Qed.

(** Alice reacts at 7000 to a message that Bob reacted to at 5500, and
    withdraws her reaction at 8000. *)
Lemma reaction_add_then_remove_witness :
  exists m',
    Message.addReaction "+1" (User._id Sample.alice) 7000 Sample.m1_liked
    = Ok m'
    /\ Message.has_reaction "+1" (User._id Sample.alice) m'
    /\ List.length (Message.reactions m') = 2
    /\ Message.reactions
         (Message.removeReaction "+1" (User._id Sample.alice) 8000 m')
       = Message.reactions Sample.m1_liked
    /\ Message.updated_at Sample.m1_liked = 5500%Z
    /\ Message.updated_at
         (Message.removeReaction "+1" (User._id Sample.alice) 8000 m')
       = 8000%Z.
Proof.
  destruct (@reaction_add_then_remove Sample.m1_liked "+1"
              (User._id Sample.alice) 7000%Z 8000%Z)
    as [m' [H1 [H2 [H3 [_ [_ [H4 [_ H5]]]]]]]].
  - discriminate.
  - intros [H | []]. discriminate H.
  - exists m'. repeat split; assumption.
Defined.

(** X2.  The reactions behave as a set of (emoji, user) pairs: after a
    successful [addReaction] a pair is on the message when it is the added
    one or was there before; after [removeReaction] a pair is on the
    message when it is not the removed one and was there before. *)
Theorem reactions_as_pairs
        (m : Message.t) (e e' : string) (u u' : ObjectId) (now : Z) :
  (forall m', Message.addReaction e u now m = Ok m' ->
              (Message.has_reaction e' u' m'
               <-> (e', u') = (e, u) \/ Message.has_reaction e' u' m))
  /\ (Message.has_reaction e' u' (Message.removeReaction e u now m)
      <-> (e', u') <> (e, u) /\ Message.has_reaction e' u' m).
Proof.
  split.
  - intros m'. unfold Message.addReaction.
    destruct (find _ _) as [r|] eqn:F.
    + intros H. inversion H; subst. split; [tauto|].
      intros [E | H']; [|assumption]. inversion E; subst.
      unfold Message.has_reaction. apply find_some in F.
      destruct F as [Hin Hs]. apply same_reaction_key in Hs.
      rewrite <- Hs. now apply in_map.
    + destruct (String.eqb e ""); [discriminate|].
      intros H. inversion H; subst; clear H.
      rewrite has_reaction_app, map_app, in_app_iff.
      unfold Message.has_reaction. simpl. unfold Reaction.key at 2. simpl.
      split.
      * intros [H | [H | []]]; [now right | left; now inversion H].
      * intros [H | H]; [right; left; now inversion H | now left].
  - unfold Message.has_reaction. rewrite removeReaction_reactions.
    rewrite !in_map_iff. split.
    + intros [r [Hk Hin]]. apply filter_In in Hin. destruct Hin as [Hin Hs].
      apply negb_true_iff in Hs. split; [|eauto].
      intros E. rewrite E in Hk. apply same_reaction_key in Hk. congruence.
    + intros [Hne [r [Hk Hin]]]. exists r. split; [assumption|].
      apply filter_In. split; [assumption|]. apply negb_true_iff.
      destruct (Message.same_reaction e u r) eqn:S; [|reflexivity].
      apply same_reaction_key in S. congruence.
Qed.

(** Saving a document twice under one id is saving the second. *)
Lemma message_save_twice (ms : list Message.t) (m1 m2 : Message.t) :
  Message._id m1 = Message._id m2 ->
  Message_save (Message_save ms m1) m2 = Message_save ms m2.
Proof.
  intros Hid. unfold Message_save. rewrite map_map. apply map_ext.
  intros d. rewrite Hid.
  destruct (String.eqb (Message._id d) (Message._id m2)) eqn:E.
  - now rewrite <- Hid, Hid, String.eqb_refl.
  - now rewrite E.
Qed.

(** X3.  A member of the channel who adds a reaction the message did not
    have and then removes it through the HTTP controllers gets status 200
    twice.  The database is then the one before the two requests with one
    document replaced: the message, with the reactions and the other
    fields it had and the time of the removal as [updated_at]. *)
Theorem http_reaction_round_trip
        (db : Db) (me : User.t) (id : ObjectId) (e : string) (now later : Z)
        (m : Message.t) (channel : Channel.t) :
  Message_findById (messages db) id = Some m ->
  Message.is_deleted m = false ->
  Channel.findById (channels db) (Message.channel_id m) = Some channel ->
  includes (Channel.members channel) (User._id me) = true ->
  e <> "" ->
  ~ Message.has_reaction e (User._id me) m ->
  exists db1 m1 m2,
    MessageController.addReaction db me id (Some e) now = (db1, Json 200 m1)
    /\ Message.has_reaction e (User._id me) m1
    /\ Message_findById (messages db1) id = Some m1
    /\ MessageController.removeReaction db1 me id e later
       = (set_messages (Message_save (messages db) m2) db, Json 200 tt)
    /\ Message.reactions m2 = Message.reactions m
    /\ same_but_reactions m m2
    /\ Message.updated_at m2 = later.
Proof.
  intros Hf Hdel Hc Hin He Hn.
  destruct (@add_remove_reaction m e (User._id me) now later He Hn)
    as [m1 [Ha [Hh [_ [Hs1 [_ [Hr [Hs2 Hu]]]]]]]].
  assert (Hid : Message._id m1 = Message._id m) by apply Hs1.
  assert (Hdel1 : Message.is_deleted m1 = false).
  { destruct Hs1 as [_ [_ [H _]]]. congruence. }
  assert (Hc1 : Message.channel_id m1 = Message.channel_id m) by apply Hs1.
  assert (Hf1 : Message_findById (Message_save (messages db) m1) id = Some m1)
    by (eapply message_find_after_save; eassumption).
  exists (set_messages (Message_save (messages db) m1) db), m1,
    (Message.removeReaction e (User._id me) later m1).
  split; [|split; [assumption|split; [assumption|split]]].
  - unfold MessageController.addReaction.
    assert (Ht : truthy (Some e) = true).
    { simpl. apply negb_true_iff. now apply String.eqb_neq. }
    rewrite Ht, Hf, Hdel, Hc, Hin, Ha. cbn [negb].
    apply find_reaction_none in Hn. now rewrite Hn.
  - unfold MessageController.removeReaction.
    cbn [messages channels set_messages]. rewrite Hf1, Hdel1, Hc1, Hc, Hin.
    cbn [negb]. rewrite message_save_twice; [now destruct db|].
    symmetry. apply (removeReaction_same e (User._id me) later m1).
  - split; [assumption|]. split; assumption.
Qed.

Lemma sample_message_ids_unique :
  NoDup (map Message._id (messages Sample.db0)).
Proof.
  simpl. repeat constructor; simpl; intuition discriminate.
Qed.

(** Alice reacts at 9000 to the root message of [general], last updated at
    5000, and withdraws the reaction at 9500. *)
Lemma http_reaction_round_trip_witness :
  exists db1 m1 m2,
    MessageController.addReaction Sample.db0 Sample.alice Sample.m1_id
      (Some "+1") 9000 = (db1, Json 200 m1)
    /\ Message.has_reaction "+1" (User._id Sample.alice) m1
    /\ MessageController.removeReaction db1 Sample.alice Sample.m1_id "+1" 9500
       = (set_messages (Message_save (messages Sample.db0) m2) Sample.db0,
          Json 200 tt)
    /\ Message.reactions m2 = Message.reactions Sample.m1
    /\ Message.updated_at Sample.m1 = 5000%Z
    /\ Message.updated_at m2 = 9500%Z.
Proof.
  destruct (@http_reaction_round_trip Sample.db0 Sample.alice Sample.m1_id
              "+1" 9000%Z 9500%Z Sample.m1 Sample.general)
    as [db1 [m1 [m2 [H1 [H2 [_ [H3 [H4 [_ H5]]]]]]]]].
  - reflexivity.
  - reflexivity.
  - reflexivity.
  - reflexivity.
  - discriminate.
  - intros [].
  - exists db1, m1, m2. repeat split; assumption.
Defined.

(** X4.  For a message that is not deleted, in a channel that exists, and
    an emoji that is not empty: a member's reaction or its removal leaves
    the same database on either transport; a non-member is refused by the
    HTTP controllers, which leave the database as it was, while the
    handlers of the live connection, which ask for no membership, store the
    non-member's reaction. *)
Theorem socket_reactions_ask_no_membership
        (db : Db) (me : User.t) (id : ObjectId) (e : string) (now : Z)
        (m : Message.t) (channel : Channel.t) :
  Message_findById (messages db) id = Some m ->
  Message.is_deleted m = false ->
  Channel.findById (channels db) (Message.channel_id m) = Some channel ->
  e <> "" ->
  (includes (Channel.members channel) (User._id me) = true ->
   fst (MessageController.addReaction db me id (Some e) now)
   = fst (SocketHandlers.message_add_reaction db (User._id me) id e now)
   /\ fst (MessageController.removeReaction db me id e now)
      = fst (SocketHandlers.message_remove_reaction db (User._id me) id e
               now))
  /\ (includes (Channel.members channel) (User._id me) = false ->
      MessageController.addReaction db me id (Some e) now
      = (db, Next not_a_member)
      /\ MessageController.removeReaction db me id e now
         = (db, Next not_a_member)
      /\ snd (SocketHandlers.message_add_reaction db (User._id me) id e now)
         = AckSuccess tt
      /\ exists m',
          Message_findById
            (messages
               (fst (SocketHandlers.message_add_reaction db (User._id me) id e
                       now))) id = Some m'
          /\ Message.has_reaction e (User._id me) m').
Proof.
  intros Hf Hdel Hc He.
  assert (Ht : truthy (Some e) = true).
  { simpl. apply negb_true_iff. now apply String.eqb_neq. }
  unfold MessageController.addReaction, MessageController.removeReaction,
    SocketHandlers.message_add_reaction, SocketHandlers.message_remove_reaction.
  rewrite Ht, Hf, Hdel, Hc. cbn [negb]. split.
  - intros Hin. rewrite Hin. cbn [negb]. split; [|reflexivity].
    destruct (Message.addReaction e (User._id me) now m); [|reflexivity].
    destruct (present _); reflexivity.
  - intros Hin. rewrite Hin. cbn [negb].
    split; [reflexivity|]. split; [reflexivity|].
    unfold Message.addReaction.
    destruct (find (Message.same_reaction e (User._id me))
                   (Message.reactions m)) as [r|] eqn:F.
    + cbn [present snd fst]. split; [reflexivity|]. exists m.
      split; [assumption|]. unfold Message.has_reaction.
      apply find_some in F. destruct F as [Hr Hs].
      apply same_reaction_key in Hs. rewrite <- Hs. now apply in_map.
    + apply String.eqb_neq in He. rewrite He. cbn [present snd fst].
      split; [reflexivity|]. eexists. split.
      * cbn [messages set_messages].
        eapply message_find_after_save; [eassumption | reflexivity].
      * apply has_reaction_app. rewrite map_app, in_app_iff. right. now left.
Qed.

(** Bob, who is not a member of [general], reacts to its root message. *)
Lemma socket_reactions_ask_no_membership_witness :
  MessageController.addReaction Sample.db0 Sample.bob Sample.m1_id (Some "+1")
    9000 = (Sample.db0, Next not_a_member)
  /\ snd (SocketHandlers.message_add_reaction Sample.db0 (User._id Sample.bob)
            Sample.m1_id "+1" 9000) = AckSuccess tt
  /\ exists m',
      Message_findById
        (messages
           (fst (SocketHandlers.message_add_reaction Sample.db0
                   (User._id Sample.bob) Sample.m1_id "+1" 9000)))
        Sample.m1_id = Some m'
      /\ Message.has_reaction "+1" (User._id Sample.bob) m'.
Proof.
  assert (He : "+1" <> "") by discriminate.
  destruct (@socket_reactions_ask_no_membership Sample.db0 Sample.bob
              Sample.m1_id "+1" 9000%Z Sample.m1 Sample.general
              eq_refl eq_refl eq_refl He) as [_ H].
  destruct (H eq_refl) as [H1 [_ [H3 H4]]].
  split; [exact H1|]. split; [exact H3 | exact H4].
Defined.

(** ** What the requests on messages do *)

Lemma message_find_save_other (ms : list Message.t) (c : Message.t)
      (i : ObjectId) :
  Message._id c <> i ->
  Message_findById (Message_save ms c) i = Message_findById ms i.
Proof.
  intros Hne. unfold Message_findById, Message_save.
  induction ms as [|d ms IH]; simpl; [reflexivity|].
  destruct (String.eqb (Message._id d) (Message._id c)) eqn:E.
  - apply String.eqb_eq in E. apply String.eqb_neq in Hne.
    rewrite Hne. rewrite E, Hne. exact IH.
  - destruct (String.eqb (Message._id d) i); [reflexivity | exact IH].
Qed.

Lemma message_find_snoc (ms : list Message.t) (x m : Message.t)
      (i : ObjectId) :
  Message_findById ms i = Some m -> Message_findById (ms ++ [x]) i = Some m.
Proof.
  unfold Message_findById. induction ms as [|d ms IH]; simpl; [discriminate|].
  destruct (String.eqb (Message._id d) i); auto.
Qed.

Lemma set_pinned_same (b : bool) (now : Z) (m : Message.t) :
  same_but_pinned m (Message.set_pinned b now m).
Proof.
  unfold Message.set_pinned, same_but_pinned, same_identity.
  destruct (Bool.eqb _ _); cbn; tauto.
Qed.

Lemma set_deleted_same (now : Z) (m : Message.t) :
  same_but_deleted m (Message.set_deleted now m).
Proof.
  unfold Message.set_deleted, same_but_deleted, same_identity.
  destruct (Message.is_tombstone m); cbn; tauto.
Qed.

Lemma addReaction_same (e : string) (u : ObjectId) (now : Z)
      (m m' : Message.t) :
  Message.addReaction e u now m = Ok m' -> same_but_reactions m m'.
Proof.
  unfold Message.addReaction, same_but_reactions, same_identity.
  destruct (find _ _).
  - intros H. inversion H; subst. tauto.
  - destruct (String.eqb e ""); [discriminate|].
    intros H. inversion H; subst. cbn. tauto.
Qed.

Lemma set_deleted_tombstoned (now : Z) (m : Message.t) :
  tombstoned (Message.set_deleted now m).
Proof.
  unfold Message.set_deleted, tombstoned, Message.is_tombstone.
  destruct (Message.is_deleted m) eqn:D; [|split; reflexivity].
  destruct (Message.content m) as [c|] eqn:C; [|split; reflexivity].
  cbn [andb]. destruct (String.eqb c Message.tombstone) eqn:E;
    [|split; reflexivity].
  apply String.eqb_eq in E. subst c. now split.
Qed.

(** What the code does to a stored message is a change. *)
Lemma set_edited_change (c : option string) (now : Z) (m : Message.t) :
  Message.is_deleted m = false ->
  Message.content_valid c = true ->
  change m (Message.set_edited c now m).
Proof.
  intros Hd Hc. apply change_edit; try assumption; [reflexivity|].
  unfold same_but_edited, same_identity. cbn. tauto.
Qed.

Lemma set_deleted_change (now : Z) (m : Message.t) :
  change m (Message.set_deleted now m).
Proof.
  apply change_delete; [apply set_deleted_tombstoned | apply set_deleted_same].
Qed.

Lemma set_pinned_change (now : Z) (m : Message.t) :
  Message.is_deleted m = false -> change m (Message.set_pinned true now m).
Proof.
  intros Hd. apply change_pin; [assumption | | apply set_pinned_same].
  unfold Message.set_pinned.
  destruct (Message.is_pinned m) eqn:P; [exact P | reflexivity].
Qed.

Lemma set_unpinned_change (now : Z) (m : Message.t) :
  Message.is_pinned m = true -> change m (Message.set_pinned false now m).
Proof.
  intros P. apply change_unpin; [assumption | | apply set_pinned_same].
  unfold Message.set_pinned. now rewrite P.
Qed.

Lemma addReaction_change (e : string) (u : ObjectId) (now : Z)
      (m m' : Message.t) :
  Message.is_deleted m = false ->
  find (Message.same_reaction e u) (Message.reactions m) = None ->
  Message.addReaction e u now m = Ok m' ->
  change m m'.
Proof.
  intros Hd Hn Ha.
  apply change_add with (e := e) (u := u) (now := now).
  - assumption.
  - now apply find_reaction_none.
  - unfold Message.addReaction in Ha. rewrite Hn in Ha.
    destruct (String.eqb e ""); [discriminate|]. now inversion Ha.
  - now apply (addReaction_same e u now m).
Qed.

Lemma removeReaction_change (e : string) (u : ObjectId) (now : Z)
      (m : Message.t) :
  Message.is_deleted m = false ->
  change m (Message.removeReaction e u now m).
Proof.
  intros Hd. apply change_remove with (e := e) (u := u).
  - assumption.
  - apply removeReaction_reactions.
  - apply removeReaction_same.
Qed.

(** A change leaves the identity of a message alone. *)
Lemma change_same_identity (m m' : Message.t) :
  change m m' -> same_identity m m'.
Proof.
  destruct 1 as [_ _ _ H | _ H | _ _ H | _ _ H | e u now _ _ _ H
                 | e u _ _ H]; apply H.
Qed.

Lemma change_keeps_id (m m' : Message.t) :
  change m m' -> Message._id m' = Message._id m.
Proof. intros H. apply (change_same_identity H). Qed.

(** The three things a request on messages can do. *)
Lemma handle_cases (db : Db) (r : MessageRequest) :
  messages (handle db r) = messages db
  \/ (exists x,
        messages (handle db r) = messages db ++ [x] /\ newly_created x)
  \/ (exists id m m',
        Message_findById (messages db) id = Some m
        /\ change m m'
        /\ messages (handle db r) = Message_save (messages db) m').
Proof.
  destruct r; cbn [handle].
  - (* HTTP create *)
    unfold Http.createMessage.
    destruct (blank content && negb (present file)); [now left|].
    destruct (truthy content && (2000 <? _)) eqn:L; [now left|].
    destruct channel_id as [cid|]; [|now left].
    destruct (Channel.findById _ _) as [channel|]; [|now left].
    destruct (negb (includes _ _)); [now left|].
    destruct (present file && _); [now left|].
    assert (Hlen : Message.content_valid
                     (Some (match content with Some s => s | None => "" end))
                   = true).
    { simpl. destruct content as [s|]; [|reflexivity].
      apply Nat.leb_le. destruct s as [|a s]; [simpl; lia|].
      simpl in L. apply Nat.ltb_ge in L. exact L. }
    destruct (or_null thread_parent_id) as [pid|].
    + destruct (Message_findById _ pid) as [p|]; [|now left].
      rewrite depth_limit_never_reached.
      destruct file as [[url|e]|]; cbn [fst]; [| now left |];
        right; left; eexists; (split; [reflexivity|]);
        repeat split; assumption.
    + destruct file as [[url|e]|]; cbn [fst]; [| now left |];
        right; left; eexists; (split; [reflexivity|]);
        repeat split; assumption.
  - (* HTTP edit *)
    unfold Http.editMessage.
    destruct (blank content); [now left|].
    destruct (2000 <? _) eqn:L; [now left|].
    destruct (Message_findById _ id) as [m|] eqn:F; [|now left].
    destruct (negb (String.eqb _ _)); [now left|].
    destruct (negb (Message.canBeEdited now m)) eqn:C; [now left|].
    right; right. exists id, m. eexists. split; [assumption|].
    split; [|reflexivity]. apply negb_false_iff in C.
    unfold Message.canBeEdited in C. apply andb_true_iff in C.
    destruct C as [_ C]. apply negb_true_iff in C.
    apply set_edited_change; [assumption|].
    destruct content as [s|]; [|reflexivity].
    simpl. apply Nat.leb_le. apply Nat.ltb_ge in L. exact L.
  - (* HTTP delete *)
    unfold Http.deleteMessage.
    destruct (Message_findById _ id) as [m|] eqn:F; [|now left].
    destruct (negb (String.eqb _ _)); [now left|].
    right; right. exists id, m. eexists.
    split; [assumption|]. split; [apply set_deleted_change | reflexivity].
  - (* HTTP add reaction *)
    unfold MessageController.addReaction.
    destruct emoji as [e|]; [|now left].
    destruct (negb (truthy (Some e))); [now left|].
    destruct (Message_findById _ id) as [m|] eqn:F; [|now left].
    destruct (Message.is_deleted m) eqn:D; [now left|].
    destruct (Channel.findById _ _) as [channel|]; [|now left].
    destruct (negb (includes _ _)); [now left|].
    destruct (Message.addReaction e (User._id me) now m) as [m'|] eqn:A;
      [|now left].
    destruct (find (Message.same_reaction e (User._id me))
                   (Message.reactions m)) eqn:P; [now left|].
    right; right. exists id, m, m'. split; [assumption|].
    split; [|reflexivity]. eapply addReaction_change; eassumption.
  - (* HTTP remove reaction *)
    unfold MessageController.removeReaction.
    destruct (Message_findById _ id) as [m|] eqn:F; [|now left].
    destruct (Message.is_deleted m) eqn:D; [now left|].
    destruct (Channel.findById _ _) as [channel|]; [|now left].
    destruct (negb (includes _ _)); [now left|].
    right; right. exists id, m. eexists. split; [assumption|].
    split; [|reflexivity]. now apply removeReaction_change.
  - (* HTTP pin *)
    unfold Http.pinMessage.
    destruct (Message_findById _ id) as [m|] eqn:F; [|now left].
    destruct (Message.is_deleted m) eqn:D; [now left|].
    destruct (Channel.findById _ _) as [channel|]; [|now left].
    destruct (negb (includes _ _)); [now left|].
    right; right. exists id, m. eexists. split; [assumption|].
    split; [|reflexivity]. now apply set_pinned_change.
  - (* HTTP unpin *)
    unfold Http.unpinMessage.
    destruct (Message_findById _ id) as [m|] eqn:F; [|now left].
    destruct (negb (Message.is_pinned m)) eqn:P; [now left|].
    destruct (Channel.findById _ _) as [channel|]; [|now left].
    destruct (negb (includes _ _)); [now left|].
    right; right. exists id, m. eexists. split; [assumption|].
    split; [|reflexivity]. apply set_unpinned_change.
    now apply negb_false_iff in P.
  - (* socket send *)
    unfold Socket.message_send, Socket.Message_create.
    destruct (negb (Message.content_valid content)) eqn:V; [now left|].
    destruct channel_id as [cid|]; [|now left].
    right; left. eexists. split; [reflexivity|].
    apply negb_false_iff in V. repeat split; assumption.
  - (* socket edit *)
    unfold Socket.message_edit.
    destruct (Message_findById _ id) as [m|]; now left.
  - (* socket delete *)
    unfold SocketHandlers.message_delete.
    destruct (Message_findById _ id) as [m|]; now left.
  - (* socket add reaction *)
    unfold SocketHandlers.message_add_reaction.
    destruct (Message_findById _ id) as [m|] eqn:F; [|now left].
    destruct (Message.is_deleted m) eqn:D; [now left|].
    destruct (Message.addReaction emoji me now m) as [m'|] eqn:A; [|now left].
    destruct (find (Message.same_reaction emoji me) (Message.reactions m))
      eqn:P; [now left|].
    right; right. exists id, m, m'. split; [assumption|].
    split; [|reflexivity]. eapply addReaction_change; eassumption.
  - (* socket remove reaction *)
    unfold SocketHandlers.message_remove_reaction.
    destruct (Message_findById _ id) as [m|] eqn:F; [|now left].
    destruct (Message.is_deleted m) eqn:D; [now left|].
    right; right. exists id, m. eexists. split; [assumption|].
    split; [|reflexivity]. now apply removeReaction_change.
  - (* socket pin *)
    unfold Socket.message_pin.
    destruct (Message_findById _ id) as [m|] eqn:F; [|now left].
    destruct (Message.is_deleted m) eqn:D; [now left|].
    right; right. exists id, m. eexists. split; [assumption|].
    split; [|reflexivity]. now apply set_pinned_change.
  - (* socket unpin *)
    unfold Socket.message_unpin.
    destruct (Message_findById _ id) as [m|] eqn:F; [|now left].
    destruct (negb (Message.is_pinned m)) eqn:P; [now left|].
    right; right. exists id, m. eexists. split; [assumption|].
    split; [|reflexivity]. apply set_unpinned_change.
    now apply negb_false_iff in P.
Qed.


Lemma change_keeps_identity (m m' : Message.t) :
  change m m' ->
  Message._id m' = Message._id m
  /\ Message.author_id m' = Message.author_id m
  /\ Message.channel_id m' = Message.channel_id m
  /\ Message.thread_parent_id m' = Message.thread_parent_id m
  /\ Message.created_at m' = Message.created_at m.
Proof.
  intros H. apply change_same_identity in H. unfold same_identity in H.
  tauto.
Qed.

(** One request on a tombstoned message: it stays a tombstone with the
    fields it has; the pinned flag may be cleared, never set. *)
Lemma tombstone_survives_request
      (db : Db) (r : MessageRequest) (i : ObjectId) (m : Message.t) :
  Message_findById (messages db) i = Some m ->
  tombstoned m ->
  exists m',
    Message_findById (messages (handle db r)) i = Some m'
    /\ tombstoned m'
    /\ same_but_pinned m m'
    /\ (Message.is_pinned m' = true -> Message.is_pinned m = true).
Proof.
  intros Hf Ht.
  assert (Hsame : Message_findById (messages db) i = Some m ->
    exists m', Message_findById (messages db) i = Some m'
               /\ tombstoned m' /\ same_but_pinned m m'
               /\ (Message.is_pinned m' = true -> Message.is_pinned m = true)).
  { intros H. exists m. split; [assumption|]. split; [assumption|].
    split; [|tauto]. unfold same_but_pinned, same_identity. tauto. }
  destruct (handle_cases db r)
    as [E | [[x [E _]] | [j [m0 [c [F0 [Hch E]]]]]]]; rewrite E.
  - now apply Hsame.
  - destruct (Hsame Hf) as [m' [H1 H2]]. exists m'.
    split; [now apply message_find_snoc | assumption].
  - destruct (find_by_id_sound Message._id _ _ F0) as [_ Hid0].
    pose proof (change_keeps_id Hch) as Hidc.
    destruct (String.eqb j i) eqn:Ej.
    + apply String.eqb_eq in Ej. rewrite Ej in *.
      rewrite Hf in F0. inversion F0; subst m0; clear F0.
      exists c. split; [eapply message_find_after_save; eassumption|].
      destruct Ht as [Hd Hc].
      unfold tombstoned, same_but_pinned, same_but_deleted, same_but_edited,
        same_but_reactions in *.
      destruct Hch as [D _ _ _ | [Hd' Hc'] [Hi [Hr [He Hp]]]
                       | D _ _ | P Hp [Hi [Hco [Hr [Hde He]]]]
                       | e u now D _ _ _ | e u D _ _]; try congruence.
      * unfold same_identity in *. intuition congruence.
      * unfold same_identity in *. intuition congruence.
    + destruct (Hsame Hf) as [m' [H1 H2]]. exists m'. split; [|assumption].
      rewrite message_find_save_other; [assumption|].
      rewrite Hidc, Hid0. now apply String.eqb_neq.
Qed.

Lemma same_but_pinned_trans (a b c : Message.t) :
  same_but_pinned a b -> same_but_pinned b c -> same_but_pinned a c.
Proof.
  unfold same_but_pinned, same_identity.
  intros [[A1 [A2 [A3 [A4 [A5 A6]]]]] [A7 [A8 [A9 A10]]]]
         [[B1 [B2 [B3 [B4 [B5 B6]]]]] [B7 [B8 [B9 B10]]]].
  repeat split; congruence.
Qed.

(** X6.  A message that its author deleted through the HTTP controller is
    a tombstone for good.  The deletion sets the deleted flag and the
    tombstone text and leaves the other fields but [updated_at].  Whatever
    requests follow, on either transport, the message found under its id
    has the content, the flags deleted and edited, the reactions and the
    identity the deletion left; the pinned flag is never set again, and
    only an unpin may clear it. *)
Theorem tombstone_is_terminal
        (db db1 : Db) (me : User.t) (i : ObjectId) (now : Z) (status : nat)
        (rs : list MessageRequest) :
  Http.deleteMessage db me i now = (db1, Json status tt) ->
  exists m m1,
    Message_findById (messages db) i = Some m
    /\ Message.author_id m = User._id me
    /\ Message_findById (messages db1) i = Some m1
    /\ tombstoned m1
    /\ same_but_deleted m m1
    /\ exists m',
        Message_findById (messages (handle_all db1 rs)) i = Some m'
        /\ tombstoned m'
        /\ same_but_pinned m1 m'
        /\ (Message.is_pinned m' = true -> Message.is_pinned m1 = true).
Proof.
  unfold Http.deleteMessage.
  destruct (Message_findById (messages db) i) as [m|] eqn:F; [|discriminate].
  destruct (negb (String.eqb _ _)) eqn:A; [discriminate|].
  intros H. inversion H; subst db1; clear H.
  exists m, (Message.set_deleted now m).
  assert (F1 : Message_findById
                 (messages (set_messages
                    (Message_save (messages db) (Message.set_deleted now m))
                    db)) i
               = Some (Message.set_deleted now m)).
  { cbn [messages set_messages].
    eapply message_find_after_save; [eassumption | apply set_deleted_same]. }
  split; [reflexivity|].
  split; [now apply negb_false_iff, String.eqb_eq in A|].
  split; [exact F1|]. split; [apply set_deleted_tombstoned|].
  split; [apply set_deleted_same|].
  assert (Hgen : forall rs d m0,
    Message_findById (messages d) i = Some m0 ->
    tombstoned m0 ->
    exists m', Message_findById (messages (handle_all d rs)) i = Some m'
               /\ tombstoned m'
               /\ same_but_pinned m0 m'
               /\ (Message.is_pinned m' = true ->
                   Message.is_pinned m0 = true)).
  { clear. intros rs. unfold handle_all.
    induction rs as [|r rs IH]; intros d m0 Hf Ht; simpl.
    - exists m0. split; [assumption|]. split; [assumption|].
      split; [|tauto]. unfold same_but_pinned, same_identity. tauto.
    - destruct (tombstone_survives_request d r i Hf Ht)
        as [m1 [H1 [T1 [S1 P1]]]].
      destruct (IH _ _ H1 T1) as [m' [Hm' [Ht' [Hs Hp]]]].
      exists m'. split; [assumption|]. split; [assumption|].
      split; [eapply same_but_pinned_trans; eassumption | auto]. }
  apply Hgen; [exact F1 | apply set_deleted_tombstoned].
Qed.

(** Alice deletes her pinned message [m1] at 6000; an edit, a reaction of
    Bob on the live connection and an unpin follow. *)
Lemma tombstone_is_terminal_witness :
  let rs := [HttpEdit Sample.alice Sample.m1_id (Some "again") 6100;
             SocketAddReaction (User._id Sample.bob) Sample.m1_id "+1" 6500;
             SocketUnpin (User._id Sample.bob) Sample.m1_id 7000] in
  exists db1 m1,
    Http.deleteMessage Sample.db0 Sample.alice Sample.m1_id 6000
    = (db1, Json 200 tt)
    /\ Message_findById (messages db1) Sample.m1_id = Some m1
    /\ tombstoned m1
    /\ exists m',
        Message_findById (messages (handle_all db1 rs)) Sample.m1_id = Some m'
        /\ tombstoned m'
        /\ same_but_pinned m1 m'.
Proof.
  intros rs. eexists.
  assert (H : Http.deleteMessage Sample.db0 Sample.alice Sample.m1_id 6000
              = (fst (Http.deleteMessage Sample.db0 Sample.alice Sample.m1_id
                        6000),
                 Json 200 tt)) by reflexivity.
  destruct (@tombstone_is_terminal _ _ _ _ _ _ rs H)
    as [m [m1 [_ [_ [H1 [H2 [_ [m' [H3 [H4 [H5 _]]]]]]]]]]].
  exists m1. split; [exact H|]. split; [exact H1|]. split; [exact H2|].
  exists m'. split; [exact H3|]. split; [exact H4 | exact H5].
Defined.

(** X7.  If every stored message has a content within 2000 characters and
    pairwise distinct reactions, so it is after any sequence of requests on
    either transport. *)
Theorem messages_stay_valid (db : Db) (rs : list MessageRequest) :
  messages_valid db -> messages_valid (handle_all db rs).
Proof.
  unfold handle_all. revert db.
  induction rs as [|r rs IH]; simpl; intros db Hv; [assumption|].
  apply IH. clear IH rs. intros x Hx.
  destruct (handle_cases db r)
    as [E | [[y [E Hy]] | [j [m0 [c [F0 [Hch E]]]]]]]; rewrite E in Hx.
  - now apply Hv.
  - apply in_app_or in Hx. destruct Hx as [Hx | [<- | []]]; [now apply Hv|].
    destruct Hy as [Hc [Hr _]]. split; [assumption|].
    unfold Message.unique_reactions. rewrite Hr. constructor.
  - apply in_save in Hx. destruct Hx as [-> | Hx]; [|now apply Hv].
    destruct (find_by_id_sound Message._id _ _ F0) as [Hin _].
    destruct (Hv _ Hin) as [Hc Hu].
    unfold Message.unique_reactions in *.
    destruct Hch as [_ Hcv _ [_ [Hr _]] | [_ Hco] [_ [Hr _]]
                     | _ _ [_ [Hco [Hr _]]] | _ _ [_ [Hco [Hr _]]]
                     | e u now _ Hn Hr [_ [Hco _]]
                     | e u _ Hr [_ [Hco _]]].
    + split; [assumption | now rewrite Hr].
    + split; [now rewrite Hco | now rewrite Hr].
    + split; [now rewrite Hco | now rewrite Hr].
    + split; [now rewrite Hco | now rewrite Hr].
    + split; [now rewrite Hco|]. rewrite Hr, map_app. simpl.
      apply NoDup_snoc; assumption.
    + split; [now rewrite Hco|]. rewrite Hr. now apply NoDup_map_filter.
Qed.

Lemma sample_messages_valid : messages_valid Sample.db0.
Proof.
  intros m [<- | [<- | [<- | [<- | []]]]];
    (split; [reflexivity | constructor]).
Qed.

Lemma messages_stay_valid_witness :
  messages_valid
    (handle_all Sample.db0
       [SocketSend (User._id Sample.bob) (Some "hello") (Some Sample.general_id)
                   None Sample.fresh_id Sample.fresh_n 9000;
        SocketAddReaction (User._id Sample.bob) Sample.fresh_id "+1" 9100;
        HttpEdit Sample.alice Sample.m1_id (Some "edited") 9200]).
Proof.
  apply (@messages_stay_valid Sample.db0). exact sample_messages_valid.
Defined.

(** X8.  No request on messages, on either transport, removes a stored
    message or changes who wrote it, where, in reply to what, or when: a
    message found under an id before a sequence of requests is found under
    that id after it with the same id, author, channel, thread parent and
    creation time, and the messages never get fewer. *)
Theorem messages_keep_identity
        (db : Db) (rs : list MessageRequest) (i : ObjectId) (m : Message.t) :
  Message_findById (messages db) i = Some m ->
  List.length (messages db) <= List.length (messages (handle_all db rs))
  /\ exists m',
      Message_findById (messages (handle_all db rs)) i = Some m'
      /\ Message._id m' = Message._id m
      /\ Message.author_id m' = Message.author_id m
      /\ Message.channel_id m' = Message.channel_id m
      /\ Message.thread_parent_id m' = Message.thread_parent_id m
      /\ Message.created_at m' = Message.created_at m.
Proof.
  unfold handle_all. revert db m.
  induction rs as [|r rs IH]; simpl; intros db m Hf.
  - split; [lia|]. exists m. repeat split; assumption.
  - assert (Hstep :
      List.length (messages db) <= List.length (messages (handle db r))
      /\ exists m1,
          Message_findById (messages (handle db r)) i = Some m1
          /\ Message._id m1 = Message._id m
          /\ Message.author_id m1 = Message.author_id m
          /\ Message.channel_id m1 = Message.channel_id m
          /\ Message.thread_parent_id m1 = Message.thread_parent_id m
          /\ Message.created_at m1 = Message.created_at m).
    { destruct (handle_cases db r)
        as [E | [[y [E _]] | [j [m0 [c [F0 [Hch E]]]]]]]; rewrite E.
      - split; [lia|]. exists m. repeat split; assumption.
      - split; [rewrite length_app; simpl; lia|].
        exists m. split; [now apply message_find_snoc | repeat split].
      - split; [unfold Message_save; rewrite length_map; lia|].
        destruct (find_by_id_sound Message._id _ _ F0) as [_ Hid0].
        destruct (change_keeps_identity Hch) as [Hidc Hrest].
        destruct (String.eqb j i) eqn:Ei.
        + apply String.eqb_eq in Ei. rewrite Ei in *.
          rewrite Hf in F0.
          inversion F0; subst m0; clear F0.
          exists c. split; [|split; assumption].
          eapply message_find_after_save; eassumption.
        + exists m. split; [|repeat split].
          rewrite message_find_save_other; [assumption|].
          rewrite Hidc, Hid0. now apply String.eqb_neq. }
    destruct Hstep as [Hlen [m1 [H1 [E1 [E2 [E3 [E4 E5]]]]]]].
    destruct (IH _ _ H1) as [Hlen' [m' [H' [F1 [F2 [F3 [F4 F5]]]]]]].
    split; [lia|]. exists m'. split; [assumption|].
    repeat split; congruence.
Qed.

Lemma messages_keep_identity_witness :
  let rs := [HttpDelete Sample.alice Sample.m2_id 8500;
             SocketSend (User._id Sample.bob) (Some "hello")
                        (Some Sample.general_id) None Sample.m2_id
                        Sample.fresh_n 9000] in
  List.length (messages Sample.db0)
  <= List.length (messages (handle_all Sample.db0 rs))
  /\ exists m',
      Message_findById (messages (handle_all Sample.db0 rs)) Sample.m2_id
      = Some m'
      /\ Message._id m' = Message._id Sample.m2
      /\ Message.author_id m' = Message.author_id Sample.m2
      /\ Message.channel_id m' = Message.channel_id Sample.m2
      /\ Message.thread_parent_id m' = Message.thread_parent_id Sample.m2
      /\ Message.created_at m' = Message.created_at Sample.m2.
Proof.
  intros rs.
  apply (@messages_keep_identity Sample.db0 rs Sample.m2_id Sample.m2).
  reflexivity.
Defined.

(** X9.  The handlers of ['message:edit'] and ['message:delete'] refuse
    every request on a stored message, the author's own included: they
    compare the author's id, a string, with [socket.user.id], an ObjectId,
    by strict inequality.  The database is left as it was. *)
Theorem socket_edit_delete_refuse_everyone
        (d : Db) (me id : ObjectId) (content : option string) (now : Z)
        (m : Message.t) :
  Message_findById (messages d) id = Some m ->
  Socket.message_edit d me id content now
  = (d, AckFailure "Not authorized to edit this message")
  /\ SocketHandlers.message_delete d me id now
     = (d, AckFailure "Not authorized to delete this message").
Proof.
  intros Hf. unfold Socket.message_edit, SocketHandlers.message_delete.
  now rewrite Hf.
Qed.

(** Alice on her own message, one second after she sent it. *)
Lemma socket_edit_delete_refuse_everyone_witness :
  Message.author_id Sample.m1 = User._id Sample.alice
  /\ Socket.message_edit Sample.db0 (User._id Sample.alice) Sample.m1_id
       (Some "fixed") 6000
     = (Sample.db0, AckFailure "Not authorized to edit this message")
  /\ SocketHandlers.message_delete Sample.db0 (User._id Sample.alice)
       Sample.m1_id 6000
     = (Sample.db0, AckFailure "Not authorized to delete this message").
Proof.
  split; [reflexivity|].
  apply (@socket_edit_delete_refuse_everyone Sample.db0 (User._id Sample.alice)
           Sample.m1_id (Some "fixed") 6000%Z Sample.m1).
  reflexivity.
Defined.

(** ** Sorting and paging *)

Section Sorting.

Variable A : Type.
Variable before : A -> A -> bool.

Lemma insert_perm (x : A) (l : list A) :
  Permutation (Query.insert before x l) (x :: l).
Proof.
  induction l as [|y l IH]; simpl; [reflexivity|].
  destruct (before x y); [reflexivity|].
  rewrite IH. apply perm_swap.
Qed.

Lemma sort_perm (l : list A) : Permutation (Query.sort before l) l.
Proof.
  unfold Query.sort. induction l as [|x l IH]; simpl; [reflexivity|].
  rewrite insert_perm. now constructor.
Qed.

Lemma sort_In (l : list A) (x : A) : In x (Query.sort before l) <-> In x l.
Proof.
  split; apply Permutation_in; [|symmetry]; apply sort_perm.
Qed.

Lemma sort_length (l : list A) :
  List.length (Query.sort before l) = List.length l.
Proof. apply Permutation_length, sort_perm. Qed.

Hypothesis before_total : forall a b, before a b = true \/ before b a = true.
Hypothesis before_trans :
  forall a b c, before a b = true -> before b c = true -> before a c = true.

Lemma insert_sorted (x : A) (l : list A) :
  StronglySorted (fun a b => before a b = true) l ->
  StronglySorted (fun a b => before a b = true) (Query.insert before x l).
Proof.
  induction 1 as [|y l Hs IH Hy]; simpl; [repeat constructor|].
  destruct (before x y) eqn:E.
  - constructor; [now constructor|]. constructor; [assumption|].
    rewrite Forall_forall in *. eauto.
  - constructor; [assumption|].
    rewrite Forall_forall in *. intros z Hz.
    apply (Permutation_in _ (insert_perm x l)) in Hz.
    destruct Hz as [<- | Hz]; [|auto].
    destruct (before_total x y); congruence.
Qed.

Lemma sort_sorted (l : list A) :
  StronglySorted (fun a b => before a b = true) (Query.sort before l).
Proof.
  unfold Query.sort. induction l as [|x l IH]; simpl; [constructor|].
  now apply insert_sorted.
Qed.

End Sorting.

Lemma StronglySorted_skipn {A} (R : A -> A -> Prop) (n : nat) (l : list A) :
  StronglySorted R l -> StronglySorted R (skipn n l).
Proof.
  revert l. induction n as [|n IH]; intros l H; [assumption|].
  destruct l as [|x l]; [constructor|]. simpl. apply IH.
  now inversion H.
Qed.

Lemma StronglySorted_firstn {A} (R : A -> A -> Prop) (n : nat) (l : list A) :
  StronglySorted R l -> StronglySorted R (firstn n l).
Proof.
  revert l. induction n as [|n IH]; intros l H; [constructor|].
  destruct l as [|x l]; [constructor|]. simpl.
  inversion H as [|? ? Hs Hf]; subst. constructor; [now apply IH|].
  rewrite Forall_forall in *. intros z Hz. apply Hf.
  eapply (In_nth_error) in Hz. destruct Hz as [k Hk].
  apply nth_error_In with (n := k).
  rewrite nth_error_firstn in Hk.
  destruct (k <? n); [assumption | discriminate].
Qed.

Lemma skip_limit_sorted {A} (R : A -> A -> Prop) (s k : nat) (l : list A) :
  StronglySorted R l -> StronglySorted R (Query.skip_limit s k l).
Proof.
  intros H. unfold Query.skip_limit. destruct (k =? 0).
  - now apply StronglySorted_skipn.
  - now apply StronglySorted_firstn, StronglySorted_skipn.
Qed.

Lemma skip_limit_In {A} (s k : nat) (l : list A) (x : A) :
  In x (Query.skip_limit s k l) -> In x l.
Proof.
  assert (Hskip : forall n y, In y (skipn n l) -> In y l).
  { intros n y Hy. rewrite <- (firstn_skipn n l). apply in_or_app. now right. }
  unfold Query.skip_limit. intros H.
  destruct (k =? 0); [now apply (Hskip s)|].
  apply (Hskip s). rewrite <- (firstn_skipn k (skipn s l)).
  apply in_or_app. now left.
Qed.

Lemma skip_limit_length {A} (s k : nat) (l : list A) :
  0 < k -> List.length (Query.skip_limit s k l) <= k.
Proof.
  intros Hk. unfold Query.skip_limit.
  destruct (k =? 0) eqn:E; [apply Nat.eqb_eq in E; lia|].
  rewrite length_firstn. lia.
Qed.

Lemma firstn_then_next {A} (a b : nat) (l : list A) :
  firstn a l ++ firstn b (skipn a l) = firstn (a + b) l.
Proof.
  revert l. induction a as [|a IH]; intros l; simpl; [reflexivity|].
  destruct l as [|x l]; simpl.
  - now rewrite firstn_nil.
  - now rewrite IH.
Qed.

(** The pages 1 to [n] of a listing, one after the other, are its first
    [n * limit] documents. *)
Lemma pages_concat {A} (limit n : nat) (l : list A) :
  0 < limit ->
  List.concat
    (map (fun p => Query.skip_limit ((p - 1) * limit) limit l) (seq 1 n))
  = firstn (n * limit) l.
Proof.
  intros Hl. induction n as [|n IH]; [reflexivity|].
  rewrite seq_S, map_app, concat_app, IH. simpl. rewrite app_nil_r.
  unfold Query.skip_limit.
  destruct (limit =? 0) eqn:E; [apply Nat.eqb_eq in E; lia|].
  replace (n - 0) with n by lia.
  rewrite firstn_then_next. f_equal. lia.
Qed.

Lemma totalPages_cover (total limit : nat) :
  0 < limit ->
  exists t, Query.totalPages total limit = Some t
            /\ total <= t * limit
            /\ (0 < total -> (t - 1) * limit < total).
Proof.
  intros Hl. unfold Query.totalPages.
  destruct (limit =? 0) eqn:E; [apply Nat.eqb_eq in E; lia|].
  eexists. split; [reflexivity|].
  pose proof (Nat.div_mod_eq (total + limit - 1) limit) as D.
  pose proof (Nat.mod_upper_bound (total + limit - 1) limit) as U.
  split; [nia|]. intros Ht. nia.
Qed.

Lemma StronglySorted_weaken {A} (R R' : A -> A -> Prop) (l : list A) :
  (forall a b, R a b -> R' a b) -> StronglySorted R l -> StronglySorted R' l.
Proof.
  intros H. induction 1 as [|x l Hs IH Hf]; constructor; [assumption|].
  rewrite Forall_forall in *. auto.
Qed.

Lemma newest_first_sorted (ms : list Message.t) :
  descending (Query.sort MessageController.newest_first ms).
Proof.
  unfold descending.
  apply StronglySorted_weaken
    with (R := fun a b => MessageController.newest_first a b = true).
  - unfold MessageController.newest_first. intros a b H.
    now apply Z.leb_le in H.
  - apply sort_sorted; unfold MessageController.newest_first.
    + intros a b. rewrite !Z.leb_le. lia.
    + intros a b c. rewrite !Z.leb_le. lia.
Qed.

Lemma oldest_first_sorted (ms : list Message.t) :
  ascending (Query.sort MessageController.oldest_first ms).
Proof.
  unfold ascending.
  apply StronglySorted_weaken
    with (R := fun a b => MessageController.oldest_first a b = true).
  - unfold MessageController.oldest_first. intros a b H.
    now apply Z.leb_le in H.
  - apply sort_sorted; unfold MessageController.oldest_first.
    + intros a b. rewrite !Z.leb_le. lia.
    + intros a b c. rewrite !Z.leb_le. lia.
Qed.

(** ** Creating and listing messages *)

(** What holds of a message the HTTP controller created. *)
Lemma createMessage_created
        (db db' : Db) (me : User.t) (content : option string)
        (cid tp : option ObjectId) (file : option (Result string))
        (fresh : ObjectId) (now : Z) (status : nat) (m : Message.t) :
  Http.createMessage db me content cid tp file fresh now
  = (db', Json status m) ->
  status = 201
  /\ db' = set_messages (messages db ++ [m]) db
  /\ Message._id m = fresh
  /\ Message.author_id m = User._id me
  /\ Message.created_at m = now
  /\ cid = Some (Message.channel_id m)
  /\ (exists channel,
        Channel.findById (channels db) (Message.channel_id m) = Some channel
        /\ In (User._id me) (Channel.members channel)
        /\ (Message.file_url m <> None -> Channel.type channel = Channel.dm))
  /\ (exists s,
        Message.content m = Some s
        /\ String.length s <= 2000
        /\ (trim s = "" -> Message.file_url m <> None))
  /\ (forall p, Message.thread_parent_id m = Some p ->
                p <> ""
                /\ exists parent,
                    Message_findById (messages db) p = Some parent).
Proof.
  unfold Http.createMessage.
  destruct (blank content && negb (present file)) eqn:B; [discriminate|].
  destruct (truthy content && (2000 <? _)) eqn:L; [discriminate|].
  destruct cid as [c|]; [|discriminate].
  destruct (Channel.findById _ _) as [channel|] eqn:C; [|discriminate].
  destruct (negb (includes _ _)) eqn:M; [discriminate|].
  destruct (present file && _) eqn:D; [discriminate|].
  apply negb_false_iff, includes_In in M.
  assert (Hparent : forall p, or_null tp = Some p -> p <> "").
  { intros p. unfold or_null. destruct (truthy tp) eqn:T; [|discriminate].
    intros ->. simpl in T. apply negb_true_iff in T.
    now apply String.eqb_neq. }
  assert (Hfinish :
    (forall p, or_null tp = Some p ->
               exists parent, Message_findById (messages db) p = Some parent) ->
    forall upload,
      upload = match file with
               | None => Ok None
               | Some (Ok url) => Ok (Some url)
               | Some (Fail e) => Fail e
               end ->
      match upload with
      | Fail e => (db, Next e)
      | Ok file_url =>
          (set_messages
             (messages db ++
              [Message.mk fresh
                 (Some (match content with Some s => s | None => "" end))
                 (User._id me) c (or_null tp) file_url [] false false false
                 now now]) db,
           Json 201
             (Message.mk fresh
                (Some (match content with Some s => s | None => "" end))
                (User._id me) c (or_null tp) file_url [] false false false
                now now))
      end = (db', Json status m) ->
      status = 201
      /\ db' = set_messages (messages db ++ [m]) db
      /\ Message._id m = fresh
      /\ Message.author_id m = User._id me
      /\ Message.created_at m = now
      /\ Some c = Some (Message.channel_id m)
      /\ (exists channel0,
            Channel.findById (channels db) (Message.channel_id m)
            = Some channel0
            /\ In (User._id me) (Channel.members channel0)
            /\ (Message.file_url m <> None ->
                Channel.type channel0 = Channel.dm))
      /\ (exists s,
            Message.content m = Some s
            /\ String.length s <= 2000
            /\ (trim s = "" -> Message.file_url m <> None))
      /\ (forall p, Message.thread_parent_id m = Some p ->
                    p <> ""
                    /\ exists parent,
                        Message_findById (messages db) p = Some parent)).
  { intros Hp upload Hup. destruct upload as [file_url|e]; [|discriminate].
    intros H. inversion H; subst; clear H. cbn.
    repeat (split; [reflexivity|]).
    split; [|split].
    - exists channel. split; [assumption|]. split; [assumption|].
      intros Hurl. destruct file as [[url|e]|]; try discriminate;
        [|inversion Hup; subst; contradiction].
      simpl in D. apply negb_false_iff in D.
      destruct (Channel.type channel); [discriminate | reflexivity].
    - eexists. split; [reflexivity|]. split.
      + destruct content as [s|]; [|simpl; lia].
        destruct s as [|a s]; [simpl; lia|].
        simpl in L. now apply Nat.ltb_ge in L.
      + intros Ht.
        assert (Hb : blank content = true).
        { destruct content as [s|]; [|reflexivity]. simpl.
          rewrite Ht. apply orb_true_r. }
        rewrite Hb in B. simpl in B. apply negb_false_iff in B.
        destruct file as [[url|e]|]; try discriminate.
        inversion Hup. discriminate.
    - intros p Hp'. split; [now apply Hparent | now apply Hp]. }
  destruct (or_null tp) as [pid|] eqn:O.
  - destruct (Message_findById (messages db) pid) as [parent|] eqn:P;
      [|discriminate].
    rewrite depth_limit_never_reached.
    apply Hfinish; [|reflexivity].
    intros p Hp. inversion Hp; subst. eauto.
  - apply Hfinish; [|reflexivity]. intros p Hp. discriminate.
Qed.

(** X10.  Every message the HTTP controller creates (always with status
    201) is appended to the stored messages with the driver's id, the
    requester as its author and the channel of the request, which exists
    and has the requester among its members; its content is a string of at
    most 2000 characters, blank only when an attachment came with it, and an
    attachment only comes with a message of a direct channel; the parent it
    names, if any, is a stored message. *)
Theorem createMessage_postcondition
        (db db' : Db) (me : User.t) (content : option string)
        (cid tp : option ObjectId) (file : option (Result string))
        (fresh : ObjectId) (now : Z) (status : nat) (m : Message.t) :
  Http.createMessage db me content cid tp file fresh now
  = (db', Json status m) ->
  status = 201
  /\ db' = set_messages (messages db ++ [m]) db
  /\ Message._id m = fresh
  /\ Message.author_id m = User._id me
  /\ Message.created_at m = now
  /\ cid = Some (Message.channel_id m)
  /\ (exists channel,
        Channel.findById (channels db) (Message.channel_id m) = Some channel
        /\ In (User._id me) (Channel.members channel)
        /\ (Message.file_url m <> None -> Channel.type channel = Channel.dm))
  /\ (exists s,
        Message.content m = Some s
        /\ String.length s <= 2000
        /\ (trim s = "" -> Message.file_url m <> None))
  /\ (forall p, Message.thread_parent_id m = Some p ->
                p <> ""
                /\ exists parent,
                    Message_findById (messages db) p = Some parent).
Proof. apply createMessage_created. Qed.

(** Alice posts a root message in [general]. *)
Lemma createMessage_postcondition_witness :
  exists db' m,
    Http.createMessage Sample.db0 Sample.alice (Some "hello")
      (Some Sample.general_id) None None Sample.fresh_id 9000
    = (db', Json 201 m)
    /\ db' = set_messages (messages Sample.db0 ++ [m]) Sample.db0
    /\ Message.author_id m = User._id Sample.alice
    /\ Message.content m = Some "hello".
Proof.
  do 2 eexists.
  assert (H : Http.createMessage Sample.db0 Sample.alice (Some "hello")
                (Some Sample.general_id) None None Sample.fresh_id 9000
              = (fst (Http.createMessage Sample.db0 Sample.alice (Some "hello")
                        (Some Sample.general_id) None None Sample.fresh_id 9000),
                 Json 201
                   (Message.mk Sample.fresh_id (Some "hello")
                      (User._id Sample.alice) Sample.general_id None None []
                      false false false 9000 9000))) by reflexivity.
  destruct (createMessage_postcondition _ _ _ _ _ _ _ _ H)
    as [_ [Hdb [_ [Ha _]]]].
  split; [exact H|]. split; [exact Hdb|]. split; [exact Ha | reflexivity].
Defined.

Lemma replyCount_snoc (db : Db) (x parent : Message.t) :
  MessageController.replyCount
    (set_messages (messages db ++ [x]) db) parent
  = MessageController.replyCount db parent
    + (if MessageController.is_reply_to (Message._id parent) x then 1 else 0).
Proof.
  unfold MessageController.replyCount. cbn [messages set_messages].
  rewrite filter_app, length_app. simpl.
  destruct (MessageController.is_reply_to _ x); reflexivity.
Qed.

(** X11.  A reply that the HTTP controller created counts and shows at
    once: the reply count of its parent is one more than before, the reply
    is no root message of any channel, and the thread of the parent, listed
    for any member of the parent's channel, contains it.  The controller
    never compares the channel of the reply with the channel of its parent:
    the thread lists the reply whatever channel it was posted to. *)
Theorem reply_shows_in_thread
        (db db' : Db) (me viewer : User.t) (content : option string)
        (cid : option ObjectId) (p : ObjectId)
        (file : option (Result string)) (fresh : ObjectId) (now : Z)
        (status : nat) (m : Message.t) :
  p <> "" ->
  Http.createMessage db me content cid (Some p) file fresh now
  = (db', Json status m) ->
  exists parent,
    Message_findById (messages db) p = Some parent
    /\ Message_findById (messages db') p = Some parent
    /\ MessageController.replyCount db' parent
       = S (MessageController.replyCount db parent)
    /\ (forall c, MessageController.is_root_of c m = false)
    /\ (forall channel,
          Channel.findById (channels db) (Message.channel_id parent)
          = Some channel ->
          includes (Channel.members channel) (User._id viewer) = true ->
          exists replies,
            MessageController.getThreadMessages db' viewer p
            = Json 200 (parent :: replies)
            /\ In m replies).
Proof.
  intros Hp Hcreate.
  destruct (createMessage_created _ _ _ _ _ _ _ _ Hcreate)
    as [_ [Hdb [_ [_ [_ [_ [_ [_ Hpar]]]]]]]].
  assert (Htp : Message.thread_parent_id m = Some p
                /\ Message.is_deleted m = false).
  { revert Hcreate. unfold Http.createMessage.
    assert (Ho : or_null (Some p) = Some p).
    { unfold or_null. simpl. apply String.eqb_neq in Hp. now rewrite Hp. }
    rewrite Ho.
    repeat match goal with
           | |- context [if ?b then _ else _] => destruct b
           | |- context [match ?x with _ => _ end] => destruct x
           end; intros H; inversion H; subst; split; reflexivity. }
  destruct Htp as [Htp Hdel].
  destruct (Hpar p Htp) as [_ [parent Hparent]].
  destruct (find_by_id_sound Message._id _ _ Hparent) as [_ Hpid].
  assert (Hreply : MessageController.is_reply_to p m = true).
  { unfold MessageController.is_reply_to.
    now rewrite Htp, Hdel, String.eqb_refl. }
  exists parent. split; [assumption|]. subst db'.
  split; [cbn [messages set_messages]; now apply message_find_snoc|].
  split; [|split].
  - rewrite replyCount_snoc, Hpid, Hreply. lia.
  - intros c. unfold MessageController.is_root_of. rewrite Htp. simpl.
    now rewrite andb_false_r.
  - intros channel Hc Hin. unfold MessageController.getThreadMessages.
    cbn [messages channels set_messages].
    rewrite (message_find_snoc _ _ _ Hparent), Hc, Hin. cbn [negb].
    eexists. split; [reflexivity|].
    apply sort_In. apply filter_In. split; [|assumption].
    apply in_or_app. right. now left.
Qed.

(** Alice replies to the root message [m1] of [general]. *)
Lemma reply_shows_in_thread_witness :
  exists db' m replies,
    Http.createMessage Sample.db0 Sample.alice (Some "a reply")
      (Some Sample.general_id) (Some Sample.m1_id) None Sample.fresh_id 9000
    = (db', Json 201 m)
    /\ MessageController.replyCount db' Sample.m1
       = S (MessageController.replyCount Sample.db0 Sample.m1)
    /\ MessageController.getThreadMessages db' Sample.alice Sample.m1_id
       = Json 200 (Sample.m1 :: replies)
    /\ In m replies.
Proof.
  assert (Hp : Sample.m1_id <> "") by discriminate.
  assert (H : Http.createMessage Sample.db0 Sample.alice (Some "a reply")
                (Some Sample.general_id) (Some Sample.m1_id) None
                Sample.fresh_id 9000
              = (fst (Http.createMessage Sample.db0 Sample.alice
                        (Some "a reply") (Some Sample.general_id)
                        (Some Sample.m1_id) None Sample.fresh_id 9000),
                 Json 201
                   (Message.mk Sample.fresh_id (Some "a reply")
                      (User._id Sample.alice) Sample.general_id
                      (Some Sample.m1_id) None [] false false false
                      9000 9000))) by reflexivity.
  destruct (@reply_shows_in_thread _ _ _ Sample.alice _ _ _ _ _ _ _ _ Hp H)
    as [parent [Hf [_ [Hcount [_ Hthread]]]]].
  assert (parent = Sample.m1) by (vm_compute in Hf; now inversion Hf).
  subst parent.
  destruct (Hthread Sample.general eq_refl eq_refl) as [replies [Ht Hin]].
  do 2 eexists. exists replies.
  split; [exact H|]. split; [exact Hcount|]. split; [exact Ht | exact Hin].
Defined.

(** X12.  A page of the messages of a channel is only given to a member of
    the channel, which exists.  It carries root messages of that channel
    that are stored and not deleted, newest first, each with the number of
    the replies to it that are not deleted; [results] is their number,
    which a positive limit bounds. *)
Theorem channel_page_contents
        (db : Db) (me : User.t) (channelId : ObjectId) (page limit : nat)
        (status : nat) (pg : Page (Message.t * nat)) :
  MessageController.getChannelMessages db me channelId page limit
  = Json status pg ->
  (exists channel,
     Channel.findById (channels db) channelId = Some channel
     /\ In (User._id me) (Channel.members channel))
  /\ results pg = List.length (documents pg)
  /\ currentPage pg = page
  /\ (0 < limit -> results pg <= limit)
  /\ descending (map fst (documents pg))
  /\ (forall m k,
        In (m, k) (documents pg) ->
        In m (messages db)
        /\ Message.channel_id m = channelId
        /\ Message.thread_parent_id m = None
        /\ Message.is_deleted m = false
        /\ k = MessageController.replyCount db m).
Proof.
  unfold MessageController.getChannelMessages.
  destruct (Channel.findById _ _) as [channel|] eqn:C; [|discriminate].
  destruct (negb (includes _ _)) eqn:M; [discriminate|].
  destruct ((page =? 0) && negb (limit =? 0)); [discriminate|].
  intros H. inversion H; subst; clear H. cbn [results currentPage documents].
  apply negb_false_iff, includes_In in M.
  split; [eauto|]. split; [now rewrite length_map|]. split; [reflexivity|].
  split; [intros Hl; now apply skip_limit_length|]. split.
  - rewrite map_map. cbn [fst]. rewrite map_id.
    apply skip_limit_sorted, newest_first_sorted.
  - intros m k Hin. apply in_map_iff in Hin. destruct Hin as [x [Hx Hin]].
    inversion Hx; subst; clear Hx.
    apply skip_limit_In, sort_In, filter_In in Hin. destruct Hin as [Hin Hr].
    unfold MessageController.is_root_of in Hr.
    apply andb_true_iff in Hr. destruct Hr as [Hr Hd].
    apply andb_true_iff in Hr. destruct Hr as [Hc Ht].
    apply String.eqb_eq in Hc. apply negb_true_iff in Hd, Ht.
    repeat split; try assumption.
    destruct (Message.thread_parent_id m); [discriminate | reflexivity].
Qed.

(** Alice asks for the first page of [general], two messages a page. *)
Lemma channel_page_contents_witness :
  exists pg,
    MessageController.getChannelMessages Sample.db0 Sample.alice
      Sample.general_id 1 2 = Json 200 pg
    /\ documents pg = [(Sample.m1, 1)]
    /\ totalPages pg = Some 1
    /\ results pg = List.length (documents pg)
    /\ results pg <= 2
    /\ descending (map fst (documents pg)).
Proof.
  eexists.
  assert (H : MessageController.getChannelMessages Sample.db0 Sample.alice
                Sample.general_id 1 2
              = Json 200 (mkPage 1 (Some 1) 1 [(Sample.m1, 1)]))
    by reflexivity.
  destruct (channel_page_contents _ _ _ _ _ H)
    as [_ [Hres [_ [Hle [Hsorted _]]]]].
  split; [exact H|]. split; [reflexivity|]. split; [reflexivity|].
  split; [exact Hres|]. split; [apply Hle; lia | exact Hsorted].
Defined.

(** X13.  With a positive limit, the pages 1 to [totalPages] of a
    channel, one after the other, are exactly the root messages of the
    channel that are not deleted, each once, newest first; and every later
    page is empty. *)
Theorem channel_pages_cover
        (db : Db) (me : User.t) (channelId : ObjectId) (limit : nat)
        (channel : Channel.t) :
  Channel.findById (channels db) channelId = Some channel ->
  includes (Channel.members channel) (User._id me) = true ->
  0 < limit ->
  exists t,
    (forall page status pg,
       MessageController.getChannelMessages db me channelId page limit
       = Json status pg -> totalPages pg = Some t)
    /\ List.concat
         (map (fun page =>
                 page_documents
                   (MessageController.getChannelMessages db me channelId page
                                                         limit))
              (seq 1 t))
       = map (fun m => (m, MessageController.replyCount db m))
             (Query.sort MessageController.newest_first
                (filter (MessageController.is_root_of channelId)
                        (messages db)))
    /\ (forall page, t < page ->
          page_documents
            (MessageController.getChannelMessages db me channelId page limit)
          = []).
Proof.
  intros Hc Hin Hl.
  set (sorted := Query.sort MessageController.newest_first
                   (filter (MessageController.is_root_of channelId)
                           (messages db))).
  destruct (totalPages_cover
              (List.length (filter (MessageController.is_root_of channelId)
                                   (messages db))) Hl)
    as [t [Ht [Hcover _]]].
  assert (Hpage : forall page, 0 < page ->
    MessageController.getChannelMessages db me channelId page limit
    = Json 200
        (mkPage (List.length (Query.skip_limit ((page - 1) * limit) limit sorted))
                (Some t) page
                (map (fun m => (m, MessageController.replyCount db m))
                     (Query.skip_limit ((page - 1) * limit) limit sorted)))).
  { intros page Hpos. unfold MessageController.getChannelMessages.
    rewrite Hc, Hin. cbn [negb].
    destruct (page =? 0) eqn:E; [apply Nat.eqb_eq in E; lia|].
    cbn [andb]. now rewrite Ht. }
  exists t. split; [|split].
  - intros page status pg.
    destruct (Nat.eq_dec page 0) as [-> | Hpos].
    + unfold MessageController.getChannelMessages. rewrite Hc, Hin.
      cbn [negb Nat.eqb andb].
      destruct (limit =? 0) eqn:E; [apply Nat.eqb_eq in E; lia|].
      discriminate.
    + rewrite Hpage by lia. intros H. now inversion H.
  - transitivity
      (List.concat
         (map (fun page =>
                 map (fun m => (m, MessageController.replyCount db m))
                     (Query.skip_limit ((page - 1) * limit) limit sorted))
              (seq 1 t))).
    + f_equal. apply map_ext_in. intros page Hp. apply in_seq in Hp.
      rewrite Hpage by lia. reflexivity.
    + rewrite <- (map_map (fun page => Query.skip_limit ((page - 1) * limit)
                                                         limit sorted)
                          (map (fun m => (m, MessageController.replyCount db m)))).
      rewrite <- concat_map, pages_concat by assumption.
      rewrite firstn_all2; [reflexivity|].
      unfold sorted. rewrite sort_length. lia.
  - intros page Hp. rewrite Hpage by lia. cbn [page_documents documents].
    unfold Query.skip_limit.
    destruct (limit =? 0) eqn:E; [apply Nat.eqb_eq in E; lia|].
    rewrite skipn_all2; [now rewrite firstn_nil|].
    unfold sorted. rewrite sort_length. nia.
Qed.

Lemma channel_pages_cover_witness :
  exists t,
    (forall page status pg,
       MessageController.getChannelMessages Sample.db0 Sample.alice
         Sample.general_id page 1 = Json status pg -> totalPages pg = Some t)
    /\ List.concat
         (map (fun page =>
                 page_documents
                   (MessageController.getChannelMessages Sample.db0
                      Sample.alice Sample.general_id page 1))
              (seq 1 t))
       = map (fun m => (m, MessageController.replyCount Sample.db0 m))
             (Query.sort MessageController.newest_first
                (filter (MessageController.is_root_of Sample.general_id)
                        (messages Sample.db0)))
    /\ (forall page, t < page ->
          page_documents
            (MessageController.getChannelMessages Sample.db0 Sample.alice
               Sample.general_id page 1) = []).
Proof.
  apply (@channel_pages_cover Sample.db0 Sample.alice Sample.general_id 1
           Sample.general); [reflexivity | reflexivity | lia].
Defined.

(** X14.  The thread of a message is only listed for a member of the
    message's channel.  The list starts with the message itself, deleted or
    not, and goes on with exactly the stored messages that name it as their
    thread parent and are not deleted, each once, oldest first; replies to
    replies are not part of it. *)
Theorem thread_contents
        (db : Db) (me : User.t) (messageId : ObjectId) (status : nat)
        (listed : list Message.t) :
  MessageController.getThreadMessages db me messageId = Json status listed ->
  exists parent channel replies,
    listed = parent :: replies
    /\ Message_findById (messages db) messageId = Some parent
    /\ Channel.findById (channels db) (Message.channel_id parent)
       = Some channel
    /\ In (User._id me) (Channel.members channel)
    /\ Permutation replies
         (filter (MessageController.is_reply_to messageId) (messages db))
    /\ ascending replies
    /\ (forall r, In r replies ->
                  Message.thread_parent_id r = Some messageId
                  /\ Message.is_deleted r = false).
Proof.
  unfold MessageController.getThreadMessages.
  destruct (Message_findById _ _) as [parent|] eqn:F; [|discriminate].
  destruct (Channel.findById _ _) as [channel|] eqn:C; [|discriminate].
  destruct (negb (includes _ _)) eqn:M; [discriminate|].
  intros H. inversion H; subst; clear H.
  apply negb_false_iff, includes_In in M.
  exists parent, channel. eexists. split; [reflexivity|].
  split; [reflexivity|]. split; [assumption|]. split; [assumption|].
  split; [apply sort_perm|]. split; [apply oldest_first_sorted|].
  intros r Hr. apply sort_In, filter_In in Hr. destruct Hr as [_ Hr].
  unfold MessageController.is_reply_to in Hr.
  apply andb_true_iff in Hr. destruct Hr as [Hp Hd].
  apply negb_true_iff in Hd. split; [|assumption].
  destruct (Message.thread_parent_id r) as [q|]; [|discriminate].
  apply String.eqb_eq in Hp. now subst.
Qed.

(** The thread of the root message [m1]: its reply [m2], and not [m3], the
    reply to [m2]. *)
Lemma thread_contents_witness :
  MessageController.getThreadMessages Sample.db0 Sample.alice Sample.m1_id
  = Json 200 [Sample.m1; Sample.m2]
  /\ exists parent channel replies,
      [Sample.m1; Sample.m2] = parent :: replies
      /\ Message_findById (messages Sample.db0) Sample.m1_id = Some parent
      /\ Channel.findById (channels Sample.db0) (Message.channel_id parent)
         = Some channel
      /\ In (User._id Sample.alice) (Channel.members channel)
      /\ Permutation replies
           (filter (MessageController.is_reply_to Sample.m1_id)
                   (messages Sample.db0))
      /\ ascending replies
      /\ (forall r, In r replies ->
                    Message.thread_parent_id r = Some Sample.m1_id
                    /\ Message.is_deleted r = false).
Proof.
  split; [reflexivity|].
  apply (@thread_contents Sample.db0 Sample.alice Sample.m1_id 200).
  reflexivity.
Defined.

(** ** The channel directory *)

Lemma channel_save_ids (cs : list Channel.t) (c : Channel.t) :
  map Channel._id (Channel.save cs c) = map Channel._id cs.
Proof.
  unfold Channel.save. rewrite map_map. apply map_ext. intros d.
  destruct (String.eqb (Channel._id d) (Channel._id c)) eqn:E;
    [|reflexivity].
  apply String.eqb_eq in E. now symmetry.
Qed.

(** With pairwise distinct ids, a save only shows in what the saved
    document changed. *)
Lemma channel_save_same {B} (f : Channel.t -> B) (cs : list Channel.t)
      (c c' : Channel.t) :
  NoDup (map Channel._id cs) ->
  In c cs ->
  Channel._id c' = Channel._id c ->
  f c' = f c ->
  map f (Channel.save cs c') = map f cs.
Proof.
  intros Hnd Hin Hid Hf. unfold Channel.save. rewrite map_map.
  apply map_ext_in. intros d Hd.
  destruct (String.eqb (Channel._id d) (Channel._id c')) eqn:E;
    [|reflexivity].
  apply String.eqb_eq in E. rewrite Hid in E.
  assert (d = c) by (eapply NoDup_map_injective; eassumption).
  now subst.
Qed.

Lemma channel_save_back (cs : list Channel.t) (id : ObjectId)
      (c c1 : Channel.t) :
  NoDup (map Channel._id cs) ->
  Channel.findById cs id = Some c ->
  Channel._id c1 = Channel._id c ->
  Channel.save (Channel.save cs c1) c = cs.
Proof.
  intros Hnd Hf Hid. unfold Channel.save. rewrite map_map.
  rewrite <- (map_id cs) at 2. apply map_ext_in. intros d Hd.
  destruct (find_by_id_sound Channel._id _ _ Hf) as [Hc _].
  rewrite Hid.
  destruct (String.eqb (Channel._id d) (Channel._id c)) eqn:E.
  - rewrite <- Hid, String.eqb_refl. apply String.eqb_eq in E.
    symmetry. eapply NoDup_map_injective; eassumption.
  - now rewrite E.
Qed.

Lemma validate_name_ok (raw n : string) :
  Channel.validate_name raw = Ok n ->
  Channel.nameRegex_test n = true /\ 3 <= String.length n <= 50.
Proof.
  unfold Channel.validate_name.
  destruct (String.eqb _ ""); [discriminate|].
  destruct (String.length _ <? 3) eqn:L3; [discriminate|].
  destruct (50 <? String.length _) eqn:L50; [discriminate|].
  destruct (negb (Channel.nameRegex_test _)) eqn:R; [discriminate|].
  intros H. inversion H; subst; clear H.
  apply negb_false_iff in R. apply Nat.ltb_ge in L3, L50. auto.
Qed.

(** What [Channel.create] gives when it succeeds. *)
Lemma create_result
      (cs : list Channel.t) (fresh : ObjectId) (now : Z) (raw ty : string)
      (creator : ObjectId) (ms : list ObjectId) (c : Channel.t) :
  Channel.create cs fresh now raw ty creator ms = Ok c ->
  Channel._id c = fresh
  /\ Channel.validate_name raw = Ok (Channel.name c)
  /\ Channel.validate_type ty = Ok (Channel.type c)
  /\ ~ In (Channel.name c) (map Channel.name cs)
  /\ Channel.created_by c = creator
  /\ Channel.members c = (if includes ms creator then ms else ms ++ [creator]).
Proof.
  unfold Channel.create.
  destruct (Channel.validate_name raw) as [n|]; [|discriminate].
  destruct (Channel.validate_type ty) as [t|]; [|discriminate].
  destruct (existsb _ cs) eqn:E; [discriminate|].
  intros H. inversion H; subst; clear H. simpl.
  repeat split; try reflexivity.
  intros Hin. apply in_map_iff in Hin. destruct Hin as [d [Hd Hin]].
  assert (existsb (fun c => String.eqb (Channel.name c) n) cs = true).
  { apply existsb_exists. exists d. split; [assumption|].
    now apply String.eqb_eq. }
  congruence.
Qed.

Lemma public_count_map (cs cs' : list Channel.t) :
  map Channel.type cs = map Channel.type cs' ->
  List.length (filter (fun c => Channel.type_eqb (Channel.type c) Channel.public) cs)
  = List.length (filter (fun c => Channel.type_eqb (Channel.type c) Channel.public) cs').
Proof.
  revert cs'. induction cs as [|c cs IH]; intros [|c' cs'] H;
    try discriminate; [reflexivity|].
  simpl in H. inversion H as [[Ht Hr]]. simpl. rewrite Ht.
  destruct (Channel.type_eqb _ _); simpl; auto.
Qed.

Lemma directory_keys_save (db : Db) (c c' : Channel.t) :
  directory_keys db ->
  In c (channels db) ->
  Channel._id c' = Channel._id c ->
  Channel.name c' = Channel.name c ->
  Channel.type c' = Channel.type c ->
  directory_keys (set_channels (Channel.save (channels db) c') db).
Proof.
  intros [Hid [Hn Hp]] Hin E1 E2 E3. unfold directory_keys, public_count.
  cbn [channels set_channels].
  rewrite channel_save_ids.
  rewrite (@channel_save_same _ Channel.name _ _ _ Hid Hin E1 E2).
  rewrite (@public_count_map _ (channels db)
             (@channel_save_same _ Channel.type _ _ _ Hid Hin E1 E3)).
  auto.
Qed.

Lemma directory_keys_delete (db : Db) (id : ObjectId) :
  directory_keys db ->
  directory_keys
    (set_channels (Channel.findByIdAndDelete (channels db) id) db).
Proof.
  intros [Hid [Hn Hp]]. unfold directory_keys, public_count.
  cbn [channels set_channels]. unfold Channel.findByIdAndDelete.
  split; [now apply NoDup_map_filter|]. split; [now apply NoDup_map_filter|].
  pose proof (filter_delete_le
                (fun c => Channel.type_eqb (Channel.type c) Channel.public)
                (channels db) id) as H.
  unfold Channel.findByIdAndDelete in H. unfold public_count in Hp. lia.
Qed.

Lemma directory_keys_snoc (db : Db) (c : Channel.t) :
  directory_keys db ->
  ~ In (Channel._id c) (map Channel._id (channels db)) ->
  ~ In (Channel.name c) (map Channel.name (channels db)) ->
  (Channel.type c = Channel.public -> public_count db < 10) ->
  directory_keys (set_channels (channels db ++ [c]) db).
Proof.
  intros [Hid [Hn Hp]] Hi Hnm Hlim. unfold directory_keys, public_count.
  cbn [channels set_channels]. rewrite !map_app, filter_app, length_app.
  simpl. split; [now apply NoDup_snoc|]. split; [now apply NoDup_snoc|].
  unfold public_count in *.
  destruct (Channel.type c); simpl; [specialize (Hlim eq_refl)|]; lia.
Qed.

Lemma route_keys (db : Db) (r : ChannelRequest) :
  directory_keys db -> fresh_for db r -> directory_keys (route db r).
Proof.
  intros H Hfresh.
  destruct r as [me n ty fresh now | me id | me id | me id
                | me other fresh now]; cbn [route fresh_for] in *.
  - unfold Http.createChannel. destruct n as [n|]; [|assumption].
    destruct (blank (Some n)); [assumption|].
    destruct (negb (Channel.nameRegex_test n)); [assumption|].
    destruct (existsb _ _); [assumption|].
    destruct (String.eqb _ "public" && Channel.isChannelLimitReached _) eqn:L;
      [assumption|].
    destruct (Channel.create _ _ _ _ _ _ _) as [c|e] eqn:C; [|assumption].
    destruct (@create_result _ _ _ _ _ _ _ _ C) as [Hi [_ [Ht [Hn _]]]].
    cbn [fst]. apply directory_keys_snoc; try assumption; [now rewrite Hi|].
    intros Hpub. rewrite Hpub in Ht. unfold Channel.validate_type in Ht.
    destruct (String.eqb _ "public") eqn:P.
    + cbn [andb] in L. unfold Channel.isChannelLimitReached in L.
      apply Nat.leb_gt in L. exact L.
    + destruct (String.eqb _ "dm"); discriminate.
  - unfold Http.joinChannel.
    destruct (Channel.findById _ _) as [channel|] eqn:F; [|assumption].
    destruct (negb (Channel.type_eqb _ _)); [assumption|].
    destruct (includes _ _); [assumption|].
    destruct (find_by_id_sound Channel._id _ _ F) as [Hin _].
    now apply directory_keys_save with (c := channel).
  - unfold Http.leaveChannel.
    destruct (Channel.findById _ _) as [channel|] eqn:F; [|assumption].
    destruct (negb (Channel.type_eqb _ _)); [assumption|].
    destruct (negb (includes _ _)); [assumption|].
    destruct (find_by_id_sound Channel._id _ _ F) as [Hin _].
    match goal with
    | |- context [List.length ?l =? 0] => destruct (List.length l =? 0)
    end; cbn [fst].
    + now apply directory_keys_delete.
    + apply directory_keys_save with (c := channel); try assumption;
        destruct (_ && _); try reflexivity;
        destruct (Http.oldestMember db channel me); reflexivity.
  - unfold Http.deleteChannel. destruct (User.role me); [|assumption].
    destruct (Channel.findById _ _) as [channel|]; [|assumption].
    destruct (String.eqb _ _); [assumption|].
    cbn [fst]. apply (@directory_keys_delete db id) in H.
    destruct H as [H1 [H2 H3]]. repeat split; assumption.
  - unfold Http.createDmChannel.
    destruct (User.findById _ _); [|assumption].
    destruct (Channel.findDmChannel _ _ _); [assumption|].
    destruct (Channel.create _ _ _ _ _ _ _) as [c|e] eqn:C; [|assumption].
    destruct (@create_result _ _ _ _ _ _ _ _ C) as [Hi [_ [Ht [Hn _]]]].
    cbn [fst]. apply directory_keys_snoc; try assumption; [now rewrite Hi|].
    intros Hpub. rewrite Hpub in Ht. discriminate.
Qed.

(** X15.  Starting from channels with pairwise distinct ids and names, at
    most 10 of them public, and serving any requests of the channel routes
    whose new ids are new: the ids and the names stay pairwise distinct and
    the public channels never exceed 10. *)
Theorem directory_keys_kept (db : Db) (rs : list ChannelRequest) :
  directory_keys db -> served_fresh db rs -> directory_keys (serve db rs).
Proof.
  unfold serve. revert db.
  induction rs as [|r rs IH]; simpl; intros db H Hf; [assumption|].
  destruct Hf as [Hr Hrest]. apply IH; [|assumption].
  now apply route_keys.
Qed.

Lemma sample_directory_keys : directory_keys Sample.db1.
Proof.
  unfold directory_keys, public_count. simpl.
  split; [|split; [|lia]];
    repeat constructor; simpl; intuition discriminate.
Qed.

(** Bob creates a channel, Carol joins it, Bob leaves it. *)
Lemma directory_keys_kept_witness :
  directory_keys
    (serve Sample.db1
       [PostChannel Sample.bob (Some "random") None Sample.fresh_id 9000;
        PostJoin Sample.carol Sample.fresh_id;
        PostLeave Sample.bob Sample.fresh_id]).
Proof.
  apply (@directory_keys_kept Sample.db1); [exact sample_directory_keys|].
  simpl. split; [|tauto]. intros [H | [H | [H | []]]]; discriminate H.
Defined.

Lemma create_members_public
      (cs : list Channel.t) (fresh : ObjectId) (now : Z) (raw ty : string)
      (me : ObjectId) (ms : list ObjectId) (c : Channel.t) :
  Channel.create cs fresh now raw ty me ms = Ok c ->
  NoDup ms -> NoDup (Channel.members c).
Proof.
  intros C Hms. destruct (@create_result _ _ _ _ _ _ _ _ C)
    as [_ [_ [_ [_ [_ Hm]]]]].
  rewrite Hm. destruct (includes ms me) eqn:E; [assumption|].
  apply NoDup_snoc; [assumption|]. intros Hin.
  apply includes_In in Hin. congruence.
Qed.

Lemma directory_shape_snoc (db : Db) (c : Channel.t) (raw : string) :
  directory_shape db ->
  Channel.validate_name raw = Ok (Channel.name c) ->
  NoDup (Channel.members c) ->
  directory_shape (set_channels (channels db ++ [c]) db).
Proof.
  intros H Hn Hm x Hx. cbn [channels set_channels] in Hx.
  apply in_app_or in Hx. destruct Hx as [Hx | [<- | []]]; [now apply H|].
  destruct (validate_name_ok _ Hn) as [Hr Hl]. auto.
Qed.

Lemma directory_shape_save (db : Db) (c c' : Channel.t) :
  directory_shape db ->
  In c (channels db) ->
  Channel.name c' = Channel.name c ->
  (Channel.type c' = Channel.public -> NoDup (Channel.members c')) ->
  directory_shape (set_channels (Channel.save (channels db) c') db).
Proof.
  intros H Hin Hn Hm x Hx. cbn [channels set_channels] in Hx.
  apply in_save in Hx. destruct Hx as [-> | Hx]; [|now apply H].
  destruct (H _ Hin) as [Hr [Hl _]]. rewrite Hn. auto.
Qed.

Lemma route_shape (db : Db) (r : ChannelRequest) :
  directory_shape db -> directory_shape (route db r).
Proof.
  intros H.
  destruct r as [me n ty fresh now | me id | me id | me id
                | me other fresh now]; cbn [route].
  - unfold Http.createChannel. destruct n as [n|]; [|assumption].
    destruct (blank (Some n)); [assumption|].
    destruct (negb (Channel.nameRegex_test n)); [assumption|].
    destruct (existsb _ _); [assumption|].
    destruct (_ && Channel.isChannelLimitReached _); [assumption|].
    destruct (Channel.create _ _ _ _ _ _ _) as [c|e] eqn:C; [|assumption].
    destruct (@create_result _ _ _ _ _ _ _ _ C) as [_ [Hn _]].
    cbn [fst]. eapply directory_shape_snoc; [assumption | eassumption|].
    eapply create_members_public; [eassumption|].
    constructor; [intros [] | constructor].
  - unfold Http.joinChannel.
    destruct (Channel.findById _ _) as [channel|] eqn:F; [|assumption].
    destruct (negb (Channel.type_eqb _ _)) eqn:T; [assumption|].
    destruct (includes _ _) eqn:I; [assumption|].
    destruct (find_by_id_sound Channel._id _ _ F) as [Hin _].
    cbn [fst]. apply directory_shape_save with (c := channel);
      [assumption | assumption | reflexivity|].
    intros _. cbn [Channel.members Channel.set_members].
    apply NoDup_snoc.
    + apply (H _ Hin). now apply type_eqb_public.
    + intros Hm. apply includes_In in Hm. congruence.
  - unfold Http.leaveChannel.
    destruct (Channel.findById _ _) as [channel|] eqn:F; [|assumption].
    destruct (negb (Channel.type_eqb _ _)) eqn:T; [assumption|].
    destruct (negb (includes _ _)); [assumption|].
    destruct (find_by_id_sound Channel._id _ _ F) as [Hin _].
    match goal with
    | |- context [List.length ?l =? 0] => destruct (List.length l =? 0)
    end; cbn [fst].
    + intros x Hx. cbn [channels set_channels] in Hx.
      apply filter_In in Hx. apply H. tauto.
    + apply directory_shape_save with (c := channel); [assumption | assumption | |].
      * destruct (_ && _); [|reflexivity].
        destruct (Http.oldestMember db channel me); reflexivity.
      * intros _. cbn [Channel.members Channel.set_members].
        apply NoDup_filter.
        assert (Hm : NoDup (Channel.members channel))
          by (apply (H _ Hin); now apply type_eqb_public).
        destruct (_ && _); [|assumption].
        destruct (Http.oldestMember db channel me); assumption.
  - unfold Http.deleteChannel. destruct (User.role me); [|assumption].
    destruct (Channel.findById _ _) as [channel|]; [|assumption].
    destruct (String.eqb _ _); [assumption|].
    cbn [fst]. intros x Hx. cbn [channels set_channels set_messages] in Hx.
    apply filter_In in Hx. apply H. tauto.
  - unfold Http.createDmChannel.
    destruct (User.findById _ _); [|assumption].
    destruct (Channel.findDmChannel _ _ _); [assumption|].
    destruct (Channel.create _ _ _ _ _ _ _) as [c|e] eqn:C; [|assumption].
    destruct (@create_result _ _ _ _ _ _ _ _ C) as [_ [Hn [Ht _]]].
    cbn [fst]. intros x Hx. cbn [channels set_channels] in Hx.
    apply in_app_or in Hx. destruct Hx as [Hx | [<- | []]]; [now apply H|].
    destruct (validate_name_ok _ Hn) as [Hr Hl].
    split; [assumption|]. split; [assumption|].
    intros Hp. rewrite Hp in Ht. discriminate.
Qed.

(** X16.  If every channel has a name of 3 to 50 characters among
    [a-z0-9-_] and every public channel lists each of its members once, so
    it is after any requests the channel routes serve. *)
Theorem directory_shape_kept (db : Db) (rs : list ChannelRequest) :
  directory_shape db -> directory_shape (serve db rs).
Proof.
  unfold serve. revert db.
  induction rs as [|r rs IH]; simpl; intros db H; [assumption|].
  apply IH. now apply route_shape.
Qed.

Lemma sample_directory_shape : directory_shape Sample.db1.
Proof.
  intros c [<- | [<- | [<- | []]]]; simpl;
    (split; [reflexivity|]); (split; [lia|]); intros _;
    repeat constructor; simpl; intuition discriminate.
Qed.

Lemma directory_shape_kept_witness :
  directory_shape
    (serve Sample.db1
       [PostChannel Sample.bob (Some "random") None Sample.fresh_id 9000;
        PostJoin Sample.carol Sample.fresh_id;
        PostJoin Sample.carol Sample.fresh_id;
        PostLeave Sample.bob Sample.fresh_id]).
Proof.
  apply (@directory_shape_kept Sample.db1). exact sample_directory_shape.
Defined.

Lemma filter_out_joined (ms : list ObjectId) (me : ObjectId) :
  ~ In me ms ->
  filter (fun memberId => negb (String.eqb memberId me)) (ms ++ [me]) = ms.
Proof.
  intros Hn. rewrite filter_app. simpl. rewrite String.eqb_refl. simpl.
  rewrite app_nil_r. induction ms as [|x ms IH]; simpl; [reflexivity|].
  destruct (String.eqb x me) eqn:E.
  - apply String.eqb_eq in E. subst. exfalso. apply Hn. now left.
  - simpl. f_equal. apply IH. intros H. apply Hn. now right.
Qed.

(** X17.  On channels with pairwise distinct ids, a user who joins a
    public channel (that has members and was created by someone else) and
    then leaves it gets status 200 twice.  The channel then has the name,
    the type, the creator, the members and the creation time it had before
    the two requests, and every other channel, the users, the messages and
    the notifications are as they were. *)
Theorem join_then_leave
        (db : Db) (me : User.t) (id : ObjectId) (channel : Channel.t) :
  NoDup (map Channel._id (channels db)) ->
  Channel.findById (channels db) id = Some channel ->
  Channel.type channel = Channel.public ->
  ~ In (User._id me) (Channel.members channel) ->
  Channel.members channel <> [] ->
  Channel.created_by channel <> User._id me ->
  exists db1 c1 db2 c2,
    Http.joinChannel db me id = (db1, Json 200 c1)
    /\ Channel.members c1 = Channel.members channel ++ [User._id me]
    /\ Channel.findById (channels db1) id = Some c1
    /\ Http.leaveChannel db1 me id = (db2, Json 200 Http.left_message)
    /\ Channel.findById (channels db2) id = Some c2
    /\ Channel.name c2 = Channel.name channel
    /\ Channel.type c2 = Channel.type channel
    /\ Channel.created_by c2 = Channel.created_by channel
    /\ Channel.members c2 = Channel.members channel
    /\ Channel.created_at c2 = Channel.created_at channel
    /\ (forall j, j <> id ->
          Channel.findById (channels db2) j = Channel.findById (channels db) j)
    /\ users db2 = users db
    /\ messages db2 = messages db
    /\ notifications db2 = notifications db.
Proof.
  intros Hnd Hf Hty Hnin Hne Hcr.
  set (c1 := Channel.set_members (Channel.members channel ++ [User._id me])
                                 channel).
  assert (Hf1 : Channel.findById (Channel.save (channels db) c1) id = Some c1)
    by (eapply channel_find_after_save; [eassumption | reflexivity]).
  exists (set_channels (Channel.save (channels db) c1) db), c1, db, channel.
  split; [|split; [reflexivity|split; [exact Hf1|]]].
  - unfold Http.joinChannel. rewrite Hf, Hty. cbn [Channel.type_eqb negb].
    destruct (includes (Channel.members channel) (User._id me)) eqn:I;
      [apply includes_In in I; contradiction | reflexivity].
  - split; [|now repeat split].
    unfold Http.leaveChannel. cbn [channels set_channels]. rewrite Hf1.
    cbn [Channel.type c1 Channel.set_members]. unfold c1 at 1.
    cbn [Channel.type Channel.set_members]. rewrite Hty.
    cbn [Channel.type_eqb negb].
    assert (Hin : includes (Channel.members c1) (User._id me) = true).
    { apply includes_In. unfold c1. simpl. apply in_or_app. right. now left. }
    rewrite Hin. cbn [negb].
    assert (Hc : String.eqb (Channel.created_by c1) (User._id me) = false)
      by (apply String.eqb_neq; exact Hcr).
    rewrite Hc. cbn [andb].
    assert (Hfilter :
      filter (fun memberId => negb (String.eqb memberId (User._id me)))
             (Channel.members c1) = Channel.members channel).
    { unfold c1. cbn [Channel.members Channel.set_members].
      now apply filter_out_joined. }
    rewrite Hfilter.
    assert (Hback : Channel.set_members (Channel.members channel) c1 = channel)
      by (unfold c1; now destruct channel).
    rewrite Hback.
    assert (Hlen : (List.length (Channel.members channel) =? 0) = false)
      by (destruct (Channel.members channel); [contradiction | reflexivity]).
    rewrite Hlen.
    rewrite (@channel_save_back (channels db) id channel c1 Hnd Hf eq_refl).
    now destruct db.
Qed.

(** Bob joins [general], which Alice created, and leaves it again. *)
Lemma join_then_leave_witness :
  exists db1 c1 db2 c2,
    Http.joinChannel Sample.db0 Sample.bob Sample.general_id
    = (db1, Json 200 c1)
    /\ Channel.members c1 = [User._id Sample.alice; User._id Sample.bob]
    /\ Http.leaveChannel db1 Sample.bob Sample.general_id
       = (db2, Json 200 Http.left_message)
    /\ Channel.findById (channels db2) Sample.general_id = Some c2
    /\ Channel.members c2 = [User._id Sample.alice]
    /\ Channel.created_by c2 = User._id Sample.alice.
Proof.
  destruct (@join_then_leave Sample.db0 Sample.bob Sample.general_id
              Sample.general)
    as [db1 [c1 [db2 [c2 [H1 [H2 [_ [H3 [H4 [_ [_ [H5 [H6 _]]]]]]]]]]]]].
  - simpl. repeat constructor. intros [].
  - reflexivity.
  - reflexivity.
  - intros [H | []]. discriminate H.
  - discriminate.
  - discriminate.
  - exists db1, c1, db2, c2. repeat split; assumption.
Defined.

(** ** Channel names *)

Lemma string_app_nil (s : string) : (s ++ "")%string = s.
Proof. induction s as [|c s IH]; simpl; [reflexivity | now rewrite IH]. Qed.

Lemma string_app_assoc (a b c : string) :
  ((a ++ b) ++ c)%string = (a ++ (b ++ c))%string.
Proof. induction a as [|x a IH]; simpl; [reflexivity | now rewrite IH]. Qed.

Lemma rev_snoc (s : string) (c : ascii) :
  Js.rev (s ++ String c "")%string = String c (Js.rev s).
Proof.
  induction s as [|x s IH]; simpl; [reflexivity|]. now rewrite IH.
Qed.

Lemma rev_rev (s : string) : Js.rev (Js.rev s) = s.
Proof.
  induction s as [|c s IH]; simpl; [reflexivity|].
  now rewrite rev_snoc, IH.
Qed.

Lemma name_char_plain (c : ascii) :
  Channel.name_char c = true -> is_space c = false /\ lower_char c = c.
Proof.
  destruct c as [[] [] [] [] [] [] [] []]; vm_compute; intros H;
    try discriminate H; split; reflexivity.
Qed.

Lemma all_name_chars_snoc (s : string) (c : ascii) :
  Channel.all_name_chars (s ++ String c "")%string
  = Channel.all_name_chars s && Channel.name_char c.
Proof.
  induction s as [|x s IH]; simpl.
  - now rewrite andb_true_r.
  - rewrite IH. now rewrite andb_assoc.
Qed.

Lemma all_name_chars_rev (s : string) :
  Channel.all_name_chars (Js.rev s) = Channel.all_name_chars s.
Proof.
  induction s as [|c s IH]; simpl; [reflexivity|].
  rewrite all_name_chars_snoc, IH. apply andb_comm.
Qed.

Lemma trimStart_name (s : string) :
  Channel.all_name_chars s = true -> trimStart s = s.
Proof.
  destruct s as [|c s]; simpl; [reflexivity|]. intros H.
  apply andb_true_iff in H. destruct H as [H _].
  apply name_char_plain in H. destruct H as [H _]. now rewrite H.
Qed.

(** A name of characters among [a-z0-9-_] is left alone by the setters
    [trim] and [lowercase]. *)
Lemma name_setters_fixed (s : string) :
  Channel.all_name_chars s = true -> trim s = s /\ toLowerCase s = s.
Proof.
  intros H. split.
  - unfold trim. rewrite (trimStart_name _ H).
    rewrite trimStart_name by now rewrite all_name_chars_rev.
    apply rev_rev.
  - induction s as [|c s IH]; simpl; [reflexivity|].
    simpl in H. apply andb_true_iff in H. destruct H as [Hc Hs].
    apply name_char_plain in Hc. destruct Hc as [_ Hc].
    now rewrite Hc, IH.
Qed.

(** X18.  A request for a public channel under a name of characters among
    [a-z0-9-_] that no channel has: with 3 to 50 characters it creates the
    channel, with the requester as creator and only member, as long as
    fewer than 10 public channels exist, and is refused with the limit error
    from the tenth on; with fewer than 3 or more than 50 characters it
    passes the checks of the controller and is refused by the schema. *)
Theorem createChannel_outcome
        (db : Db) (me : User.t) (n : string) (fresh : ObjectId) (now : Z) :
  Channel.nameRegex_test n = true ->
  ~ In n (map Channel.name (channels db)) ->
  (3 <= String.length n <= 50 ->
   (public_count db < 10 ->
    Http.createChannel db me (Some n) None fresh now
    = (set_channels
         (channels db ++
          [Channel.mk fresh n Channel.public (User._id me) [User._id me] now])
         db,
       Json 201
         (Channel.mk fresh n Channel.public (User._id me) [User._id me] now)))
   /\ (10 <= public_count db ->
       Http.createChannel db me (Some n) None fresh now
       = (db, Next (AppError "Channel limit reached (max 10 public channels)"
                             400))))
  /\ (public_count db < 10 ->
      (String.length n < 3 ->
       Http.createChannel db me (Some n) None fresh now
       = (db, Next (ValidationError
                      "Channel name must be at least 3 characters")))
      /\ (50 < String.length n ->
          Http.createChannel db me (Some n) None fresh now
          = (db, Next (ValidationError
                         "Channel name cannot exceed 50 characters")))).
Proof.
  intros Hre Hfree.
  assert (Hne : String.eqb n "" = false /\ Channel.all_name_chars n = true).
  { unfold Channel.nameRegex_test in Hre. apply andb_true_iff in Hre.
    destruct Hre as [H1 H2]. apply negb_true_iff in H1. auto. }
  destruct Hne as [Hne Hall].
  destruct (name_setters_fixed _ Hall) as [Htrim Hlow].
  assert (Hblank : blank (Some n) = false).
  { simpl. now rewrite Htrim, Hne. }
  assert (Htaken : forall cs, ~ In n (map Channel.name cs) ->
            existsb (fun c => String.eqb (Channel.name c) n) cs = false).
  { intros cs Hn. destruct (existsb _ cs) eqn:E; [|reflexivity].
    apply existsb_exists in E. destruct E as [c [Hc He]].
    apply String.eqb_eq in He. exfalso. apply Hn. rewrite <- He.
    now apply in_map. }
  assert (Hcreate :
    Http.createChannel db me (Some n) None fresh now
    = if Channel.isChannelLimitReached (channels db)
      then (db, Next (AppError "Channel limit reached (max 10 public channels)"
                               400))
      else match Channel.create (channels db) fresh now n "public"
                   (User._id me) [User._id me] with
           | Fail e => (db, Next e)
           | Ok channel =>
               (set_channels (channels db ++ [channel]) db, Json 201 channel)
           end).
  { unfold Http.createChannel. rewrite Hblank, Hre, Hlow.
    rewrite (Htaken _ Hfree). cbn [negb String.eqb Ascii.eqb Bool.eqb andb].
    reflexivity. }
  rewrite Hcreate. unfold Channel.isChannelLimitReached.
  fold (public_count db).
  unfold Channel.create, Channel.validate_name. rewrite Htrim, Hlow, Hne.
  split.
  - intros [H3 H50]. split.
    + intros Hlt. apply Nat.leb_gt in Hlt. rewrite Hlt.
      assert (L3 : (String.length n <? 3) = false) by (apply Nat.ltb_ge; lia).
      assert (L50 : (50 <? String.length n) = false)
        by (apply Nat.ltb_ge; lia).
      rewrite L3, L50, Hre. cbn [negb Channel.validate_type String.eqb
                                  Ascii.eqb Bool.eqb].
      rewrite (Htaken _ Hfree). unfold includes. cbn [existsb].
      now rewrite String.eqb_refl.
    + intros Hge. apply Nat.leb_le in Hge. now rewrite Hge.
  - intros Hlt. apply Nat.leb_gt in Hlt. rewrite Hlt. split.
    + intros H3. apply Nat.ltb_lt in H3. now rewrite H3.
    + intros H50.
      assert (L3 : (String.length n <? 3) = false) by (apply Nat.ltb_ge; lia).
      apply Nat.ltb_lt in H50. now rewrite L3, H50.
Qed.

(** Bob asks for [random], and for [ab]. *)
Lemma createChannel_outcome_witness :
  (exists c,
     Http.createChannel Sample.db1 Sample.bob (Some "random") None
       Sample.fresh_id 9000
     = (set_channels (channels Sample.db1 ++ [c]) Sample.db1, Json 201 c)
     /\ Channel.members c = [User._id Sample.bob])
  /\ Http.createChannel Sample.db1 Sample.bob (Some "ab") None Sample.fresh_id
       9000
     = (Sample.db1,
        Next (ValidationError "Channel name must be at least 3 characters")).
Proof.
  split.
  - destruct (@createChannel_outcome Sample.db1 Sample.bob "random"
                Sample.fresh_id 9000%Z) as [H _].
    + reflexivity.
    + simpl. intuition discriminate.
    + destruct H as [H _]; [simpl; lia|].
      eexists. split; [apply H; unfold public_count; simpl; lia|reflexivity].
  - destruct (@createChannel_outcome Sample.db1 Sample.bob "ab"
                Sample.fresh_id 9000%Z) as [_ H].
    + reflexivity.
    + simpl. intuition discriminate.
    + destruct H as [H _]; [unfold public_count; simpl; lia|].
      apply H. simpl. lia.
Defined.

(** ** Deleting a channel and leaving it as its last member *)

(** X19.  A channel is only deleted for an administrator and never under
    the name [general].  The deletion removes the channel and every message
    of it, and keeps every other message, the users and the
    notifications. *)
Theorem deleteChannel_cascade
        (db db' : Db) (me : User.t) (id : ObjectId) (status : nat) :
  Http.deleteChannel db me id = (db', Json status tt) ->
  User.role me = User.admin
  /\ (exists channel,
        Channel.findById (channels db) id = Some channel
        /\ Channel.name channel <> "general")
  /\ Channel.findById (channels db') id = None
  /\ (forall m, In m (messages db')
                <-> In m (messages db) /\ Message.channel_id m <> id)
  /\ users db' = users db
  /\ notifications db' = notifications db.
Proof.
  unfold Http.deleteChannel.
  destruct (User.role me) eqn:R; [|discriminate].
  destruct (Channel.findById _ _) as [channel|] eqn:F; [|discriminate].
  destruct (String.eqb _ "general") eqn:G; [discriminate|].
  intros H. inversion H; subst; clear H.
  split; [reflexivity|]. split.
  { exists channel. split; [reflexivity | now apply String.eqb_neq]. }
  cbn [channels messages users notifications set_messages set_channels].
  split; [apply find_after_delete|]. split; [|split; reflexivity].
  intros m. rewrite filter_In, negb_true_iff, String.eqb_neq. reflexivity.
Qed.

(** The administrator Alice deletes [team]. *)
Lemma deleteChannel_cascade_witness :
  exists db',
    Http.deleteChannel Sample.db1 Sample.alice Sample.team_id
    = (db', Json 200 tt)
    /\ Channel.findById (channels db') Sample.team_id = None
    /\ users db' = users Sample.db1.
Proof.
  eexists.
  assert (H : Http.deleteChannel Sample.db1 Sample.alice Sample.team_id
              = (fst (Http.deleteChannel Sample.db1 Sample.alice Sample.team_id),
                 Json 200 tt)) by reflexivity.
  destruct (deleteChannel_cascade _ _ _ H) as [_ [_ [Hgone [_ [Hu _]]]]].
  split; [exact H|]. split; [exact Hgone | exact Hu].
Defined.

(** X20.  When the last member leaves a public channel, the channel is
    deleted and nothing else: its messages stay stored, and nobody can list
    them or post to the channel any more, since both requests now answer
    that the channel is not found. *)
Theorem last_leave_orphans_messages
        (db : Db) (me : User.t) (id : ObjectId) (channel : Channel.t) :
  Channel.findById (channels db) id = Some channel ->
  Channel.type channel = Channel.public ->
  In (User._id me) (Channel.members channel) ->
  remaining_members channel (User._id me) = [] ->
  Http.leaveChannel db me id
  = (set_channels (Channel.findByIdAndDelete (channels db) id) db,
     Json 200 Http.deleted_message)
  /\ messages (fst (Http.leaveChannel db me id)) = messages db
  /\ (forall viewer page limit,
        MessageController.getChannelMessages (fst (Http.leaveChannel db me id))
          viewer id page limit
        = Next (AppError "Channel not found" 404))
  /\ (forall viewer s tp fresh now,
        blank (Some s) = false ->
        String.length s <= 2000 ->
        Http.createMessage (fst (Http.leaveChannel db me id)) viewer
          (Some s) (Some id) tp None fresh now
        = (fst (Http.leaveChannel db me id),
           Next (AppError "Channel not found" 404))).
Proof.
  intros Hc Hty Hin Hrem.
  destruct (leaveChannel_passed db me id Hc Hty Hin) as [creator [_ [_ H]]].
  rewrite Hrem in H. cbn [List.length Nat.eqb] in H. rewrite H.
  cbn [fst messages set_messages set_channels channels].
  assert (Hgone : Channel.findById (Channel.findByIdAndDelete (channels db) id)
                                   id = None) by apply find_after_delete.
  split; [reflexivity|]. split; [reflexivity|]. split.
  - intros viewer page limit. unfold MessageController.getChannelMessages.
    cbn [channels set_channels]. now rewrite Hgone.
  - intros viewer s tp fresh now Hb Hl. unfold Http.createMessage.
    rewrite Hb. cbn [andb].
    assert (L : (2000 <? String.length s) = false) by (apply Nat.ltb_ge; lia).
    rewrite L, andb_false_r. cbn [channels set_channels]. now rewrite Hgone.
Qed.

(** Alice, the only member of [general], leaves it. *)
Lemma last_leave_orphans_messages_witness :
  Http.leaveChannel Sample.db0 Sample.alice Sample.general_id
  = (set_channels
       (Channel.findByIdAndDelete (channels Sample.db0) Sample.general_id)
       Sample.db0,
     Json 200 Http.deleted_message)
  /\ messages (fst (Http.leaveChannel Sample.db0 Sample.alice Sample.general_id))
     = [Sample.m1; Sample.m2; Sample.m3; Sample.m4].
Proof.
  destruct (@last_leave_orphans_messages Sample.db0 Sample.alice
              Sample.general_id Sample.general eq_refl eq_refl)
    as [H1 [H2 _]].
  - simpl. auto.
  - reflexivity.
  - split; [exact H1 | exact H2].
Defined.

(** ** Notifications *)

Lemma notification_find_save_other (ns : list Notification.t)
      (c : Notification.t) (j : ObjectId) :
  Notification._id c <> j ->
  NotificationController.Notification_findById
    (NotificationController.Notification_save ns c) j
  = NotificationController.Notification_findById ns j.
Proof.
  intros Hne. unfold NotificationController.Notification_findById,
    NotificationController.Notification_save.
  induction ns as [|d ns IH]; simpl; [reflexivity|].
  destruct (String.eqb (Notification._id d) (Notification._id c)) eqn:E.
  - apply String.eqb_eq in E. apply String.eqb_neq in Hne.
    rewrite Hne. rewrite E, Hne. exact IH.
  - destruct (String.eqb (Notification._id d) j); [reflexivity | exact IH].
Qed.

(** X21.  A single notification is only marked as read for its recipient:
    anybody else is refused with status 403 and the database is left as it
    was.  For the recipient the notification found under the id afterwards
    has the read flag set and its other fields as they were, what is found
    under any other id is as before, and users, channels and messages are
    untouched. *)
Theorem markOneAsRead_only_own
        (db : Db) (me : User.t) (id : ObjectId) (n : Notification.t) :
  NotificationController.Notification_findById (notifications db) id = Some n ->
  (Notification.recipient_id n <> User._id me ->
   NotificationController.markOneAsRead db me id
   = (db, Next (AppError "Not authorized to mark this notification as read"
                         403)))
  /\ (Notification.recipient_id n = User._id me ->
      snd (NotificationController.markOneAsRead db me id) = Json 200 tt
      /\ (exists n',
            NotificationController.Notification_findById
              (notifications
                 (fst (NotificationController.markOneAsRead db me id))) id
            = Some n'
            /\ Notification.marked n n')
      /\ (forall j, j <> id ->
            NotificationController.Notification_findById
              (notifications
                 (fst (NotificationController.markOneAsRead db me id))) j
            = NotificationController.Notification_findById (notifications db) j)
      /\ users (fst (NotificationController.markOneAsRead db me id)) = users db
      /\ channels (fst (NotificationController.markOneAsRead db me id))
         = channels db
      /\ messages (fst (NotificationController.markOneAsRead db me id))
         = messages db).
Proof.
  intros Hf. unfold NotificationController.markOneAsRead. rewrite Hf.
  destruct (find_by_id_sound Notification._id _ _ Hf) as [_ Hid].
  split.
  - intros Hne. apply String.eqb_neq in Hne. now rewrite Hne.
  - intros He. rewrite He, String.eqb_refl. cbn [negb fst snd].
    split; [reflexivity|].
    cbn [notifications users channels messages set_notifications].
    split; [|split; [|repeat split]].
    + exists (Notification.set_read n). split; [|apply set_read_marked].
      unfold NotificationController.Notification_findById,
        NotificationController.Notification_save in *.
      rewrite <- Hid in Hf |- *.
      exact (@find_after_save _ Notification._id (notifications db) n
               (Notification.set_read n) Hf).
    + intros j Hj. apply notification_find_save_other.
      cbn. rewrite Hid. congruence.
Qed.

(** Bob and Alice on the notification [n1], which is Alice's and unread. *)
Lemma markOneAsRead_only_own_witness :
  NotificationController.markOneAsRead Sample.db2 Sample.bob Sample.n1_id
  = (Sample.db2,
     Next (AppError "Not authorized to mark this notification as read" 403))
  /\ Notification.is_read
       (Sample.notification Sample.n1_id (User._id Sample.alice)) = false
  /\ exists n',
       NotificationController.Notification_findById
         (notifications
            (fst (NotificationController.markOneAsRead Sample.db2 Sample.alice
                    Sample.n1_id))) Sample.n1_id
       = Some n'
       /\ Notification.is_read n' = true.
Proof.
  split; [|split; [reflexivity|]].
  - destruct (@markOneAsRead_only_own Sample.db2 Sample.bob Sample.n1_id
                (Sample.notification Sample.n1_id (User._id Sample.alice))
                eq_refl) as [H _].
    apply H. discriminate.
  - destruct (@markOneAsRead_only_own Sample.db2 Sample.alice Sample.n1_id
                (Sample.notification Sample.n1_id (User._id Sample.alice))
                eq_refl) as [_ H].
    destruct (H eq_refl) as [_ [[n' [H1 H2]] _]].
    exists n'. split; [exact H1 | apply H2].
Defined.

Lemma matches_all (me : ObjectId) (n : Notification.t) :
  Notification.matches me [] n = String.eqb (Notification.recipient_id n) me.
Proof. unfold Notification.matches. apply andb_true_r. Qed.

Lemma unreadCount_after_markAll (ns : list Notification.t) (me u : ObjectId) :
  List.length
    (filter (fun n => String.eqb (Notification.recipient_id n) u
                      && negb (Notification.is_read n))
            (Notification.updateMany ns me []))
  = if String.eqb u me then 0
    else List.length
           (filter (fun n => String.eqb (Notification.recipient_id n) u
                             && negb (Notification.is_read n)) ns).
Proof.
  unfold Notification.updateMany.
  induction ns as [|n ns IH]; cbn [map filter];
    [now destruct (String.eqb u me)|].
  rewrite (matches_all me n).
  destruct (String.eqb (Notification.recipient_id n) me) eqn:E.
  - apply String.eqb_eq in E.
    cbn [Notification.recipient_id Notification.set_read
         Notification.is_read negb].
    rewrite andb_false_r. rewrite IH.
    destruct (String.eqb u me) eqn:U; [reflexivity|].
    rewrite E. rewrite String.eqb_sym, U. reflexivity.
  - destruct (String.eqb u me) eqn:U.
    + apply String.eqb_eq in U. subst u. rewrite E. cbn [andb]. exact IH.
    + destruct (_ && _); cbn [List.length]; rewrite IH; reflexivity.
Qed.

Lemma markAsRead_all (db : Db) (me : User.t) :
  Http.markAsRead db me None
  = (set_notifications
       (Notification.updateMany (notifications db) (User._id me) []) db,
     Json 200 tt).
Proof. reflexivity. Qed.

(** X22.  The request to mark as read without ids succeeds.  After it the
    unread count that the listing reports for the requester is 0, the
    listing restricted to unread notifications is empty, and the unread
    count of every other user is as before; a second such request leaves
    every unread count as the first left it. *)
Theorem markAll_clears_unread
        (db : Db) (me other : User.t) (page limit : nat) :
  snd (Http.markAsRead db me None) = Json 200 tt
  /\ NotificationController.unreadCount (fst (Http.markAsRead db me None)) me
     = 0
  /\ (User._id other <> User._id me ->
      NotificationController.unreadCount (fst (Http.markAsRead db me None))
                                         other
      = NotificationController.unreadCount db other)
  /\ NotificationController.unreadCount
       (fst (Http.markAsRead (fst (Http.markAsRead db me None)) me None))
       other
     = NotificationController.unreadCount (fst (Http.markAsRead db me None))
                                          other
  /\ (0 < page ->
      exists pg,
        NotificationController.getNotifications
          (fst (Http.markAsRead db me None)) me page limit (Some "true")
        = Json 200 (pg, 0)
        /\ documents pg = [] /\ results pg = 0).
Proof.
  rewrite !markAsRead_all. cbn [fst snd].
  unfold NotificationController.unreadCount.
  cbn [notifications set_notifications].
  split; [reflexivity|]. split; [|split; [|split]].
  - rewrite unreadCount_after_markAll. now rewrite String.eqb_refl.
  - intros Hne. rewrite unreadCount_after_markAll.
    apply String.eqb_neq in Hne. now rewrite Hne.
  - rewrite !unreadCount_after_markAll.
    destruct (String.eqb (User._id other) (User._id me)); reflexivity.
  - intros Hp. unfold NotificationController.getNotifications.
    destruct (page =? 0) eqn:E; [apply Nat.eqb_eq in E; lia|].
    cbn [andb]. unfold NotificationController.unreadCount.
    cbn [notifications set_notifications].
    assert (Hnone :
      filter (NotificationController.query me (Some "true"))
             (Notification.updateMany (notifications db) (User._id me) [])
      = []).
    { unfold NotificationController.query, Notification.updateMany,
        Notification.matches.
      cbn [String.eqb Ascii.eqb Bool.eqb].
      induction (notifications db) as [|n ns IH]; simpl; [reflexivity|].
      rewrite andb_true_r.
      destruct (String.eqb (Notification.recipient_id n) (User._id me)) eqn:R.
      - cbn [Notification.recipient_id Notification.set_read
             Notification.is_read negb]. rewrite andb_false_r. exact IH.
      - rewrite R. cbn [andb]. exact IH. }
    rewrite Hnone. rewrite unreadCount_after_markAll, String.eqb_refl.
    eexists. split; [reflexivity|]. cbn.
    unfold Query.skip_limit. destruct (limit =? 0);
      rewrite skipn_nil; [|rewrite firstn_nil]; split; reflexivity.
Qed.

(** Bob has marked everything as read; Alice's two notifications stay
    unread. *)
Lemma markAll_clears_unread_witness :
  NotificationController.unreadCount
    (fst (Http.markAsRead Sample.db2 Sample.bob None)) Sample.bob = 0
  /\ NotificationController.unreadCount
       (fst (Http.markAsRead Sample.db2 Sample.bob None)) Sample.alice = 2.
Proof.
  destruct (markAll_clears_unread Sample.db2 Sample.bob Sample.alice 1 20)
    as [_ [H0 [H1 _]]].
  split; [exact H0|]. rewrite H1; [reflexivity | discriminate].
Defined.

(** ** The channel listing *)

Lemma populate_members_In (us : list User.t) (members : list ObjectId)
      (u : User.t) :
  In u (ChannelController.populate_members us members) ->
  In u us /\ In (User._id u) members.
Proof.
  induction members as [|i rest IH]; simpl; [contradiction|].
  destruct (User.findById us i) as [v|] eqn:F.
  - destruct (find_by_id_sound User._id _ _ F) as [Hin Hid].
    intros [E | H].
    + subst v. split; [assumption | now left].
    + destruct (IH H). split; [assumption | now right].
  - intros H. destruct (IH H). split; [assumption | now right].
Qed.

(** X23.  The channel listing gives every user exactly the public channels
    of the database, member or not, and as direct channels exactly the
    direct channels that have the user among the members.  The other user
    shown with a direct channel is a user of the database, a member of that
    channel and not the requester, and the entry carries that user's
    display name; an entry without such a user carries "Deleted User". *)
Theorem getAllChannels_contents (db : Db) (me : User.t) :
  (forall c, In c (fst (ChannelController.getAllChannels db me)) <->
             In c (channels db) /\ Channel.type c = Channel.public)
  /\ (forall c, In c (map ChannelController.channel
                          (snd (ChannelController.getAllChannels db me))) <->
                In c (channels db) /\ Channel.type c = Channel.dm
                /\ In (User._id me) (Channel.members c))
  /\ (forall e, In e (snd (ChannelController.getAllChannels db me)) ->
        match ChannelController.other_user e with
        | Some u =>
            ChannelController.display_name e = User.display_name u
            /\ In u (users db)
            /\ In (User._id u) (Channel.members (ChannelController.channel e))
            /\ User._id u <> User._id me
        | None => ChannelController.display_name e = "Deleted User"
        end).
Proof.
  unfold ChannelController.getAllChannels. cbn [fst snd].
  split; [|split].
  - intros c. rewrite sort_In, filter_In.
    destruct (Channel.type c); cbn; intuition congruence.
  - intros c. rewrite map_map. cbn [ChannelController.format
      ChannelController.channel]. rewrite map_id, sort_In, filter_In.
    rewrite andb_true_iff, includes_In.
    destruct (Channel.type c); cbn; intuition congruence.
  - intros e He. apply in_map_iff in He. destruct He as [c [Hc _]].
    subst e. unfold ChannelController.format.
    cbn [ChannelController.other_user ChannelController.display_name
         ChannelController.channel].
    destruct (find _ _) as [u|] eqn:F; [|reflexivity].
    apply find_some in F. destruct F as [Hin Hne].
    apply populate_members_In in Hin. destruct Hin as [Hu Hm].
    apply negb_true_iff, String.eqb_neq in Hne. now repeat split.
Qed.

(** X24.  A direct channel of the requester and one other user of the
    database is listed under the other user's display name, whichever of
    the two comes first among the members. *)
Theorem direct_channel_named_after_other
        (db : Db) (me other : User.t) (c : Channel.t) :
  In c (channels db) ->
  Channel.type c = Channel.dm ->
  Channel.members c = [User._id me; User._id other]
  \/ Channel.members c = [User._id other; User._id me] ->
  User._id other <> User._id me ->
  User.findById (users db) (User._id other) = Some other ->
  In (ChannelController.mkDirect c (User.display_name other) (Some other))
     (snd (ChannelController.getAllChannels db me)).
Proof.
  intros Hc Hty Hm Hne Hf.
  unfold ChannelController.getAllChannels. cbn [snd].
  apply in_map_iff. exists c. split.
  - unfold ChannelController.format.
    assert (Hfind :
      find (fun member => negb (String.eqb (User._id member) (User._id me)))
           (ChannelController.populate_members (users db) (Channel.members c))
      = Some other).
    { assert (Hother :
        negb (String.eqb (User._id other) (User._id me)) = true)
        by now apply negb_true_iff, String.eqb_neq.
      destruct Hm as [Hm | Hm]; rewrite Hm; simpl; rewrite Hf.
      - destruct (User.findById (users db) (User._id me)) as [v|] eqn:Fv.
        + destruct (find_by_id_sound User._id _ _ Fv) as [_ Hid].
          simpl. rewrite Hid, String.eqb_refl. cbn [negb].
          now rewrite Hother.
        + simpl. now rewrite Hother.
      - simpl. now rewrite Hother. }
    rewrite Hfind. reflexivity.
  - rewrite sort_In, filter_In. split; [assumption|].
    rewrite Hty. cbn [Channel.type_eqb andb]. apply includes_In.
    destruct Hm as [Hm | Hm]; rewrite Hm; simpl; auto.
Qed.

(** Alice and Bob each see their direct channel under the other's name. *)
Lemma direct_channel_named_after_other_witness :
  In (ChannelController.mkDirect Sample.dm_ab "Bob" (Some Sample.bob))
     (snd (ChannelController.getAllChannels Sample.db1 Sample.alice))
  /\ In (ChannelController.mkDirect Sample.dm_ab "Alice" (Some Sample.alice))
        (snd (ChannelController.getAllChannels Sample.db1 Sample.bob)).
Proof.
  split.
  - apply (@direct_channel_named_after_other Sample.db1 Sample.alice
             Sample.bob Sample.dm_ab).
    + simpl. auto.
    + reflexivity.
    + left. reflexivity.
    + discriminate.
    + reflexivity.
  - apply (@direct_channel_named_after_other Sample.db1 Sample.bob
             Sample.alice Sample.dm_ab).
    + simpl. auto.
    + reflexivity.
    + right. reflexivity.
    + discriminate.
    + reflexivity.
Defined.

(** ** Rooms *)

Lemma channel_room_inj (a b : ObjectId) :
  Rooms.channel_room a = Rooms.channel_room b -> a = b.
Proof. unfold Rooms.channel_room. simpl. intros H. now inversion H. Qed.

Lemma is_in_join (r : Rooms.t) (sid room s' room' : string) :
  Rooms.is_in (Rooms.join r sid room) s' room'
  = Rooms.is_in r s' room' || (String.eqb sid s' && String.eqb room room').
Proof.
  unfold Rooms.join. destruct (Rooms.is_in r sid room) eqn:E.
  - destruct (String.eqb sid s') eqn:S1; [|now rewrite orb_false_r].
    destruct (String.eqb room room') eqn:S2; [|now rewrite orb_false_r].
    apply String.eqb_eq in S1, S2. subst. now rewrite E.
  - unfold Rooms.is_in. rewrite existsb_app. cbn [existsb fst snd].
    now rewrite orb_false_r.
Qed.

Lemma is_in_leave (r : Rooms.t) (sid room s' room' : string) :
  Rooms.is_in (Rooms.leave r sid room) s' room'
  = Rooms.is_in r s' room'
    && negb (String.eqb sid s' && String.eqb room room').
Proof.
  unfold Rooms.leave, Rooms.is_in.
  induction r as [|[s0 r0] r IH]; [reflexivity|].
  cbn [filter existsb fst snd].
  destruct (String.eqb s0 sid && String.eqb r0 room) eqn:H;
    cbn [negb existsb fst snd]; rewrite IH.
  - apply andb_true_iff in H. destruct H as [H1 H2].
    apply String.eqb_eq in H1, H2. subst s0 r0.
    destruct (String.eqb sid s' && String.eqb room room');
      cbn [negb orb]; [now rewrite !andb_false_r | reflexivity].
  - destruct (String.eqb s0 s' && String.eqb r0 room') eqn:G;
      cbn [orb]; [|reflexivity].
    apply andb_true_iff in G. destruct G as [G1 G2].
    apply String.eqb_eq in G1, G2. subst s0 r0.
    rewrite (String.eqb_sym sid s'), (String.eqb_sym room room'), H.
    reflexivity.
Qed.

Lemma io_to_In (r : Rooms.t) (s room : string) :
  In s (Rooms.io_to r room) <-> Rooms.is_in r s room = true.
Proof.
  unfold Rooms.io_to, Rooms.is_in. rewrite in_map_iff, existsb_exists.
  split.
  - intros [p [Hp Hin]]. apply filter_In in Hin. destruct Hin as [Hin Hr].
    exists p. split; [assumption|]. subst s. rewrite String.eqb_refl.
    exact Hr.
  - intros [p [Hin Hp]]. apply andb_true_iff in Hp. destruct Hp as [Hs Hr].
    apply String.eqb_eq in Hs. exists p. split; [assumption|].
    apply filter_In. now split.
Qed.

Lemma socket_to_In (r : Rooms.t) (sid s room : string) :
  In s (Rooms.socket_to r sid room) <->
  s <> sid /\ Rooms.is_in r s room = true.
Proof.
  unfold Rooms.socket_to. rewrite filter_In, io_to_In, negb_true_iff,
    String.eqb_neq. tauto.
Qed.

Lemma is_in_join_all (sid : string) (cs : list Channel.t) (r : Rooms.t)
      (s' room' : string) :
  Rooms.is_in
    (fold_left (fun acc c =>
                  Rooms.join acc sid (Rooms.channel_room (Channel._id c)))
               cs r) s' room'
  = Rooms.is_in r s' room'
    || (String.eqb sid s'
        && existsb (fun c => String.eqb (Rooms.channel_room (Channel._id c))
                                        room') cs).
Proof.
  revert r. induction cs as [|c cs IH]; intros r; cbn [fold_left existsb].
  - now rewrite andb_false_r, orb_false_r.
  - rewrite IH, is_in_join.
    destruct (Rooms.is_in r s' room'); destruct (String.eqb sid s');
      destruct (String.eqb _ room'); destruct (existsb _ cs); reflexivity.
Qed.

(** X25.  When a user connects, the socket is subscribed to the room of
    every channel that has the user among its members: it receives the new
    messages of these channels.  It receives the messages of another
    channel only if it was in that room before, and what the other sockets
    receive is not changed. *)
Theorem joinUserChannels_subscriptions
        (db : Db) (r : Rooms.t) (sid : string) (userId : ObjectId) :
  (forall c, In c (channels db) -> In userId (Channel.members c) ->
     In sid (Rooms.message_new (Rooms.joinUserChannels db r sid userId)
                               (Channel._id c)))
  /\ (forall id,
        In sid (Rooms.message_new (Rooms.joinUserChannels db r sid userId) id)
        -> In sid (Rooms.message_new r id)
           \/ exists c, In c (channels db) /\ Channel._id c = id
                        /\ In userId (Channel.members c))
  /\ (forall s' id, s' <> sid ->
        (In s' (Rooms.message_new (Rooms.joinUserChannels db r sid userId) id)
         <-> In s' (Rooms.message_new r id))).
Proof.
  unfold Rooms.message_new, Rooms.joinUserChannels.
  split; [|split].
  - intros c Hc Hm. apply io_to_In. rewrite is_in_join_all.
    rewrite String.eqb_refl. cbn [andb]. apply orb_true_iff. right.
    apply existsb_exists. exists c. split.
    + apply filter_In. split; [assumption | now apply includes_In].
    + apply String.eqb_refl.
  - intros id H. apply io_to_In in H. rewrite is_in_join_all in H.
    apply orb_true_iff in H. destruct H as [H | H].
    + left. now apply io_to_In.
    + right. apply andb_true_iff in H. destruct H as [_ H].
      apply existsb_exists in H. destruct H as [c [Hin He]].
      apply filter_In in Hin. destruct Hin as [Hin Hm].
      apply String.eqb_eq, channel_room_inj in He.
      exists c. repeat split; [assumption | assumption |].
      now apply includes_In.
  - intros s' id Hne. rewrite !io_to_In, is_in_join_all.
    apply not_eq_sym in Hne. apply String.eqb_neq in Hne. rewrite Hne.
    cbn [andb]. now rewrite orb_false_r.
Qed.

(** X26.  The room events of a socket.  After ['channel:join'] the socket
    receives the new messages of the channel, and the handler consults no
    membership; after ['channel:leave'] it does not.  Leaving undoes a join
    of a room the socket was not in, and changes nothing for another socket
    or another channel.  A typing event reaches the sockets of the
    channel's room but never the socket that sent it. *)
Theorem room_events (r : Rooms.t) (sid : string) (channel_id : ObjectId) :
  In sid (Rooms.message_new (Rooms.channel_join r sid channel_id) channel_id)
  /\ ~ In sid (Rooms.message_new (Rooms.channel_leave r sid channel_id)
                                 channel_id)
  /\ (Rooms.is_in r sid (Rooms.channel_room channel_id) = false ->
      Rooms.channel_leave (Rooms.channel_join r sid channel_id) sid channel_id
      = r)
  /\ (forall s' id', s' <> sid \/ id' <> channel_id ->
        (In s' (Rooms.message_new (Rooms.channel_leave r sid channel_id) id')
         <-> In s' (Rooms.message_new r id')))
  /\ ~ In sid (Rooms.typing r sid channel_id)
  /\ (forall s', s' <> sid ->
        (In s' (Rooms.typing r sid channel_id)
         <-> In s' (Rooms.message_new r channel_id))).
Proof.
  unfold Rooms.message_new, Rooms.channel_join, Rooms.channel_leave,
    Rooms.typing.
  split; [|split; [|split; [|split; [|split]]]].
  - apply io_to_In. rewrite is_in_join, !String.eqb_refl.
    apply orb_true_r.
  - rewrite io_to_In, is_in_leave, !String.eqb_refl.
    cbn [andb negb]. rewrite andb_false_r. discriminate.
  - intros Hout. unfold Rooms.join. rewrite Hout. unfold Rooms.leave.
    rewrite filter_app. cbn [filter fst snd]. rewrite !String.eqb_refl.
    cbn [andb negb]. rewrite app_nil_r.
    unfold Rooms.is_in in Hout.
    induction r as [|p r IH]; [reflexivity|].
    cbn [existsb] in Hout. apply orb_false_iff in Hout.
    destruct Hout as [Hp Hr]. cbn [filter]. rewrite Hp. cbn [negb].
    now rewrite IH.
  - intros s' id' Hne. rewrite !io_to_In, is_in_leave.
    assert (Hoff : String.eqb sid s'
                   && String.eqb (Rooms.channel_room channel_id)
                                 (Rooms.channel_room id') = false).
    { apply andb_false_iff. destruct Hne as [Hne | Hne].
      - left. apply String.eqb_neq. congruence.
      - right. apply String.eqb_neq. intros E.
        apply channel_room_inj in E. congruence. }
    rewrite Hoff. cbn [negb]. now rewrite andb_true_r.
  - rewrite socket_to_In. tauto.
  - intros s' Hne. rewrite socket_to_In, io_to_In. tauto.
Qed.

(** ** Mentions *)

Lemma list_ascii_app (a b : string) :
  list_ascii_of_string (a ++ b)
  = list_ascii_of_string a ++ list_ascii_of_string b.
Proof. induction a as [|c a IH]; simpl; [reflexivity | now rewrite IH]. Qed.

Lemma scan_tokens (s : string) :
  forall (cur : option string) (t : string),
    (forall w, cur = Some w ->
               forallb is_word (list_ascii_of_string w) = true) ->
    In t (Mentions.scan s cur) ->
    exists w, t = String "@" w /\ w <> ""
              /\ forallb is_word (list_ascii_of_string w) = true.
Proof.
  assert (Hemit : forall w t,
    forallb is_word (list_ascii_of_string w) = true ->
    In t (if String.eqb w "" then [] else [String "@" w]) ->
    exists w, t = String "@" w /\ w <> ""
              /\ forallb is_word (list_ascii_of_string w) = true).
  { intros w t Hw Hin. destruct (String.eqb w "") eqn:E; [contradiction|].
    apply String.eqb_neq in E. destruct Hin as [<- | []].
    exists w. auto. }
  assert (Hnext : forall (c : ascii) w,
    (if Ascii.eqb c "@" then Some "" else None) = Some w ->
    forallb is_word (list_ascii_of_string w) = true).
  { intros c w. destruct (Ascii.eqb c "@"); [|discriminate].
    intros E. inversion E. reflexivity. }
  induction s as [|c r IH]; intros cur t Hcur Hin.
  - destruct cur as [w|]; simpl in Hin; [|contradiction].
    eapply Hemit; [|eassumption]. now apply Hcur.
  - destruct cur as [w|]; cbn [Mentions.scan] in Hin.
    + destruct (is_word c) eqn:W.
      * apply (IH _ _) in Hin; [assumption|].
        intros w' E. inversion E. rewrite list_ascii_app, forallb_app.
        rewrite (Hcur w eq_refl). simpl. now rewrite W.
      * apply in_app_or in Hin. destruct Hin as [Hin | Hin].
        -- eapply Hemit; [|eassumption]. now apply Hcur.
        -- apply (IH _ _) in Hin; [assumption | apply Hnext].
    + apply (IH _ _) in Hin; [assumption | apply Hnext].
Qed.

Lemma scan_without_at (s : string) :
  ~ In "@"%char (list_ascii_of_string s) -> Mentions.scan s None = [].
Proof.
  induction s as [|c r IH]; intros H; [reflexivity|].
  cbn [Mentions.scan]. destruct (Ascii.eqb c "@") eqn:E.
  - apply Ascii.eqb_eq in E. exfalso. apply H. simpl. now left.
  - apply IH. intros Hin. apply H. simpl. now right.
Qed.

(** X27.  Every mention taken from a content is an [@] followed by at
    least one character, all of them word characters (letters, digits or
    the underscore); a content without [@] gives no mention. *)
Theorem mention_tokens (content : string) :
  (forall t, In t (Mentions.mentionRegex_match content) ->
     exists w, t = String "@" w /\ w <> ""
               /\ forallb is_word (list_ascii_of_string w) = true)
  /\ (~ In "@"%char (list_ascii_of_string content) ->
      Mentions.mentionRegex_match content = []).
Proof.
  unfold Mentions.mentionRegex_match. split.
  - intros t Hin. eapply scan_tokens; [|eassumption]. discriminate.
  - apply scan_without_at.
Qed.

Lemma loop_creates (db : Db) (message_id channel_id : ObjectId)
      (author : Mentions.AuthorField) (fresh : nat -> ObjectId) (now : Z)
      (mentions : list string) :
  forall (k : nat) (n : Notification.t),
    In n (Mentions.loop db message_id channel_id author fresh now mentions k)
    -> Notification.type n = Notification.mention
       /\ Notification.is_read n = false
       /\ Notification.message_id n = Some message_id
       /\ Notification.channel_id n = Some channel_id
       /\ Notification.created_at n = now
       /\ Mentions.cast author = Some (Notification.sender_id n)
       /\ exists user t,
            In t mentions /\ In user (users db)
            /\ Notification.recipient_id n = User._id user
            /\ toLowerCase (User.display_name user)
               = toLowerCase (substring1 t).
Proof.
  induction mentions as [|mention rest IH]; intros k n Hin;
    [contradiction|].
  assert (Hrest : forall k',
    In n (Mentions.loop db message_id channel_id author fresh now rest k') ->
    Notification.type n = Notification.mention
    /\ Notification.is_read n = false
    /\ Notification.message_id n = Some message_id
    /\ Notification.channel_id n = Some channel_id
    /\ Notification.created_at n = now
    /\ Mentions.cast author = Some (Notification.sender_id n)
    /\ exists user t,
         In t (mention :: rest) /\ In user (users db)
         /\ Notification.recipient_id n = User._id user
         /\ toLowerCase (User.display_name user)
            = toLowerCase (substring1 t)).
  { intros k' H. destruct (IH k' n H)
      as [H1 [H2 [H3 [H4 [H5 [H6 [user [t [Ht Hu]]]]]]]]].
    repeat (split; [assumption|]). exists user, t.
    split; [now right | assumption]. }
  cbn [Mentions.loop] in Hin.
  destruct (User.findOneByDisplayName (users db) (substring1 mention))
    as [user|] eqn:F; [|now apply (Hrest k)].
  destruct (Mentions.toString author) as [author_string|]; [|contradiction].
  destruct (negb (String.eqb (User._id user) author_string));
    [|now apply (Hrest k)].
  destruct (Mentions.findSender db author) as [sender|]; [|contradiction].
  destruct (Mentions.cast author) as [sender_id|]; [|contradiction].
  destruct Hin as [<- | Hin]; [|now apply (Hrest (S k))].
  cbn. repeat (split; [reflexivity|]).
  unfold User.findOneByDisplayName in F. apply find_some in F.
  destruct F as [Hu He]. apply String.eqb_eq in He.
  exists user, mention. repeat split; [now left | assumption | assumption].
Qed.

(** X28.  Mention processing only adds notifications.  Each one it adds is
    an unread notification of type mention for the message and its
    channel, dated now, sent by the message's author and addressed to a
    user of the database whose display name, up to the case of letters,
    follows an [@] in the content.  A content without [@] leaves the
    notifications as they are. *)
Theorem processMentions_creates
        (db : Db) (message : Message.t) (author : Mentions.AuthorField)
        (fresh : nat -> ObjectId) (now : Z) :
  (exists added,
     notifications (Mentions.processMentions db message author fresh now)
     = notifications db ++ added
     /\ (forall n, In n added ->
           Notification.type n = Notification.mention
           /\ Notification.is_read n = false
           /\ Notification.message_id n = Some (Message._id message)
           /\ Notification.channel_id n = Some (Message.channel_id message)
           /\ Notification.created_at n = now
           /\ Mentions.cast author = Some (Notification.sender_id n)
           /\ exists user content t,
                Message.content message = Some content
                /\ In t (Mentions.mentionRegex_match content)
                /\ In user (users db)
                /\ Notification.recipient_id n = User._id user
                /\ toLowerCase (User.display_name user)
                   = toLowerCase (substring1 t)))
  /\ users (Mentions.processMentions db message author fresh now) = users db
  /\ channels (Mentions.processMentions db message author fresh now)
     = channels db
  /\ messages (Mentions.processMentions db message author fresh now)
     = messages db
  /\ (forall content,
        Message.content message = Some content ->
        ~ In "@"%char (list_ascii_of_string content) ->
        Mentions.processMentions db message author fresh now = db).
Proof.
  split; [|split; [reflexivity | split; [reflexivity | split;
    [reflexivity|]]]].
  - exists (Mentions.created db message author fresh now).
    split; [reflexivity|]. intros n Hin. unfold Mentions.created in Hin.
    destruct (Message.content message) as [content|] eqn:C; [|contradiction].
    destruct (loop_creates _ _ _ _ _ _ _ _ _ Hin)
      as [H1 [H2 [H3 [H4 [H5 [H6 [user [t [Ht Hu]]]]]]]]].
    repeat (split; [assumption|]). exists user, content, t.
    split; [reflexivity|]. split; assumption.
  - intros content C Hno. unfold Mentions.processMentions, Mentions.created.
    rewrite C. unfold Mentions.mentionRegex_match.
    rewrite (scan_without_at _ Hno). cbn [Mentions.loop].
    rewrite app_nil_r. now destruct db.
Qed.

(** ** Usage of the AI features *)

Lemma find_after_replace {A} (p : A -> bool) (g : A -> A) (l : list A)
      (a a' : A) :
  find p l = Some a ->
  p a' = true ->
  g a = a' ->
  (forall d, g d = d \/ g d = a') ->
  find p (map g l) = Some a'.
Proof.
  intros Hf Hp Hg Hd. induction l as [|d l IH]; simpl in *; [discriminate|].
  destruct (p d) eqn:P.
  - inversion Hf. subst d. now rewrite Hg, Hp.
  - destruct (Hd d) as [E | E]; rewrite E.
    + rewrite P. now apply IH.
    + now rewrite Hp.
Qed.

Lemma find_unaffected {A} (q : A -> bool) (g : A -> A) (l : list A) :
  (forall d, In d l -> g d = d \/ (q d = false /\ q (g d) = false)) ->
  find q (map g l) = find q l.
Proof.
  induction l as [|d l IH]; intros H; simpl; [reflexivity|].
  destruct (H d (or_introl eq_refl)) as [E | [E1 E2]].
  - rewrite E. destruct (q d); [reflexivity|].
    apply IH. intros x Hx. apply H. now right.
  - rewrite E1, E2. apply IH. intros x Hx. apply H. now right.
Qed.

(** X29.  Tracking a request of a known feature succeeds and raises the
    count of the user and the feature for the day by exactly one, whether
    a record of the day exists or is created; the record returned carries
    the new count.  With unique record ids, the count of any other user or
    feature is left as it was. *)
Theorem trackUsage_counts
        (usages : list AIUsage.t) (userId : ObjectId) (featureType : string)
        (today now : Z) (fresh : ObjectId) :
  (today <= now < today + AIUsage.day)%Z ->
  In featureType AIUsage.features ->
  exists usages' usage,
    AIUsage.trackUsage usages userId featureType today now fresh
    = Ok (usages', usage)
    /\ AIUsage.count usages' userId featureType today
       = S (AIUsage.count usages userId featureType today)
    /\ AIUsage.request_count usage
       = AIUsage.count usages' userId featureType today
    /\ (NoDup (map AIUsage._id usages) ->
        forall u f, u <> userId \/ f <> featureType ->
          AIUsage.count usages' u f today = AIUsage.count usages u f today).
Proof.
  intros Hday Hfeat. unfold AIUsage.trackUsage, AIUsage.count.
  destruct (find (AIUsage.of_day userId featureType today) usages)
    as [usage|] eqn:F.
  - eexists. eexists. split; [reflexivity|].
    pose proof (find_some _ _ F) as [Hin Hp].
    set (usage' := AIUsage.mk (AIUsage._id usage) (AIUsage.user_id usage)
                     (AIUsage.date usage) (AIUsage.request_count usage + 1)
                     (AIUsage.feature_type usage)).
    assert (Hfound :
      find (AIUsage.of_day userId featureType today)
           (map (fun d => if String.eqb (AIUsage._id d) (AIUsage._id usage)
                          then usage' else d) usages) = Some usage').
    { apply find_after_replace with (a := usage).
      - exact F.
      - exact Hp.
      - now rewrite String.eqb_refl.
      - intros d. destruct (String.eqb _ _); auto. }
    rewrite Hfound. cbn [AIUsage.request_count usage'].
    split; [lia | split; [reflexivity|]].
    intros Hnd u f Hne.
    rewrite find_unaffected; [reflexivity|].
    intros d Hd. destruct (String.eqb (AIUsage._id d) (AIUsage._id usage))
      eqn:E; [|now left].
    right. apply String.eqb_eq in E.
    assert (d = usage)
      by exact (@NoDup_map_injective _ _ AIUsage._id usages d usage
                  Hnd Hd Hin E).
    subst d. unfold AIUsage.of_day in *.
    cbn [usage' AIUsage.user_id AIUsage.feature_type AIUsage.date].
    apply andb_true_iff in Hp. destruct Hp as [Hp _].
    apply andb_true_iff in Hp. destruct Hp as [Hu Hf].
    apply String.eqb_eq in Hu, Hf.
    assert (String.eqb (AIUsage.user_id usage) u
            && String.eqb (AIUsage.feature_type usage) f = false).
    { apply andb_false_iff. destruct Hne as [Hne | Hne].
      - left. apply String.eqb_neq. congruence.
      - right. apply String.eqb_neq. congruence. }
    rewrite H. now split.
  - assert (Hex : existsb (String.eqb featureType) AIUsage.features = true).
    { apply existsb_exists. exists featureType.
      split; [assumption | apply String.eqb_refl]. }
    rewrite Hex. eexists. eexists. split; [reflexivity|].
    rewrite (find_none_snoc _ _ _ F).
    assert (Hnew : AIUsage.of_day userId featureType today
                     (AIUsage.mk fresh userId now 1 featureType) = true).
    { unfold AIUsage.of_day.
      cbn [AIUsage.user_id AIUsage.feature_type AIUsage.date].
      rewrite !String.eqb_refl. cbn [andb].
      apply andb_true_iff. split; [apply Z.leb_le | apply Z.ltb_lt]; lia. }
    rewrite Hnew. cbn [AIUsage.request_count].
    split; [reflexivity | split; [reflexivity|]].
    intros _ u f Hne.
    assert (Hoff : AIUsage.of_day u f today
                     (AIUsage.mk fresh userId now 1 featureType) = false).
    { unfold AIUsage.of_day.
      cbn [AIUsage.user_id AIUsage.feature_type AIUsage.date].
      assert (String.eqb userId u && String.eqb featureType f = false).
      { apply andb_false_iff. destruct Hne as [Hne | Hne].
        - left. apply String.eqb_neq. congruence.
        - right. apply String.eqb_neq. congruence. }
      now rewrite H. }
    destruct (find (AIUsage.of_day u f today) usages) as [x|] eqn:G.
    + assert (Hkeep : forall l, find (AIUsage.of_day u f today) l = Some x ->
                find (AIUsage.of_day u f today)
                     (l ++ [AIUsage.mk fresh userId now 1 featureType])
                = Some x).
      { induction l as [|d l IHl]; simpl; [discriminate|].
        destruct (AIUsage.of_day u f today d); [auto | exact IHl]. }
      now rewrite (Hkeep _ G).
    + rewrite (find_none_snoc _ _ _ G), Hoff. reflexivity.
Qed.

(** Bob uses the reply feature twice on one day. *)
Lemma trackUsage_counts_witness :
  exists usages' usage,
    AIUsage.trackUsage
      [AIUsage.mk "6500000000000000000000e1" (User._id Sample.bob) 86400500 1
                  "reply"]
      (User._id Sample.bob) "reply" 86400000 86460000
      "6500000000000000000000e2"
    = Ok (usages', usage)
    /\ AIUsage.count usages' (User._id Sample.bob) "reply" 86400000 = 2.
Proof.
  destruct (@trackUsage_counts
              [AIUsage.mk "6500000000000000000000e1" (User._id Sample.bob)
                          86400500 1 "reply"]
              (User._id Sample.bob) "reply" 86400000 86460000
              "6500000000000000000000e2")
    as [usages' [usage [H1 [H2 _]]]].
  - unfold AIUsage.day. lia.
  - simpl. auto.
  - exists usages', usage. split; [exact H1 | exact H2].
Defined.
